(** * Betweenness centrality of road segments: a shallow embedding

    The Python package computes a centrality score for every road segment of
    an OpenStreetMap street network, either exactly (class [Networkx]) or by
    sampling random shortest routes (class [Geo]), joins the scores with the
    edge geometry and writes a GeoPackage and a PNG map into a folder named
    after the run.

    The embedding follows [mypackage/mymodule1.py], [mypackage/mymodule2.py]
    and [main.py].  Python exceptions are values of [exn]; a call that may
    raise returns [res]; the unbounded [while] loop of [Geo.generate_routes]
    takes fuel; the random generator, the file system and the standard output
    are threaded explicitly.  The calls into numpy, networkx, osmnx, pandas,
    [os.path] and [argparse] are modelled by the small executable functions
    of the first part, each with the library behaviour it stands for. *)

From Stdlib Require Import ZArith QArith Qminmax Qabs List String Ascii Bool Arith Lia.
From Stdlib Require Import DecimalString Sorted.
From Stdlib Require DecimalZ DecimalPos.
Import ListNotations.

Open Scope string_scope.
Open Scope Z_scope.

(* ================================================================= *)
(** ** Python values: exceptions, results, [str] *)

Inductive exn : Type :=
| ValueError
| KeyError
| TypeError
| AttributeError
| NameError
| FileExistsError
| FileNotFoundError
| NotADirectoryError
| IsADirectoryError
| DriverError
| SystemExit (code : Z).

Inductive res (A : Type) : Type :=
| Ok (a : A)
| Raise (e : exn).

Arguments Ok {A} a.
Arguments Raise {A} e.

Definition bind {A B : Type} (m : res A) (k : A -> res B) : res B :=
  match m with
  | Ok a => k a
  | Raise e => Raise e
  end.

Notation "x <- m ;; k" := (bind m (fun x => k))
  (at level 61, m at next level, right associativity).
Notation "' p <- m ;; k" := (bind m (fun p => k))
  (at level 61, p pattern, m at next level, right associativity).

(** [[f(x) for x in l]] where [f] may raise: the first exception wins. *)
Fixpoint mapM {A B : Type} (f : A -> res B) (l : list A) : res (list B) :=
  match l with
  | [] => Ok []
  | x :: l' => y <- f x ;; ys <- mapM f l' ;; Ok (y :: ys)
  end.

(** [str(i)] for a Python [int]. *)
Definition str_of_int (z : Z) : string := NilZero.string_of_int (Z.to_int z).

(** [", ".join(l)] *)
Fixpoint comma_join (l : list string) : string :=
  match l with
  | [] => ""
  | [s] => s
  | s :: l' => s ++ ", " ++ comma_join l'
  end.

(** The formatting of an attribute that may still be [None] inside an
    f-string: [f"{None}"] is ["None"]. *)
Definition fmt {A : Type} (f : A -> string) (o : option A) : string :=
  match o with
  | Some a => f a
  | None => "None"
  end.

(* ================================================================= *)
(** ** The road network (networkx [MultiDiGraph] as osmnx builds it) *)

Definition node : Type := Z.
Definition route : Type := list node.

(** An edge is identified by (origin, destination, parallel-edge index). *)
Definition edge_key : Type := (node * node * Z)%type.

(** The [osmid] attribute: one way id, or the list of the ids merged into a
    simplified edge. *)
Inductive osmid_t : Type :=
| OsmId (i : Z)
| OsmIds (l : list Z).

Definition linestring : Type := list (Q * Q).

Record edge_data : Type := {
  osmid : osmid_t;
  e_length : Q;
  highway : string;
  geometry : linestring;
  speed_kph : option Q;
  travel_time : option Q
}.

Record edge : Type := {
  e_u : node;
  e_v : node;
  e_k : Z;
  e_data : edge_data
}.

Definition key_of (e : edge) : edge_key := (e_u e, e_v e, e_k e).

(** [nodes] and [edges] are in insertion order, which is the order in which
    networkx iterates over them. *)
Record MultiDiGraph : Type := {
  nodes : list node;
  edges : list edge
}.

Definition key_eqb (a b : edge_key) : bool :=
  let '(u1, v1, k1) := a in
  let '(u2, v2, k2) := b in
  (u1 =? u2) && (v1 =? v2) && (k1 =? k2).

(** Lexicographic order on edge keys: the order of a sorted pandas
    [MultiIndex] with integer levels. *)
Definition key_ltb (a b : edge_key) : bool :=
  let '(u1, v1, k1) := a in
  let '(u2, v2, k2) := b in
  (u1 <? u2) || ((u1 =? u2) && ((v1 <? v2) || ((v1 =? v2) && (k1 <? k2)))).

Definition mem (x : node) (l : list node) : bool := existsb (Z.eqb x) l.

(** [G[u][v].items()]: the parallel edges from [u] to [v]. *)
Definition parallel (G : MultiDiGraph) (u v : node) : list edge :=
  filter (fun e => (e_u e =? u) && (e_v e =? v)) (edges G).

(** The edge attribute named [w]; networkx weighs an edge that lacks the
    attribute with 1. *)
Definition edge_weight (w : string) (d : edge_data) : Q :=
  if String.eqb w "length" then e_length d
  else if String.eqb w "travel_time" then
    match travel_time d with Some t => t | None => 1%Q end
  else if String.eqb w "speed_kph" then
    match speed_kph d with Some t => t | None => 1%Q end
  else 1%Q.

(* ================================================================= *)
(** ** numpy: [np.random.choice(a, size=k, replace=True)] *)

(** The generator is a tape of raw draws and a read position; a draw [d]
    picks the element of index [d mod len(a)]. *)
Record rng : Type := {
  tape : nat -> nat;
  pos : nat
}.

Definition advance (k : nat) (g : rng) : rng :=
  {| tape := tape g; pos := (pos g + k)%nat |}.

Definition pick (a : list node) (g : rng) (i : nat) : node :=
  nth (Nat.modulo (tape g (pos g + i)%nat) (List.length a)) a 0.

(** numpy raises [ValueError] for a negative size, and for an empty
    population unless no sample is taken. *)
Definition random_choice (a : list node) (size : Z) (g : rng)
  : res (list node * rng) :=
  if size <? 0 then Raise ValueError
  else if (Nat.eqb (List.length a) 0) && (0 <? size) then Raise ValueError
  else
    let k := Z.to_nat size in
    Ok (map (pick a g) (seq 0 k), advance k g).

(* ================================================================= *)
(** ** networkx / osmnx routing *)

(** Every simple path from [cur] to [dest] that avoids [visited], with its
    weight; [fuel] bounds the number of edges. *)
Fixpoint simple_paths (G : MultiDiGraph) (w : string) (fuel : nat)
    (visited : list node) (cur dest : node) : list (Q * route) :=
  if cur =? dest then [(0%Q, [cur])]
  else
    match fuel with
    | O => []
    | S fuel' =>
        flat_map
          (fun e =>
             if (e_u e =? cur) && negb (mem (e_v e) (cur :: visited)) then
               map (fun wp => ((edge_weight w (e_data e) + fst wp)%Q, cur :: snd wp))
                   (simple_paths G w fuel' (cur :: visited) (e_v e) dest)
             else [])
          (edges G)
    end.

(** The first path of least weight. *)
Fixpoint lightest (l : list (Q * route)) : option (Q * route) :=
  match l with
  | [] => None
  | x :: l' =>
      match lightest l' with
      | Some y => if Qle_bool (fst x) (fst y) then Some x else Some y
      | None => Some x
      end
  end.

(** [ox.shortest_path(G, orig, dest, weight)] for one pair of nodes of [G]:
    a path of least weight as the list of its nodes, [[orig]] when
    [orig == dest], and [None] when [dest] cannot be reached
    (osmnx catches [NetworkXNoPath]).  Among several paths of the least
    weight networkx returns the one its search meets first; here it is
    the first in edge order, which need not be the same one. *)
Definition shortest_path (G : MultiDiGraph) (w : string) (orig dest : node)
  : option route :=
  match lightest (simple_paths G w (List.length (nodes G)) [] orig dest) with
  | Some wp => Some (snd wp)
  | None => None
  end.

(** [ox.shortest_path] for arrays of origins and destinations: one result
    per pair, in order. *)
Definition shortest_paths (route_of : node -> node -> option route)
    (origs dests : list node) : list (option route) :=
  map (fun od => route_of (fst od) (snd od)) (combine origs dests).

(* ================================================================= *)
(** ** osmnx / pandas frames *)

(** A row of an edge [GeoDataFrame]: the index [(u, v, key)] and the edge
    attributes. *)
Definition edge_row : Type := (edge_key * edge_data)%type.

Definition row_of (e : edge) : edge_row := (key_of e, e_data e).

(** [ox.graph_to_gdfs(G)]: the node frame and the edge frame, one row per
    node and per edge; osmnx raises [ValueError] for a graph without nodes
    or without edges. *)
Definition graph_to_gdfs (G : MultiDiGraph) : res (list node * list edge_row) :=
  match nodes G, edges G with
  | [], _ => Raise ValueError
  | _, [] => Raise ValueError
  | ns, es => Ok (ns, map row_of es)
  end.

(** [G.subgraph(route).edges]: the edges with both ends on the route. *)
Definition subgraph_edges (G : MultiDiGraph) (r : route) : list edge :=
  filter (fun e => mem (e_u e) r && mem (e_v e) r) (edges G).

(** [zip(route[:-1], route[1:])] *)
Definition hops (r : route) : list (node * node) := combine r (tl r).

(** [min(G[u][v].items(), key=lambda i: i[1]["length"])]: the first of the
    shortest parallel edges. *)
Fixpoint min_by_length (l : list edge) : option edge :=
  match l with
  | [] => None
  | e :: l' =>
      match min_by_length l' with
      | Some e' =>
          if Qle_bool (e_length (e_data e)) (e_length (e_data e')) then Some e
          else Some e'
      | None => Some e
      end
  end.

(** One hop of a route as a row; [G[u][v]] raises [KeyError] when there is
    no edge from [u] to [v]. *)
Definition hop_row (G : MultiDiGraph) (uv : node * node) : res edge_row :=
  match min_by_length (parallel G (fst uv) (snd uv)) with
  | Some e => Ok (row_of e)
  | None => Raise KeyError
  end.

(** [ox.routing.route_to_gdf(G, route)] (weight defaults to ["length"]):
    slicing [None] raises [TypeError]; [graph_to_gdfs] of the induced
    subgraph raises [ValueError] when it has no edge, which is the case of
    a route of a single node without a self-loop; then one row per hop. *)
Definition route_to_gdf (G : MultiDiGraph) (r : option route)
  : res (list edge_row) :=
  match r with
  | None => Raise TypeError
  | Some r =>
      match subgraph_edges G r with
      | [] => Raise ValueError
      | _ => mapM (hop_row G) (hops r)
      end
  end.

(** [pd.concat(frames)]: [ValueError] when there is nothing to concatenate. *)
Definition pd_concat {A : Type} (frames : list (list A)) : res (list A) :=
  match frames with
  | [] => Raise ValueError
  | _ => Ok (List.concat frames)
  end.

(** One more row for group [k] in a table of counts sorted by key. *)
Fixpoint count_row (k : edge_key) (t : list (edge_key * Z))
  : list (edge_key * Z) :=
  match t with
  | [] => [(k, 1)]
  | (k', c) :: t' =>
      if key_eqb k k' then (k', c + 1) :: t'
      else if key_ltb k k' then (k, 1) :: (k', c) :: t'
      else (k', c) :: count_row k t'
  end.

(** [df.groupby(["u", "v", "key"]).count()["osmid"]]: one row per distinct
    key, in key order, with the number of rows of the group (every edge
    row has an [osmid]). *)
Definition groupby_count (rows : list edge_row) : list (edge_key * Z) :=
  fold_left (fun t r => count_row (fst r) t) rows [].

(** A centrality value: the counts of the sampling method are integers,
    the scores of networkx are floats (read here as rationals). *)
Inductive num : Type :=
| PyInt (z : Z)
| PyFloat (q : Q).

Definition num_to_Q (x : num) : Q :=
  match x with
  | PyInt z => inject_Z z
  | PyFloat q => q
  end.

(** The centrality table: index [(u, v, key)], column [centrality]. *)
Definition table : Type := list (edge_key * num).

Fixpoint lookup {V : Type} (k : edge_key) (t : list (edge_key * V)) : option V :=
  match t with
  | [] => None
  | (k', v) :: t' => if key_eqb k k' then Some v else lookup k t'
  end.

(** The result of a pandas division: a number, or NaN, or an infinity. *)
Inductive fval : Type :=
| Fin (q : Q)
| NaN
| PosInf
| NegInf.

Definition is_zero (q : Q) : bool := Qeq_bool q 0.

(** Element-wise [a / b] as pandas computes it: [0 / 0] is NaN and
    [x / 0] an infinity, with no exception. *)
Definition fdiv (a b : Q) : fval :=
  if is_zero b then
    if is_zero a then NaN
    else if Qle_bool 0 a then PosInf else NegInf
  else Fin (a / b).

Definition fscale (x : fval) (k : Q) : fval :=
  match x with
  | Fin q => Fin (q * k)
  | other => other
  end.

(** [Series.min()] and [Series.max()] of a column without missing values
    ([None] stands for the NaN of an empty column). *)
Definition series_min (l : list Q) : option Q :=
  match l with
  | [] => None
  | x :: l' => Some (fold_left Qmin l' x)
  end.

Definition series_max (l : list Q) : option Q :=
  match l with
  | [] => None
  | x :: l' => Some (fold_left Qmax l' x)
  end.

(** A row of the centrality layer: the centrality table joined with
    [osmid] (as a string) and [geometry]; [l_weight] is the column that
    [plot_network] adds. *)
Record layer_row : Type := {
  l_key : edge_key;
  l_centrality : num;
  l_osmid : string;
  l_geometry : option linestring;
  l_weight : option fval
}.

(** [str] of an [osmid] cell; the cell of an unmatched row is NaN. *)
Definition str_of_osmid (o : option osmid_t) : string :=
  match o with
  | None => "nan"
  | Some (OsmId i) => str_of_int i
  | Some (OsmIds l) => "[" ++ comma_join (map str_of_int l) ++ "]"
  end.

(** [str] of a cell of an [osmid] column that pandas has turned into
    floats: the way id [22] reads ["22.0"] (way ids are below 2^53, where
    the float is exact and printed without exponent). *)
Definition str_of_float_osmid (o : option osmid_t) : string :=
  match o with
  | Some (OsmId i) => str_of_int i ++ ".0"
  | other => str_of_osmid other
  end.

(** The [osmid] column of an edge frame holds integers alone (dtype
    [int64]) when no edge carries a list of ids. *)
Definition single_id (d : edge_data) : bool :=
  match osmid d with
  | OsmId _ => true
  | OsmIds _ => false
  end.

(** [left.join(right)] on the index, a left join: the rows of [left] in
    order, each once per matching row of [right], and once with missing
    cells when nothing matches. *)
Definition matches (k : edge_key) (right : list edge_row) : list edge_row :=
  filter (fun r => key_eqb k (fst r)) right.

Definition join_row (right : list edge_row) (l : edge_key * num)
  : list (edge_key * num * option edge_data) :=
  match matches (fst l) right with
  | [] => [(fst l, snd l, None)]
  | ms => map (fun r => (fst l, snd l, Some (snd r))) ms
  end.

Definition left_join (left : table) (right : list edge_row)
  : list (edge_key * num * option edge_data) :=
  flat_map (join_row right) left.

(** A row of the join that found no edge. *)
Definition unmatched (x : edge_key * num * option edge_data) : bool :=
  match snd x with
  | None => true
  | Some _ => false
  end.

(* ================================================================= *)
(** ** [os.path], the file system, matplotlib *)

Definition slash : ascii := "/"%char.

Definition starts_with_slash (s : string) : bool :=
  match s with
  | String c _ => Ascii.eqb c slash
  | EmptyString => false
  end.

Fixpoint ends_with_slash (s : string) : bool :=
  match s with
  | EmptyString => false
  | String c EmptyString => Ascii.eqb c slash
  | String _ s' => ends_with_slash s'
  end.

(** [os.path.join(a, b)] of [posixpath]: an absolute [b] replaces [a]; no
    separator is added after an empty [a] or after a trailing slash. *)
Definition path_join (a b : string) : string :=
  if starts_with_slash b then b
  else if String.eqb a "" || ends_with_slash a then a ++ b
  else a ++ "/" ++ b.

(** The current matplotlib figure: the line widths of the plotted layer
    and the title. *)
Record figure : Type := {
  linewidths : list fval;
  title : string
}.

Inductive fs_entry : Type :=
| Dir
| GpkgFile (layer : list layer_row)
| PngFile (fig : figure).

(** The file system: the paths that exist, each with what it holds. *)
Definition filesystem : Type := list (string * fs_entry).

(** What the file system holds at a path. *)
Fixpoint read_file (p : string) (fs : filesystem) : option fs_entry :=
  match fs with
  | [] => None
  | (q, e) :: fs' => if String.eqb q p then Some e else read_file p fs'
  end.

(** [os.path.isdir(p)] *)
Definition is_dir (p : string) (fs : filesystem) : bool :=
  match read_file p fs with
  | Some Dir => true
  | _ => false
  end.

(** [os.path.exists(p)] *)
Definition path_exists (p : string) (fs : filesystem) : bool :=
  existsb (fun e => String.eqb (fst e) p) fs.

(** The proper prefixes of a path that end before a separator: the
    directories [os.makedirs] creates on the way when they are missing. *)
Fixpoint ancestors_from (pre s : string) : list string :=
  match s with
  | EmptyString => []
  | String c s' =>
      (if Ascii.eqb c slash && negb (String.eqb pre "") && negb (ends_with_slash pre)
       then [pre] else [])
      ++ ancestors_from (pre ++ String c EmptyString) s'
  end.

Definition ancestors (p : string) : list string := ancestors_from "" p.

Definition mkdir_missing (fs : filesystem) (p : string) : filesystem :=
  if path_exists p fs then fs else (p, Dir) :: fs.

(** [os.makedirs(p)] with [exist_ok=False]: [FileExistsError] when [p]
    exists; [NotADirectoryError] when an ancestor of [p] exists and is no
    directory ([mkdir] below a regular file); otherwise [p] and its
    missing ancestors are created.  Permissions, links and the other
    failures of the operating system are not modelled. *)
Definition makedirs (p : string) (fs : filesystem) : res filesystem :=
  if path_exists p fs then Raise FileExistsError
  else if existsb (fun a => path_exists a fs && negb (is_dir a fs)) (ancestors p)
  then Raise NotADirectoryError
  else Ok ((p, Dir) :: fold_left mkdir_missing (ancestors p) fs).

(** Writing a file replaces what the path held. *)
Definition write_file (p : string) (e : fs_entry) (fs : filesystem) : filesystem :=
  (p, e) :: filter (fun x => negb (String.eqb (fst x) p)) fs.

(** [gdf.to_file(os.path.join(dir, file), driver="GPKG")]: the driver
    cannot create the file unless [dir] is a directory and the path holds
    no directory (the class of its error depends on the I/O engine:
    [fiona.errors.DriverError] or [pyogrio.errors.DataSourceError]).
    What the driver makes of the rows themselves is not modelled. *)
Definition to_file (dir file : string) (e : fs_entry) (fs : filesystem)
  : res filesystem :=
  if is_dir dir fs && negb (is_dir (path_join dir file) fs)
  then Ok (write_file (path_join dir file) e fs)
  else Raise DriverError.

(** [plt.savefig(os.path.join(dir, file))], which opens the file for
    writing: [FileNotFoundError] without [dir], [NotADirectoryError] when
    [dir] is no directory, [IsADirectoryError] when the path holds one. *)
Definition savefig (dir file : string) (e : fs_entry) (fs : filesystem)
  : res filesystem :=
  if negb (path_exists dir fs) then Raise FileNotFoundError
  else if negb (is_dir dir fs) then Raise NotADirectoryError
  else if is_dir (path_join dir file) fs then Raise IsADirectoryError
  else Ok (write_file (path_join dir file) e fs).

(* ================================================================= *)
(** ** The library calls that stay abstract *)

(** The OSM download and graph construction, the speed and travel-time
    annotation of osmnx, and the exact edge betweenness of networkx are
    used as black boxes. *)
Class External : Type := {
  graph_from_place : string -> res MultiDiGraph;
  add_edge_speeds : MultiDiGraph -> list (string * Z) -> MultiDiGraph;
  add_edge_travel_times : MultiDiGraph -> MultiDiGraph;
  edge_betweenness_centrality : MultiDiGraph -> string -> list (edge_key * Q)
}.

(* ================================================================= *)
(** ** [mymodule1.BetweennessCentrality] *)

Module BetweennessCentrality.

Record t : Type := {
  area : string;
  type : string;
  graph : MultiDiGraph;
  weight : string;
  nodes_df : list node;
  edges_df : list edge_row;
  outfile : string;
  method : option string;
  n : option Z;
  centrality_df : option table;
  centrality_gdf : option (list layer_row)
}.

(** Speed limits for cars, km/h. *)
Definition hwy_speeds : list (string * Z) :=
  [("motorway", 100); ("motorroad", 90); ("trunk", 85); ("primary", 65);
   ("secondary", 60); ("residential", 30); ("tertiary", 50);
   ("living_street", 10); ("service", 20); ("road", 20); ("track", 15)].

(** [__init__]: a route type other than ["shortest"] and ["fastest"] leaves
    [self.graph] unset, and reading it raises [AttributeError]. *)
Definition init `{External} (study_area : string) (G : MultiDiGraph)
    (route_types : string) (out : string) : res t :=
  ' (g, w) <-
    (if String.eqb route_types "shortest" then Ok (G, "length")
     else if String.eqb route_types "fastest" then
       Ok (add_edge_travel_times (add_edge_speeds G hwy_speeds), "travel_time")
     else Raise AttributeError) ;;
  ' (ndf, edf) <- graph_to_gdfs g ;;
  Ok {| area := study_area; type := route_types; graph := g; weight := w;
        nodes_df := ndf; edges_df := edf; outfile := out;
        method := None; n := None;
        centrality_df := None; centrality_gdf := None |}.

Definition set_method_n (self : t) (m : string) (k : Z) : t :=
  {| area := area self; type := type self; graph := graph self;
     weight := weight self; nodes_df := nodes_df self;
     edges_df := edges_df self; outfile := outfile self;
     method := Some m; n := Some k;
     centrality_df := centrality_df self;
     centrality_gdf := centrality_gdf self |}.

Definition set_centrality_df (self : t) (df : table) : t :=
  {| area := area self; type := type self; graph := graph self;
     weight := weight self; nodes_df := nodes_df self;
     edges_df := edges_df self; outfile := outfile self;
     method := method self; n := n self;
     centrality_df := Some df;
     centrality_gdf := centrality_gdf self |}.

Definition set_centrality_gdf (self : t) (gdf : list layer_row) : t :=
  {| area := area self; type := type self; graph := graph self;
     weight := weight self; nodes_df := nodes_df self;
     edges_df := edges_df self; outfile := outfile self;
     method := method self; n := n self;
     centrality_df := centrality_df self;
     centrality_gdf := Some gdf |}.

Definition joined_row (as_float : bool)
    (x : edge_key * num * option edge_data) : layer_row :=
  let '(k, c, d) := x in
  {| l_key := k; l_centrality := c;
     l_osmid := (if as_float then str_of_float_osmid else str_of_osmid)
                  (option_map osmid d);
     l_geometry := option_map geometry d;
     l_weight := None |}.

(** [join_dataframe]: the centrality table left-joined with the [osmid]
    and [geometry] columns of the edge frame, [osmid] cast to [str].  A
    row without a match puts NaN into the [osmid] column; when the column
    held integers alone pandas then stores it as floats, and the cast
    reads every id with a trailing [.0]. *)
Definition join_dataframe (self : t) : res (list layer_row * t) :=
  match centrality_df self with
  | None => Raise AttributeError
  | Some df =>
      let joined := left_join df (edges_df self) in
      let as_float :=
        forallb (fun r => single_id (snd r)) (edges_df self)
        && existsb unmatched joined in
      let centrality_gdf := map (joined_row as_float) joined in
      Ok (centrality_gdf, set_centrality_gdf self centrality_gdf)
  end.

(** [f"{self.area}_{self.type}_{self.method}_{self.n}"] *)
Definition folder_name (self : t) : string :=
  area self ++ "_" ++ type self ++ "_" ++ fmt (fun s => s) (method self)
  ++ "_" ++ fmt str_of_int (n self).

(** [create_new_folder]: the folder is created unless its path exists;
    the path is returned. *)
Definition create_new_folder (self : t) (fs : filesystem)
  : res (string * filesystem) :=
  let output_path := path_join (outfile self) (folder_name self) in
  if negb (path_exists output_path fs) then
    fs' <- makedirs output_path fs ;;
    Ok (output_path, fs')
  else Ok (output_path, fs).

(** [save_as_geopackage]: the method [to_file] of a missing layer is looked
    up before the folder is created. *)
Definition save_as_geopackage (self : t) (fs : filesystem) : res filesystem :=
  match centrality_gdf self with
  | None => Raise AttributeError
  | Some gdf =>
      ' (dir, fs1) <- create_new_folder self fs ;;
      to_file dir "centrality.gpkg" (GpkgFile gdf) fs1
  end.

(** The normalisation of [plot_network]:
    [(c - c.min()) / (c.max() - c.min())], element-wise. *)
Definition normalize (cs : list Q) : list fval :=
  match series_min cs, series_max cs with
  | Some lo, Some hi => map (fun c => fdiv (c - lo) (hi - lo)) cs
  | _, _ => []
  end.

Definition with_weight (r : layer_row) (w : fval) : layer_row :=
  {| l_key := l_key r; l_centrality := l_centrality r; l_osmid := l_osmid r;
     l_geometry := l_geometry r; l_weight := Some w |}.

Definition nl : string := String (ascii_of_nat 10) EmptyString.

(** A row whose geometry has a point. *)
Definition has_point (r : layer_row) : bool :=
  match l_geometry r with
  | Some (_ :: _) => true
  | _ => false
  end.

(** [plot_network]: the column [weight] is added to the layer, the layer is
    drawn with the line widths [weight * 4] as its [linewidth] argument,
    and the figure gets its title.  For the geographic CRS of the layer
    [GeoDataFrame.plot] first sets the aspect of the axes from the bounds
    of the layer; a layer without rows, or whose rows have no geometry or
    an empty one, has NaN bounds, and matplotlib raises [ValueError]
    (the coordinates are taken to be degrees with a latitude between -90
    and 90, for which the aspect is positive).  The object of a call that
    raises is not kept: no caller in the program uses it. *)
Definition plot_network (self : t) : res (figure * t) :=
  match centrality_gdf self with
  | None => Raise TypeError
  | Some gdf =>
      let weights := normalize (map (fun r => num_to_Q (l_centrality r)) gdf) in
      let gdf' := map (fun rw => with_weight (fst rw) (snd rw)) (combine gdf weights) in
      let fig :=
        {| linewidths := map (fun w => fscale w 4) weights;
           title := "Routes betweenness centrality in " ++ area self ++ ", " ++ nl
                    ++ "n=" ++ fmt str_of_int (n self) ++ ", type=" ++ type self |} in
      if existsb has_point gdf then Ok (fig, set_centrality_gdf self gdf')
      else Raise ValueError
  end.

(** [save_as_png]: plot, then save the figure in the run's folder. *)
Definition save_as_png (self : t) (fs : filesystem) : res (t * filesystem) :=
  ' (fig, self1) <- plot_network self ;;
  ' (dir, fs1) <- create_new_folder self1 fs ;;
  fs2 <- savefig dir "centrality.png" (PngFile fig) fs1 ;;
  Ok (self1, fs2).

End BetweennessCentrality.

(* ================================================================= *)
(** ** [mymodule1.Networkx] *)

Module Networkx.
Import BetweennessCentrality.

(** [__init__]: the exact method; [n] is the number of edges. *)
Definition init `{External} (study_area : string) (G : MultiDiGraph)
    (route_types : string) (out : string) : res t :=
  self <- BetweennessCentrality.init study_area G route_types out ;;
  Ok (set_method_n self "networkx" (Z.of_nat (List.length (edges (graph self))))).

(** [centrality]: the scores of networkx, reshaped into the table. *)
Definition centrality `{External} (self : t) : table * t :=
  let bc := edge_betweenness_centrality (graph self) (weight self) in
  let centrality_df := map (fun kv => (fst kv, PyFloat (snd kv))) bc in
  (centrality_df, set_centrality_df self centrality_df).

End Networkx.

(* ================================================================= *)
(** ** [mymodule1.Geo] *)

Module Geo.
Import BetweennessCentrality.

(** [__init__]: the sampling method with [n_routes] routes. *)
Definition init `{External} (study_area : string) (G : MultiDiGraph)
    (route_types : string) (n_routes : Z) (out : string) : res t :=
  self <- BetweennessCentrality.init study_area G route_types out ;;
  Ok (set_method_n self "geographical" n_routes).

(** [r is not None] *)
Definition is_not_None (r : option route) : bool :=
  match r with
  | Some _ => true
  | None => false
  end.

(** The draws and the routing of one pass of the loop: [temp] origins,
    [temp] destinations, one route (or [None]) per pair. *)
Definition sample_routes (ns : list node)
    (route_of : node -> node -> option route) (temp : Z) (g : rng)
  : res (list (option route) * rng) :=
  ' (origs, g1) <- random_choice ns temp g ;;
  ' (dests, g2) <- random_choice ns temp g1 ;;
  Ok (shortest_paths route_of origs dests, g2).

(** The state at the head of the [while] loop. *)
Record loop_state : Type := {
  routes_valid : list (option route);
  temp : Z;
  gen : rng
}.

(** The body of the loop. *)
Definition loop_body (ns : list node)
    (route_of : node -> node -> option route) (n_routes : Z)
    (s : loop_state) : res loop_state :=
  ' (routes, g) <- sample_routes ns route_of (temp s) (gen s) ;;
  let temp_valid := filter is_not_None routes in
  let routes_valid' := (routes_valid s ++ temp_valid)%list in
  Ok {| routes_valid := routes_valid';
        temp := n_routes - Z.of_nat (List.length routes_valid');
        gen := g |}.

(** [while temp != 0: ...; return routes_valid]: [None] when the fuel runs
    out before the loop ends. *)
Fixpoint while_loop (ns : list node)
    (route_of : node -> node -> option route) (n_routes : Z)
    (fuel : nat) (s : loop_state) : option (res (list (option route) * rng)) :=
  if temp s =? 0 then Some (Ok (routes_valid s, gen s))
  else
    match fuel with
    | O => None
    | S fuel' =>
        match loop_body ns route_of n_routes s with
        | Ok s' => while_loop ns route_of n_routes fuel' s'
        | Raise e => Some (Raise e)
        end
    end.

Definition initial_state (n_routes : Z) (g : rng) : loop_state :=
  {| routes_valid := []; temp := n_routes - Z.of_nat (List.length (@nil (option route)));
     gen := g |}.

(** [generate_routes] *)
Definition generate_routes (self : t) (fuel : nat) (g : rng)
  : option (res (list (option route) * rng)) :=
  match n self with
  | None => Some (Raise TypeError)
  | Some n_routes =>
      while_loop (nodes (graph self))
                 (shortest_path (graph self) (weight self))
                 n_routes fuel (initial_state n_routes g)
  end.

(** The aggregation of [centrality]: every route as a frame of its edges,
    the frames concatenated, the rows counted per edge key. *)
Definition count_routes (G : MultiDiGraph) (routes : list (option route))
  : res table :=
  routes_gdf_list <- mapM (route_to_gdf G) routes ;;
  routes_df <- pd_concat routes_gdf_list ;;
  Ok (map (fun kc => (fst kc, PyInt (snd kc))) (groupby_count routes_df)).

(** [centrality] *)
Definition centrality (self : t) (fuel : nat) (g : rng)
  : option (res (table * t * rng)) :=
  match generate_routes self fuel g with
  | None => None
  | Some (Raise e) => Some (Raise e)
  | Some (Ok (routes, g')) =>
      Some (centrality_df <- count_routes (graph self) routes ;;
            Ok (centrality_df, set_centrality_df self centrality_df, g'))
  end.

End Geo.

(* ================================================================= *)
(** ** [mymodule2.input_from_commandline] *)

Module Namespace.

Record t : Type := {
  study_area : string;
  outfile : string;
  route_types : string;
  method : string;
  n_routes : option Z
}.

End Namespace.

(** [int(s)] for a string of ASCII characters: blanks at both ends are
    dropped, then an optional sign, then decimal digits, where single
    underscores may stand between digits. *)
Definition is_space (c : ascii) : bool :=
  let k := nat_of_ascii c in
  ((9 <=? k)%nat && (k <=? 13)%nat) || (k =? 32)%nat.

Fixpoint lstrip (l : list ascii) : list ascii :=
  match l with
  | c :: l' => if is_space c then lstrip l' else l
  | [] => []
  end.

Definition strip (l : list ascii) : list ascii :=
  rev (lstrip (rev (lstrip l))).

Definition digit_of (c : ascii) : option Z :=
  let k := nat_of_ascii c in
  if ((48 <=? k)%nat && (k <=? 57)%nat) then Some (Z.of_nat (k - 48)) else None.

(** The digits after the sign; [after_digit] tells whether the character
    before was a digit, which an underscore and the end need. *)
Fixpoint digits_value (acc : Z) (after_digit : bool) (l : list ascii)
  : option Z :=
  match l with
  | [] => if after_digit then Some acc else None
  | c :: l' =>
      if Ascii.eqb c "_" then
        if after_digit then digits_value acc false l' else None
      else
        match digit_of c with
        | Some d => digits_value (10 * acc + d) true l'
        | None => None
        end
  end.

Definition int_of_str (s : string) : option Z :=
  match strip (list_ascii_of_string s) with
  | c :: l =>
      if Ascii.eqb c "+" then digits_value 0 false l
      else if Ascii.eqb c "-" then option_map Z.opp (digits_value 0 false l)
      else digits_value 0 false (c :: l)
  | [] => None
  end.

Definition one_of (s : string) (choices : list string) : bool :=
  existsb (String.eqb s) choices.

(** The words of a command line that the model reads.  [argparse] takes
    a word that does not start with [-] for a positional argument; a word
    that starts with [-] may be an option ([-h], [--help], an abbreviation
    of it), the separator [--], a negative number or an unknown option,
    and is not modelled.  The characters are printable ASCII or blanks,
    and a word has at most 4300 of them (Python reads other characters as
    digits or blanks too, and refuses longer numbers since 3.11). *)
Definition plain_char (c : ascii) : bool :=
  let k := nat_of_ascii c in
  ((9 <=? k)%nat && (k <=? 13)%nat) || ((32 <=? k)%nat && (k <=? 126)%nat).

Definition plain (s : string) : bool :=
  match s with
  | String c _ => negb (Ascii.eqb c "-")
  | EmptyString => true
  end
  && forallb plain_char (list_ascii_of_string s)
  && (String.length s <=? 4300)%nat.

(** [global_parser.parse_args()] on positional words.  Every rejection
    goes through [parser.error], which prints the usage and raises
    [SystemExit(2)]: a missing word, a [route_types] or a method outside
    its choices, an [n_routes] that [int] refuses, a word too many. *)
Definition parse_args (argv : list string) : res Namespace.t :=
  match argv with
  | a :: o :: r :: rest =>
      if negb (one_of r ["shortest"; "fastest"]) then Raise (SystemExit 2)
      else
        match rest with
        | [] => Raise (SystemExit 2)
        | m :: rest' =>
            if String.eqb m "networkx" then
              match rest' with
              | [] => Ok {| Namespace.study_area := a; Namespace.outfile := o;
                            Namespace.route_types := r; Namespace.method := m;
                            Namespace.n_routes := None |}
              | _ => Raise (SystemExit 2)
              end
            else if String.eqb m "geographical" then
              match rest' with
              | [k] =>
                  match int_of_str k with
                  | Some z => Ok {| Namespace.study_area := a; Namespace.outfile := o;
                                    Namespace.route_types := r; Namespace.method := m;
                                    Namespace.n_routes := Some z |}
                  | None => Raise (SystemExit 2)
                  end
              | _ => Raise (SystemExit 2)
              end
            else Raise (SystemExit 2)
        end
  | _ => Raise (SystemExit 2)
  end.

(** [input_from_commandline] on the words after the program name: [None]
    for a command line with a word the model does not read. *)
Definition input_from_commandline (argv : list string)
  : option (res Namespace.t) :=
  if forallb plain argv then Some (parse_args argv) else None.

(* ================================================================= *)
(** ** [main.py] *)

(** What a run of the program can touch: the random generator, the file
    system, and the lines printed so far. *)
Record world : Type := {
  w_rng : rng;
  w_fs : filesystem;
  w_out : list string
}.

(** How [main] ends: it returns, or an exception leaves it uncaught. *)
Inductive exit : Type :=
| Returned
| Uncaught (e : exn).

Definition print (msg : string) (w : world) : world :=
  {| w_rng := w_rng w; w_fs := w_fs w; w_out := (w_out w ++ [msg])%list |}.

Definition with_fs (fs : filesystem) (w : world) : world :=
  {| w_rng := w_rng w; w_fs := fs; w_out := w_out w |}.

Definition with_rng (g : rng) (w : world) : world :=
  {| w_rng := g; w_fs := w_fs w; w_out := w_out w |}.

Definition nl : string := BetweennessCentrality.nl.

Definition rule : string := "---------------------".

Inductive strategy : Type :=
| UseNetworkx
| UseGeo.

(** The object [main] creates for [args.method]; with any other method
    [obj] stays unbound ([None] here). *)
Definition make_obj `{External} (args : Namespace.t) (G : MultiDiGraph)
  : res (option (strategy * BetweennessCentrality.t)) :=
  if String.eqb (Namespace.method args) "networkx" then
    self <- Networkx.init (Namespace.study_area args) G
              (Namespace.route_types args) (Namespace.outfile args) ;;
    Ok (Some (UseNetworkx, self))
  else if String.eqb (Namespace.method args) "geographical" then
    match Namespace.n_routes args with
    | Some k =>
        self <- Geo.init (Namespace.study_area args) G
                  (Namespace.route_types args) k (Namespace.outfile args) ;;
        Ok (Some (UseGeo, self))
    | None => Raise AttributeError
    end
  else Ok None.

(** [obj.centrality()] *)
Definition obj_centrality `{External} (c : strategy)
    (self : BetweennessCentrality.t) (fuel : nat) (g : rng)
  : option (res (BetweennessCentrality.t * rng)) :=
  match c with
  | UseNetworkx => Some (Ok (snd (Networkx.centrality self), g))
  | UseGeo =>
      match Geo.centrality self fuel g with
      | None => None
      | Some (Raise e) => Some (Raise e)
      | Some (Ok (_, self', g')) => Some (Ok (self', g'))
      end
  end.

(** The export at the end of [main]: [create_new_folder],
    [save_as_geopackage], [plot_network], [save_as_png]; the exception
    that ends it, if any, and the file system it leaves. *)
Definition export (self : BetweennessCentrality.t) (fs : filesystem)
  : option exn * filesystem :=
  match BetweennessCentrality.create_new_folder self fs with
  | Raise e => (Some e, fs)
  | Ok (_, fs1) =>
      match BetweennessCentrality.save_as_geopackage self fs1 with
      | Raise e => (Some e, fs1)
      | Ok fs2 =>
          match BetweennessCentrality.plot_network self with
          | Raise e => (Some e, fs2)
          | Ok (_, self1) =>
              match BetweennessCentrality.save_as_png self1 fs2 with
              | Raise e => (Some e, fs2)
              | Ok (_, fs3) => (None, fs3)
              end
          end
      end
  end.

(** [main] after the arguments are parsed. *)
Definition run `{External} (args : Namespace.t) (fuel : nat) (w : world)
  : option (exit * world) :=
  match graph_from_place (Namespace.study_area args) with
  | Raise e => Some (Uncaught e, w)
  | Ok G =>
      let w1 :=
        print (rule ++ nl ++ Namespace.study_area args ++ nl
               ++ "nodes|" ++ str_of_int (Z.of_nat (List.length (nodes G))) ++ nl
               ++ "route segments|" ++ str_of_int (Z.of_nat (List.length (edges G)))
               ++ nl ++ rule) w in
      match make_obj args G with
      | Raise e => Some (Uncaught e, w1)
      | Ok o =>
          let w2 :=
            print ("Calculating betweenness centrality..." ++ nl
                   ++ "Please be patient...") w1 in
          match o with
          | None => Some (Uncaught NameError, w2)
          | Some (c, obj) =>
              match obj_centrality c obj fuel (w_rng w2) with
              | None => None
              | Some (Raise e) => Some (Uncaught e, w2)
              | Some (Ok (obj1, g)) =>
                  let w3 := with_rng g w2 in
                  match BetweennessCentrality.join_dataframe obj1 with
                  | Raise e => Some (Uncaught e, w3)
                  | Ok (_, obj2) =>
                      let w4 :=
                        print (rule ++ nl ++ "Saving the network..." ++ nl
                               ++ "Please wait...") w3 in
                      match export obj2 (w_fs w4) with
                      | (Some e, fs) => Some (Uncaught e, with_fs fs w4)
                      | (None, fs) =>
                          Some (Returned,
                                print (rule ++ nl
                                       ++ "Finished! Download files to "
                                       ++ Namespace.outfile args ++ nl
                                       ++ "Thank you for using.")
                                      (with_fs fs w4))
                      end
                  end
              end
          end
      end
  end.

(** [main]: only a [ValueError] of the argument parsing is caught; the
    handler prints its message and falls through to the use of [args],
    which is then unbound ([NameError]).  Any other exception of the
    parsing, [SystemExit] included, leaves [main] at once.  [None]: the
    command line has a word the model does not read, or the fuel ran
    out. *)
Definition main `{External} (argv : list string) (fuel : nat) (w : world)
  : option (exit * world) :=
  match input_from_commandline argv with
  | None => None
  | Some (Ok args) =>
      run args fuel (print ("Processing..." ++ nl ++ "Please wait...") w)
  | Some (Raise ValueError) =>
      Some (Uncaught NameError, print "Please check the input" w)
  | Some (Raise e) => Some (Uncaught e, w)
  end.

(* ================================================================= *)
(** ** Notions the statements use *)

(** The node that raw draw number [p] of the tape selects. *)
Definition drawn (ns : list node) (g : rng) (p : nat) : node :=
  nth (Nat.modulo (tape g p) (List.length ns)) ns 0.

(** The loop heads of a run of [generate_routes] that starts with
    generator [g0]: the initial state, and the state after each pass of
    the body from a head whose [temp] is not zero. *)
Inductive loop_head (ns : list node)
    (route_of : node -> node -> option route) (n_routes : Z) (g0 : rng)
  : Geo.loop_state -> Prop :=
| head_first :
    loop_head ns route_of n_routes g0 (Geo.initial_state n_routes g0)
| head_next s s' :
    loop_head ns route_of n_routes g0 s ->
    Geo.temp s <> 0 ->
    Geo.loop_body ns route_of n_routes s = Ok s' ->
    loop_head ns route_of n_routes g0 s'.

(** The routes a pass computes when it starts at tape position [p] with
    shortfall [k]: origin [i] is draw [p + i], destination [i] is draw
    [p + k + i]. *)
Definition pass_routes (ns : list node)
    (route_of : node -> node -> option route) (g : rng) (p k : nat) : list (option route) :=
  map (fun i => route_of (drawn ns g (p + i)) (drawn ns g (p + k + i)))
      (seq 0 k).

(** What the filter of the loop keeps: not [None], and the answer of the
    router for two nodes of the graph.  The filter does not look at the
    number of nodes: a route of a single node is kept as well. *)
Definition kept (ns : list node)
    (route_of : node -> node -> option route) (r : option route) : Prop :=
  r <> None /\ exists o d, In o ns /\ In d ns /\ route_of o d = r.

(** The invariant of the loop head. *)
Definition head_inv (ns : list node)
    (route_of : node -> node -> option route) (n_routes : Z)
    (s : Geo.loop_state) : Prop :=
  Geo.temp s = n_routes - Z.of_nat (List.length (Geo.routes_valid s))
  /\ 0 <= Geo.temp s
  /\ Forall (kept ns route_of) (Geo.routes_valid s).



(** The key of the edge a hop from [u] to [v] is counted on: the
    shortest of the parallel edges, which is the edge a route computed by
    length runs over. *)
Definition hop_key (G : MultiDiGraph) (uv : node * node) : option edge_key :=
  option_map key_of (min_by_length (parallel G (fst uv) (snd uv))).

(** A route computed by length traverses edge [e] when one of its hops
    is counted on [e]. *)
Definition traverses (G : MultiDiGraph) (e : edge_key) (r : option route) : bool :=
  match r with
  | None => false
  | Some p =>
      existsb (fun uv => match hop_key G uv with
                         | Some k => key_eqb e k
                         | None => false
                         end) (hops p)
  end.

(** The number of routes of the list that traverse [e]. *)
Definition routes_through (G : MultiDiGraph) (routes : list (option route))
    (e : edge_key) : Z :=
  Z.of_nat (List.length (filter (traverses G e) routes)).

(** The parallel edge that a route computed with weight [w] runs over on
    a hop: the first of the parallel edges of least [w], which is what
    the cost of the route is made of. *)
Fixpoint min_by_weight (w : string) (l : list edge) : option edge :=
  match l with
  | [] => None
  | e :: l' =>
      match min_by_weight w l' with
      | Some e' =>
          if Qle_bool (edge_weight w (e_data e)) (edge_weight w (e_data e'))
          then Some e else Some e'
      | None => Some e
      end
  end.

Definition traversed_key (G : MultiDiGraph) (w : string) (uv : node * node)
  : option edge_key :=
  option_map key_of (min_by_weight w (parallel G (fst uv) (snd uv))).

(** A route computed with weight [w] traverses edge [e]. *)
Definition traverses_by (G : MultiDiGraph) (w : string) (e : edge_key)
    (r : option route) : bool :=
  match r with
  | None => false
  | Some p =>
      existsb (fun uv => match traversed_key G w uv with
                         | Some k => key_eqb e k
                         | None => false
                         end) (hops p)
  end.

(** The number of routes of the list, computed with weight [w], that
    traverse [e]. *)
Definition routes_through_by (G : MultiDiGraph) (w : string)
    (routes : list (option route)) (e : edge_key) : Z :=
  Z.of_nat (List.length (filter (traverses_by G w e) routes)).

(** A route without a repeated node, as a shortest path is. *)
Definition simple (r : option route) : Prop :=
  match r with
  | Some p => NoDup p
  | None => True
  end.

(** [create_new_folder] called [k] times in a row: the paths returned and
    the file system at the end. *)
Fixpoint create_repeatedly (k : nat) (self : BetweennessCentrality.t)
    (fs : filesystem) : res (list string * filesystem) :=
  match k with
  | O => Ok ([], fs)
  | S k' =>
      ' (p, fs1) <- BetweennessCentrality.create_new_folder self fs ;;
      ' (ps, fs2) <- create_repeatedly k' self fs1 ;;
      Ok (p :: ps, fs2)
  end.

(** An object as the constructors of [Networkx] and [Geo] leave it, as far
    as the folder name goes: a route type that [__init__] accepts, the
    method of one of the two classes, and an integer [n]. *)
Definition named_by_constructor (self : BetweennessCentrality.t) : Prop :=
  (BetweennessCentrality.type self = "shortest"
   \/ BetweennessCentrality.type self = "fastest")
  /\ (BetweennessCentrality.method self = Some "networkx"
      \/ BetweennessCentrality.method self = Some "geographical")
  /\ exists k, BetweennessCentrality.n self = Some k.

(** Two objects of the same run: the same area, route type, method and
    number of routes. *)
Definition same_run (a b : BetweennessCentrality.t) : Prop :=
  BetweennessCentrality.area a = BetweennessCentrality.area b
  /\ BetweennessCentrality.type a = BetweennessCentrality.type b
  /\ BetweennessCentrality.method a = BetweennessCentrality.method b
  /\ BetweennessCentrality.n a = BetweennessCentrality.n b.

(** The number of underscores of a string. *)
Fixpoint count_us (s : string) : nat :=
  match s with
  | EmptyString => 0%nat
  | String c s' => ((if Ascii.eqb c "_" then 1 else 0) + count_us s')%nat
  end.

(** A table whose keys increase strictly. *)
Definition key_sorted {V : Type} (t : list (edge_key * V)) : Prop :=
  StronglySorted (fun a b => key_ltb (fst a) (fst b) = true) t.

(** The number of rows of a frame with key [e]. *)
Definition occurrences (e : edge_key) (rows : list edge_row) : Z :=
  Z.of_nat (List.length (filter (fun r => key_eqb e (fst r)) rows)).

(** The cell of a group of [c] rows: no row at all for an empty group. *)
Definition counted (e : edge_key) (c : Z) : option Z :=
  if c =? 0 then None else Some c.

(** The hop [uv] is counted on edge [e]. *)
Definition on_edge (G : MultiDiGraph) (e : edge_key) (uv : node * node) : bool :=
  match hop_key G uv with
  | Some k => key_eqb e k
  | None => false
  end.

(** The part of the name after the area. *)
Definition name_tail (self : BetweennessCentrality.t) : string :=
  BetweennessCentrality.type self ++ "_"
  ++ fmt (fun s => s) (BetweennessCentrality.method self) ++ "_"
  ++ fmt str_of_int (BetweennessCentrality.n self).

(** A weight of the unit interval. *)
Definition unit_weight (x : fval) : Prop :=
  match x with
  | Fin q => (0 <= q)%Q /\ (q <= 1)%Q
  | _ => False
  end.

(* ================================================================= *)
(** ** Small networks and runs for the examples *)

(** The geometry of the streets of the examples: two points in
    Heidelberg (longitude, latitude). *)
Definition street_line : linestring :=
  [(867 # 100, 4941 # 100); (868 # 100, 4941 # 100)]%Q.

Definition road (id : Z) (len : Q) : edge_data :=
  {| osmid := OsmId id; e_length := len; highway := "residential";
     geometry := street_line; speed_kph := None; travel_time := None |}.

Definition mk_edge (u v k : Z) (d : edge_data) : edge :=
  {| e_u := u; e_v := v; e_k := k; e_data := d |}.

(** Two nodes and the one street from 1 to 2. *)
Definition one_way : MultiDiGraph :=
  {| nodes := [1; 2]; edges := [mk_edge 1 2 0 (road 44169102 15)] |}.

(** The graph of the test suite: one street, both directions. *)
Definition two_way : MultiDiGraph :=
  {| nodes := [43632295; 43632312];
     edges := [mk_edge 43632295 43632312 0 (road 44169102 15);
               mk_edge 43632312 43632295 0 (road 44169102 15)] |}.

(** Two streets that do not meet. *)
Definition two_islands : MultiDiGraph :=
  {| nodes := [1; 2; 3; 4];
     edges := [mk_edge 1 2 0 (road 10 5); mk_edge 2 1 0 (road 10 5);
               mk_edge 3 4 0 (road 11 7); mk_edge 4 3 0 (road 11 7)] |}.

(** A chain 1 -> 2 -> 3 with a second, shorter street from 1 to 2. *)
Definition chain : MultiDiGraph :=
  {| nodes := [1; 2; 3];
     edges := [mk_edge 1 2 0 (road 20 9); mk_edge 1 2 1 (road 21 4);
               mk_edge 2 3 0 (road 22 6)] |}.

(** The layer of a run with one sampled route on the graph of the tests. *)
Definition one_row_layer : list layer_row :=
  [{| l_key := (43632295, 43632312, 0); l_centrality := PyInt 1;
      l_osmid := "44169102"; l_geometry := Some street_line; l_weight := None |}].

(** The table and the layer of two sampled routes on the chain. *)
Definition chain_table : table :=
  [((1, 2, 1), PyInt 2); ((2, 3, 0), PyInt 1)].

Definition chain_layer : list layer_row :=
  [{| l_key := (1, 2, 1); l_centrality := PyInt 2; l_osmid := "21";
      l_geometry := Some street_line; l_weight := None |};
   {| l_key := (2, 3, 0); l_centrality := PyInt 1; l_osmid := "22";
      l_geometry := Some street_line; l_weight := None |}].

Definition tape_of (l : list nat) (d : nat) : rng :=
  {| tape := fun i => nth i l d; pos := 0 |}.



(** The object [Geo(area, G, "shortest", k, out)] for a graph with nodes
    and edges. *)
Definition geo_object (study_area : string) (G : MultiDiGraph) (k : Z)
    (out : string) : BetweennessCentrality.t :=
  {| BetweennessCentrality.area := study_area;
     BetweennessCentrality.type := "shortest";
     BetweennessCentrality.graph := G;
     BetweennessCentrality.weight := "length";
     BetweennessCentrality.nodes_df := nodes G;
     BetweennessCentrality.edges_df := map row_of (edges G);
     BetweennessCentrality.outfile := out;
     BetweennessCentrality.method := Some "geographical";
     BetweennessCentrality.n := Some k;
     BetweennessCentrality.centrality_df := None;
     BetweennessCentrality.centrality_gdf := None |}.

(** Stand-ins for the abstract library calls, for examples only: one known
    place, no speed annotation, no exact scores. *)
Definition offline : External :=
  {| graph_from_place := fun place =>
       if String.eqb place "Test Graph" then Ok two_way else Raise ValueError;
     add_edge_speeds := fun G _ => G;
     add_edge_travel_times := fun G => G;
     edge_betweenness_centrality := fun _ _ => [] |}.

(** Speeds and travel times as osmnx adds them to edges without a
    [maxspeed]: the speed of the highway type from the table (edges of
    another type are left as they are here; osmnx gives them a mean), and
    the time in seconds to run the length in metres at that speed. *)
Definition speed_of (speeds : list (string * Z)) (hw : string) : option Q :=
  option_map (fun kv => inject_Z (snd kv))
             (find (fun kv => String.eqb (fst kv) hw) speeds).

Definition with_speed (speeds : list (string * Z)) (e : edge) : edge :=
  let d := e_data e in
  {| e_u := e_u e; e_v := e_v e; e_k := e_k e;
     e_data := {| osmid := osmid d; e_length := e_length d;
                  highway := highway d; geometry := geometry d;
                  speed_kph := match speed_of speeds (highway d) with
                               | Some v => Some v
                               | None => speed_kph d
                               end;
                  travel_time := travel_time d |} |}.

Definition with_travel_time (e : edge) : edge :=
  let d := e_data e in
  {| e_u := e_u e; e_v := e_v e; e_k := e_k e;
     e_data := {| osmid := osmid d; e_length := e_length d;
                  highway := highway d; geometry := geometry d;
                  speed_kph := speed_kph d;
                  travel_time := match speed_kph d with
                                 | Some v => Some (e_length d * (36 # 10) / v)%Q
                                 | None => travel_time d
                                 end |} |}.

(** Stand-ins with these speeds and travel times, for examples only. *)
Definition annotated : External :=
  {| graph_from_place := fun _ => Raise ValueError;
     add_edge_speeds := fun G speeds =>
       {| nodes := nodes G; edges := map (with_speed speeds) (edges G) |};
     add_edge_travel_times := fun G =>
       {| nodes := nodes G; edges := map with_travel_time (edges G) |};
     edge_betweenness_centrality := fun _ _ => [] |}.

(** Two parallel streets from 1 to 2: a motorway of 100 m (key 0) and a
    living street of 90 m (key 1).  The living street is shorter, the
    motorway faster: 3.6 s against 32.4 s. *)
Definition lane (id : Z) (len : Q) (hw : string) : edge_data :=
  {| osmid := OsmId id; e_length := len; highway := hw;
     geometry := street_line; speed_kph := None; travel_time := None |}.

Definition two_lanes : MultiDiGraph :=
  {| nodes := [1; 2];
     edges := [mk_edge 1 2 0 (lane 30 100 "motorway");
               mk_edge 1 2 1 (lane 31 90 "living_street")] |}.

(** The graph of [Geo("A", two_lanes, "fastest", 1, "out")]. *)
Definition two_lanes_timed : MultiDiGraph :=
  @add_edge_travel_times annotated
    (@add_edge_speeds annotated two_lanes BetweennessCentrality.hwy_speeds).


(* ================================================================= *)
(** ** Further notions *)

(** The number of hops of the routes of a list. *)
Definition total_hops (routes : list (option route)) : Z :=
  Z.of_nat (List.length
              (List.concat (map (fun r => match r with
                                          | Some p => hops p
                                          | None => []
                                          end) routes))).

(** The sum of the counts of a table of counts. *)
Definition total_count (t : list (edge_key * Z)) : Z :=
  fold_right (fun kc acc => snd kc + acc) 0 t.


(* ================================================================= *)
(** ** [src/mymodule1.py]: the former sampling method *)

(** The module beside the package is the former version of
    [mypackage/mymodule1.py].  Its class [Geo] samples random coordinates
    inside the bounds of the network, takes the nearest nodes as origins
    and destinations, and replaces the routes that are missing or have a
    single node. *)

(** The geometry calls that stay abstract: the bounds
    [(west, south, east, north)] of the union of the edge geometries, and
    the node nearest to a longitude and a latitude. *)
Class Geography : Type := {
  total_bounds : list edge_row -> Q * Q * Q * Q;
  nearest_node : MultiDiGraph -> Q -> Q -> node
}.

(** The generator of [random]: a tape of numbers of [[0, 1)] and a read
    position. *)
Record unit_rng : Type := {
  utape : nat -> Q;
  upos : nat
}.

(** [random.uniform(a, b)] is [a + (b - a) * random()]. *)
Definition uniform (a b : Q) (g : unit_rng) : Q * unit_rng :=
  ((a + (b - a) * utape g (upos g))%Q,
   {| utape := utape g; upos := S (upos g) |}).

(** [[random.uniform(a, b) for i in range(k)]] *)
Fixpoint uniforms (k : nat) (a b : Q) (g : unit_rng) : list Q * unit_rng :=
  match k with
  | O => ([], g)
  | S k' =>
      let (x, g1) := uniform a b g in
      let (xs, g2) := uniforms k' a b g1 in
      (x :: xs, g2)
  end.

(** The slices [l[:i]] and [l[i:]] of Python; a negative [i] counts from
    the end. *)
Definition slice_to {A : Type} (i : Z) (l : list A) : list A :=
  if 0 <=? i then firstn (Z.to_nat i) l
  else firstn (List.length l - Z.to_nat (- i)) l.

Definition slice_from {A : Type} (i : Z) (l : list A) : list A :=
  if 0 <=? i then skipn (Z.to_nat i) l
  else skipn (List.length l - Z.to_nat (- i)) l.

(** [ox.nearest_nodes(G, X, Y)] for arrays of coordinates: the nearest
    node of each point; the ball tree behind it refuses a query without
    points with [ValueError]. *)
Definition nearest_nodes `{Geography} (G : MultiDiGraph) (xs ys : list Q)
  : res (list node) :=
  match combine xs ys with
  | [] => Raise ValueError
  | points => Ok (map (fun xy => nearest_node G (fst xy) (snd xy)) points)
  end.

Module Former.

(** What the former [Geo] reads of its object: the graph, the edge frame,
    and the number of routes. *)
Record t : Type := {
  graph : MultiDiGraph;
  edges_df : list edge_row;
  n : Z
}.

(** [generate_routes(n)]: [2 * n] longitudes and [2 * n] latitudes inside
    the bounds, the first [n] points as origins and the others as
    destinations, and the shortest route (by length) of every pair. *)
Definition generate_routes `{Geography} (self : t) (count : Z) (g : unit_rng)
  : res (list (option route) * unit_rng) :=
  let '(west, south, east, north) := total_bounds (edges_df self) in
  let k := Z.to_nat (2 * count) in
  let (lon_id, g1) := uniforms k west east g in
  let (lat_id, g2) :=
    if negb (Qle_bool (Qabs north) (Qabs south)) then uniforms k south north g1
    else uniforms k north south g1 in
  origin_node <- nearest_nodes (graph self) (slice_to count lon_id)
                               (slice_to count lat_id) ;;
  destination_node <- nearest_nodes (graph self) (slice_from count lon_id)
                                    (slice_from count lat_id) ;;
  Ok (map (fun se => shortest_path (graph self) "length" (fst se) (snd se))
          (combine origin_node destination_node), g2).

(** What [filter(None, routes)] keeps: neither [None] nor an empty list. *)
Definition truthy (r : option route) : bool :=
  match r with
  | Some (_ :: _) => true
  | _ => false
  end.

(** [len(r) == 1] *)
Definition single (r : option route) : bool :=
  match r with
  | Some [_] => true
  | _ => false
  end.

(** [check_edges]: true when the routes without the missing ones are not
    [n], or when one of them has a single node. *)
Definition check_edges (self : t) (routes : list (option route)) : bool :=
  let routes := filter truthy routes in
  if negb (Z.of_nat (List.length routes) =? n self) then true
  else
    existsb (fun i => match nth_error routes i with
                      | Some r => single r
                      | None => false
                      end)
            (seq 0 (Z.to_nat (n self))).

Definition route_eqb (a b : option route) : bool :=
  match a, b with
  | Some p, Some q => if list_eq_dec Z.eq_dec p q then true else false
  | None, None => true
  | _, _ => false
  end.

(** The body of the loop of [random_routes]: drop the missing routes and
    the routes equal to a single-node route, and fill up with new ones. *)
Definition replace_invalid `{Geography} (self : t)
    (routes : list (option route)) (g : unit_rng)
  : res (list (option route) * unit_rng) :=
  let routes := filter truthy routes in
  let nodes_list := filter single routes in
  let routes := filter (fun x => negb (existsb (route_eqb x) nodes_list)) routes in
  let n_add := n self - Z.of_nat (List.length routes) in
  ' (more, g') <- generate_routes self n_add g ;;
  Ok ((routes ++ more)%list, g').

Fixpoint random_routes_loop `{Geography} (self : t) (fuel : nat)
    (routes : list (option route)) (g : unit_rng)
  : option (res (list (option route) * unit_rng)) :=
  if check_edges self routes then
    match fuel with
    | O => None
    | S fuel' =>
        match replace_invalid self routes g with
        | Ok (routes', g') => random_routes_loop self fuel' routes' g'
        | Raise e => Some (Raise e)
        end
    end
  else Some (Ok (routes, g)).

(** [random_routes] *)
Definition random_routes `{Geography} (self : t) (fuel : nat) (g : unit_rng)
  : option (res (list (option route) * unit_rng)) :=
  match generate_routes self (n self) g with
  | Ok (routes, g') => random_routes_loop self fuel routes g'
  | Raise e => Some (Raise e)
  end.

(** [centrality] of the former [Geo]: the routes of [random_routes],
    counted per edge as in the package. *)
Definition centrality `{Geography} (self : t) (fuel : nat) (g : unit_rng)
  : option (res (table * unit_rng)) :=
  match random_routes self fuel g with
  | None => None
  | Some (Raise e) => Some (Raise e)
  | Some (Ok (routes, g')) =>
      Some (centrality_df <- Geo.count_routes (graph self) routes ;;
            Ok (centrality_df, g'))
  end.

End Former.

(** Stand-ins for the geometry calls, for examples only: the unit square
    as bounds, and the first node west of longitude 1/2, the second node
    east of it. *)
Definition flatland : Geography :=
  {| total_bounds := fun _ => (0%Q, 0%Q, 1%Q, 1%Q);
     nearest_node := fun G x _ =>
       if Qle_bool x (1 # 2) then nth 0 (nodes G) 0 else nth 1 (nodes G) 0 |}.

Definition unit_tape_of (l : list Q) (d : Q) : unit_rng :=
  {| utape := fun i => nth i l d; upos := 0 |}.

(** A former [Geo] object on the graph of the tests, one route requested,
    and a tape whose first pass picks the first node twice. *)
Definition former_two_way : Former.t :=
  {| Former.graph := two_way;
     Former.edges_df := map row_of (edges two_way);
     Former.n := 1 |}.

Definition retry_tape : unit_rng :=
  unit_tape_of [1 # 5; 3 # 10; 0; 0; 1 # 5; 4 # 5]%Q 0%Q.

(** A route as the router answers for some origin and destination. *)
Definition routed (G : MultiDiGraph) (r : option route) : Prop :=
  exists o d, r = shortest_path G "length" o d.

(** A route with two nodes or more. *)
Definition proper (r : option route) : Prop :=
  exists p, r = Some p /\ (2 <= List.length p)%nat.

(* ================================================================= *)
(** * Properties *)

(** ** Results and draws *)

Lemma bind_ok {A B : Type} (m : res A) (k : A -> res B) (b : B) :
  bind m k = Ok b -> exists a, m = Ok a /\ k a = Ok b.
Proof.
  destruct m as [a | e]; simpl; intros E.
  - exists a. split; [reflexivity | exact E].
  - discriminate E.
Qed.

Lemma mapM_ok {A B : Type} (f : A -> res B) (l : list A) (ys : list B) :
  mapM f l = Ok ys -> Forall2 (fun x y => f x = Ok y) l ys.
Proof.
  revert ys. induction l as [| x l IH]; simpl; intros ys E.
  - injection E as <-. constructor.
  - apply bind_ok in E. destruct E as (y & Ey & E).
    apply bind_ok in E. destruct E as (ys' & Eys & E).
    injection E as <-. constructor; [exact Ey | apply IH; exact Eys].
Qed.

Lemma pick_drawn (ns : list node) (g : rng) (i : nat) :
  pick ns g i = drawn ns g (pos g + i).
Proof. reflexivity. Qed.


Lemma drawn_In (ns : list node) (g : rng) (p : nat) :
  ns <> [] -> In (drawn ns g p) ns.
Proof.
  intros Hns. unfold drawn. apply nth_In.
  apply Nat.mod_upper_bound. destruct ns; [congruence | discriminate].
Qed.

Lemma random_choice_ok (ns : list node) (k : Z) (g : rng)
    (l : list node) (g' : rng) :
  random_choice ns k g = Ok (l, g') ->
  0 <= k /\ (0 < k -> ns <> [])
  /\ l = map (fun i => drawn ns g (pos g + i)) (seq 0 (Z.to_nat k))
  /\ g' = advance (Z.to_nat k) g.
Proof.
  unfold random_choice. intros E.
  destruct (k <? 0) eqn:Hneg; [discriminate E |].
  apply Z.ltb_ge in Hneg.
  destruct (Nat.eqb (List.length ns) 0 && (0 <? k)) eqn:Hemp; [discriminate E |].
  injection E as <- <-. repeat split; try assumption.
  intros Hk ->. simpl in Hemp. apply Z.ltb_lt in Hk. rewrite Hk in Hemp.
  discriminate Hemp.
Qed.


(** ** The retry loop of [generate_routes] *)

Section RetryLoop.

Variable ns : list node.
Variable route_of : node -> node -> option route.
Variable n_routes : Z.

Lemma shortest_paths_map (g : rng) (p q k : nat) :
  shortest_paths route_of
    (map (fun i => drawn ns g (p + i)) (seq 0 k))
    (map (fun i => drawn ns g (q + i)) (seq 0 k))
  = map (fun i => route_of (drawn ns g (p + i)) (drawn ns g (q + i))) (seq 0 k).
Proof.
  unfold shortest_paths. generalize 0%nat as a.
  induction k as [| k IH]; intros a; simpl; [reflexivity |].
  f_equal. apply IH.
Qed.

Lemma sample_routes_ok (k : Z) (g : rng) (routes : list (option route))
    (g' : rng) :
  Geo.sample_routes ns route_of k g = Ok (routes, g') ->
  0 <= k /\ (0 < k -> ns <> [])
  /\ routes = pass_routes ns route_of g (pos g) (Z.to_nat k)
  /\ g' = advance (2 * Z.to_nat k) g.
Proof.
  unfold Geo.sample_routes. intros E.
  apply bind_ok in E. destruct E as ([origs g1] & E1 & E).
  apply bind_ok in E. destruct E as ([dests g2] & E2 & E).
  injection E as <- <-.
  apply random_choice_ok in E1. destruct E1 as (Hk & Hns & -> & ->).
  apply random_choice_ok in E2. destruct E2 as (_ & _ & -> & ->).
  repeat split; try assumption.
  - unfold pass_routes. simpl pos.
    rewrite (shortest_paths_map g (pos g) (pos g + Z.to_nat k)). reflexivity.
  - unfold advance. simpl. f_equal. lia.
Qed.


Lemma pass_routes_length (g : rng) (p k : nat) :
  List.length (pass_routes ns route_of g p k) = k.
Proof. unfold pass_routes. rewrite length_map, length_seq. reflexivity. Qed.

Lemma kept_pass (g : rng) (p k : nat) :
  ns <> [] ->
  Forall (kept ns route_of) (filter Geo.is_not_None (pass_routes ns route_of g p k)).
Proof.
  intros Hns. apply Forall_forall. intros r Hr.
  apply filter_In in Hr. destruct Hr as [Hin Hsome].
  split.
  - destruct r; [discriminate | discriminate Hsome].
  - unfold pass_routes in Hin. apply in_map_iff in Hin.
    destruct Hin as (i & <- & _).
    exists (drawn ns g (p + i)), (drawn ns g (p + k + i)).
    repeat split; apply drawn_In; assumption.
Qed.

Lemma loop_body_ok (s s' : Geo.loop_state) :
  Geo.loop_body ns route_of n_routes s = Ok s' ->
  let k := Z.to_nat (Geo.temp s) in
  0 <= Geo.temp s /\ (0 < Geo.temp s -> ns <> [])
  /\ Geo.routes_valid s'
     = (Geo.routes_valid s
        ++ filter Geo.is_not_None (pass_routes ns route_of (Geo.gen s) (pos (Geo.gen s)) k))%list
  /\ Geo.temp s' = n_routes - Z.of_nat (List.length (Geo.routes_valid s'))
  /\ Geo.gen s' = advance (2 * k) (Geo.gen s).
Proof.
  unfold Geo.loop_body. intros E.
  apply bind_ok in E. destruct E as ([routes g] & E1 & E).
  injection E as <-. simpl.
  apply sample_routes_ok in E1. destruct E1 as (Hk & Hns & -> & ->).
  repeat split; assumption.
Qed.

Lemma head_inv_body (s s' : Geo.loop_state) :
  head_inv ns route_of n_routes s -> Geo.temp s <> 0 ->
  Geo.loop_body ns route_of n_routes s = Ok s' ->
  head_inv ns route_of n_routes s'.
Proof.
  intros (Htemp & Hpos & Hkept) Hnz E.
  apply loop_body_ok in E. destruct E as (_ & Hns & Hrv & Htemp' & _).
  assert (Hns' : ns <> []) by (apply Hns; lia).
  split; [exact Htemp' | split].
  - rewrite Htemp', Hrv, length_app.
    pose proof (filter_length_le Geo.is_not_None
                  (pass_routes ns route_of (Geo.gen s) (pos (Geo.gen s)) (Z.to_nat (Geo.temp s)))) as Hle.
    rewrite pass_routes_length in Hle. lia.
  - rewrite Hrv. apply Forall_app. split; [exact Hkept |].
    apply kept_pass. exact Hns'.
Qed.

Lemma head_inv_initial (g : rng) :
  0 <= n_routes -> head_inv ns route_of n_routes (Geo.initial_state n_routes g).
Proof.
  intros Hn. unfold head_inv, Geo.initial_state. simpl.
  repeat split; [lia | constructor].
Qed.

(** The loop returns only from a head whose shortfall is zero. *)
Lemma while_loop_ok (fuel : nat) :
  forall (s : Geo.loop_state) (routes : list (option route)) (g' : rng),
    head_inv ns route_of n_routes s ->
    Geo.while_loop ns route_of n_routes fuel s = Some (Ok (routes, g')) ->
    Z.of_nat (List.length routes) = n_routes /\ Forall (kept ns route_of) routes.
Proof.
  induction fuel as [| fuel IH]; intros s routes g' Hinv; simpl.
  - destruct (Geo.temp s =? 0) eqn:Hz; [| discriminate].
    intros E. injection E as <- <-. apply Z.eqb_eq in Hz.
    destruct Hinv as (Htemp & _ & Hkept). split; [lia | exact Hkept].
  - destruct (Geo.temp s =? 0) eqn:Hz.
    + intros E. injection E as <- <-. apply Z.eqb_eq in Hz.
      destruct Hinv as (Htemp & _ & Hkept). split; [lia | exact Hkept].
    + apply Z.eqb_neq in Hz.
      destruct (Geo.loop_body ns route_of n_routes s) as [s' | e] eqn:Eb;
        [| discriminate].
      intros E. apply (IH s' routes g'); [| exact E].
      apply (head_inv_body s s'); assumption.
Qed.

(** A negative request never returns a list: numpy refuses the size. *)
Lemma while_loop_negative (fuel : nat) (s : Geo.loop_state) :
  Geo.temp s < 0 ->
  forall routes g',
    Geo.while_loop ns route_of n_routes fuel s <> Some (Ok (routes, g')).
Proof.
  intros Hneg routes g'.
  assert (Hb : Geo.loop_body ns route_of n_routes s = Raise ValueError).
  { unfold Geo.loop_body, Geo.sample_routes, random_choice.
    destruct (Geo.temp s <? 0) eqn:H; [reflexivity |].
    apply Z.ltb_ge in H. lia. }
  destruct fuel as [| fuel]; simpl;
    (destruct (Geo.temp s =? 0) eqn:Hz; [apply Z.eqb_eq in Hz; lia |]).
  - discriminate.
  - rewrite Hb. discriminate.
Qed.

(** Every loop head of a run satisfies the invariant. *)
Lemma loop_head_inv (g0 : rng) (s : Geo.loop_state) :
  0 <= n_routes ->
  loop_head ns route_of n_routes g0 s -> head_inv ns route_of n_routes s.
Proof.
  intros Hn H. induction H as [| s s' _ IH Hnz Eb].
  - apply head_inv_initial. exact Hn.
  - apply (head_inv_body s s'); assumption.
Qed.

End RetryLoop.

(** ** Passes that find nothing, passes that find something *)



Section RetryLoopTermination.

Variable ns : list node.
Variable route_of : node -> node -> option route.
Variable n_routes : Z.





End RetryLoopTermination.

(** ** Objects and tapes of the examples *)

Lemma geo_object_init (X : External) (study_area : string) (G : MultiDiGraph)
    (k : Z) (out : string) :
  nodes G <> [] -> edges G <> [] ->
  @Geo.init X study_area G "shortest" k out = Ok (geo_object study_area G k out).
Proof.
  intros Hn He. unfold Geo.init, BetweennessCentrality.init, graph_to_gdfs.
  simpl. destruct (nodes G) as [| x ns] eqn:En; [congruence |].
  destruct (edges G) as [| e es] eqn:Ee; [congruence |].
  simpl. unfold geo_object, BetweennessCentrality.set_method_n. simpl.
  rewrite En, Ee. reflexivity.
Qed.






Lemma while_loop_S (ns : list node) (route_of : node -> node -> option route)
    (n_routes : Z) (fuel : nat) (s : Geo.loop_state) :
  Geo.while_loop ns route_of n_routes (S fuel) s
  = if Geo.temp s =? 0 then Some (Ok (Geo.routes_valid s, Geo.gen s))
    else match Geo.loop_body ns route_of n_routes s with
         | Ok s' => Geo.while_loop ns route_of n_routes fuel s'
         | Raise e => Some (Raise e)
         end.
Proof. reflexivity. Qed.


(** ** [Geo.generate_routes] *)

(** What a returned list is made of. *)
Lemma generate_routes_returns (self : BetweennessCentrality.t) (n_routes : Z)
    (fuel : nat) (g : rng) (routes : list (option route)) (g' : rng) :
  BetweennessCentrality.n self = Some n_routes ->
  Geo.generate_routes self fuel g = Some (Ok (routes, g')) ->
  0 <= n_routes
  /\ Z.of_nat (List.length routes) = n_routes
  /\ Forall (kept (nodes (BetweennessCentrality.graph self))
                  (shortest_path (BetweennessCentrality.graph self)
                                 (BetweennessCentrality.weight self))) routes.
Proof.
  intros Hn Hrun. unfold Geo.generate_routes in Hrun. rewrite Hn in Hrun.
  assert (Hnn : 0 <= n_routes).
  { destruct (Z.lt_ge_cases n_routes 0) as [Hneg | Hge]; [| exact Hge].
    exfalso.
    apply (while_loop_negative _ _ n_routes fuel
             (Geo.initial_state n_routes g)) with (routes := routes) (g' := g')
      in Hrun; [exact Hrun | simpl; lia]. }
  split; [exact Hnn |].
  apply (while_loop_ok _ _ n_routes fuel _ routes g'
           (head_inv_initial _ _ n_routes g Hnn) Hrun).
Qed.

(** C1.  The claim is that no returned route is degenerate.  The loop only
    filters [None]: on the one-street graph, when the draw picks node 1 as
    origin and as destination, the router answers the single-node route
    [[1]], and [generate_routes] returns it as its one valid route. *)
Theorem generate_routes_keeps_single_node_route :
  (forall X : External,
      @Geo.init X "A" one_way "shortest" 1 "out"
      = Ok (geo_object "A" one_way 1 "out"))
  /\ shortest_path one_way "length" 1 1 = Some [1]
  /\ Geo.generate_routes (geo_object "A" one_way 1 "out") 1 (tape_of [] 0)
     = Some (Ok ([Some [1]], advance 2 (tape_of [] 0))).
Proof.
  split; [| split].
  - intros X. apply geo_object_init; discriminate.
  - vm_compute. reflexivity.
  - vm_compute. reflexivity.
Qed.

(** C2.  The claim is that a run that ends returns exactly [n] valid
    paths and that every pass samples only the routes still missing.  The
    count and the resampling hold: a returned list has exactly [n]
    entries, each kept by the filter of the loop (not [None], the
    router's answer for two nodes of the graph), and every pass made from
    a loop head samples [n - len(routes_valid)] pairs, a number between 1
    and [n]: it reads twice that many draws and appends what the filter
    keeps of that many routes.  But the entries need not be valid paths:
    on the one-street graph, with one route requested and node 1 drawn
    twice, the one route returned has a single node. *)
Theorem generate_routes_exactly_n :
  (forall (self : BetweennessCentrality.t) (n_routes : Z) (fuel : nat)
          (g : rng) (routes : list (option route)) (g' : rng),
      let ns := nodes (BetweennessCentrality.graph self) in
      let route_of :=
        shortest_path (BetweennessCentrality.graph self)
                      (BetweennessCentrality.weight self) in
      BetweennessCentrality.n self = Some n_routes ->
      Geo.generate_routes self fuel g = Some (Ok (routes, g')) ->
      Z.of_nat (List.length routes) = n_routes
      /\ Forall (kept ns route_of) routes
      /\ forall s s' : Geo.loop_state,
           loop_head ns route_of n_routes g s ->
           Geo.temp s <> 0 ->
           Geo.loop_body ns route_of n_routes s = Ok s' ->
           let shortfall := n_routes - Z.of_nat (List.length (Geo.routes_valid s)) in
           Geo.temp s = shortfall
           /\ 0 < shortfall <= n_routes
           /\ pos (Geo.gen s')
              = (pos (Geo.gen s) + 2 * Z.to_nat shortfall)%nat
           /\ Geo.routes_valid s'
              = (Geo.routes_valid s
                 ++ filter Geo.is_not_None
                      (pass_routes ns route_of (Geo.gen s) (pos (Geo.gen s))
                                   (Z.to_nat shortfall)))%list
           /\ List.length (pass_routes ns route_of (Geo.gen s) (pos (Geo.gen s))
                                       (Z.to_nat shortfall))
              = Z.to_nat shortfall)
  /\ Geo.generate_routes (geo_object "A" one_way 1 "out") 1 (tape_of [] 0)
     = Some (Ok ([Some [1]], advance 2 (tape_of [] 0)))
  /\ ~ Forall proper [Some [1]].
Proof.
  split; [| split].
  - intros self n_routes fuel g routes g' ns route_of Hn Hrun.
    destruct (generate_routes_returns self n_routes fuel g routes g' Hn Hrun)
      as (Hnn & Hlen & Hkept).
    split; [exact Hlen | split; [exact Hkept |]].
    intros s s' Hhead Hnz Hbody shortfall.
    destruct (loop_head_inv ns route_of n_routes g s Hnn Hhead)
      as (Htemp & Hpos & _).
    apply loop_body_ok in Hbody.
    destruct Hbody as (_ & _ & Hrv & _ & Hgen).
    fold shortfall in Htemp. rewrite Htemp in Hrv, Hgen.
    split; [exact Htemp |].
    split; [subst shortfall; lia |].
    split; [rewrite Hgen; reflexivity |].
    split; [exact Hrv | apply pass_routes_length].
  - vm_compute. reflexivity.
  - intros H. inversion H as [| ? ? (p & Ep & Hp) _]; subst.
    injection Ep as <-. simpl in Hp. lia.
Qed.

(** An instance: on the two separate streets, with two routes requested,
    the first pass pairs node 1 with node 2 and node 1 with node 3; one
    route is missing after it, and the second pass samples one pair. *)
Lemma generate_routes_exactly_n_witness :
  Z.of_nat (List.length [Some [1; 2]; Some [1; 2]]) = 2
  /\ pos (advance 6 (tape_of [0; 0; 1; 2; 0; 1]%nat 0)) = (4 + 2 * 1)%nat.
Proof.
  pose proof (proj1 generate_routes_exactly_n
                (geo_object "A" two_islands 2 "out") 2 2%nat
                (tape_of [0; 0; 1; 2; 0; 1]%nat 0)
                [Some [1; 2]; Some [1; 2]]
                (advance 6 (tape_of [0; 0; 1; 2; 0; 1]%nat 0))
                eq_refl ltac:(vm_compute; reflexivity)) as (Hlen & _ & Hpass).
  split; [exact Hlen |].
  refine (proj1 (proj2 (proj2
            (Hpass {| Geo.routes_valid := [Some [1; 2]]; Geo.temp := 1;
                      Geo.gen := advance 4 (tape_of [0; 0; 1; 2; 0; 1]%nat 0) |}
                   {| Geo.routes_valid := [Some [1; 2]; Some [1; 2]];
                      Geo.temp := 0;
                      Geo.gen := advance 6 (tape_of [0; 0; 1; 2; 0; 1]%nat 0) |}
                   _ ltac:(discriminate) ltac:(vm_compute; reflexivity))))).
  apply (head_next _ _ _ _ (Geo.initial_state 2 (tape_of [0; 0; 1; 2; 0; 1]%nat 0)));
    [apply head_first | discriminate | vm_compute; reflexivity].
Defined.





(** ** Edge keys and the table of counts *)

Lemma key_eqb_eq (a b : edge_key) : key_eqb a b = true <-> a = b.
Proof.
  destruct a as [[u1 v1] k1], b as [[u2 v2] k2]. unfold key_eqb.
  rewrite !andb_true_iff, !Z.eqb_eq. split.
  - intros [[-> ->] ->]. reflexivity.
  - intros E. injection E as -> -> ->. auto.
Qed.

Lemma key_eqb_refl (a : edge_key) : key_eqb a a = true.
Proof. apply key_eqb_eq. reflexivity. Qed.

Lemma key_eqb_neq (a b : edge_key) : key_eqb a b = false <-> a <> b.
Proof.
  split.
  - intros E H. apply key_eqb_eq in H. congruence.
  - intros H. destruct (key_eqb a b) eqn:E; [| reflexivity].
    apply key_eqb_eq in E. contradiction.
Qed.

Lemma key_ltb_spec (a b : edge_key) :
  key_ltb a b = true <->
  (let '(u1, v1, k1) := a in
   let '(u2, v2, k2) := b in
   u1 < u2 \/ (u1 = u2 /\ (v1 < v2 \/ (v1 = v2 /\ k1 < k2)))).
Proof.
  destruct a as [[u1 v1] k1], b as [[u2 v2] k2]. unfold key_ltb.
  rewrite !orb_true_iff, !andb_true_iff, !orb_true_iff, !andb_true_iff,
          !Z.ltb_lt, !Z.eqb_eq.
  reflexivity.
Qed.

Lemma key_ltb_trans (a b c : edge_key) :
  key_ltb a b = true -> key_ltb b c = true -> key_ltb a c = true.
Proof.
  rewrite !key_ltb_spec.
  destruct a as [[u1 v1] k1], b as [[u2 v2] k2], c as [[u3 v3] k3]. lia.
Qed.

Lemma key_ltb_irrefl (a : edge_key) : key_ltb a a = false.
Proof.
  destruct (key_ltb a a) eqn:E; [| reflexivity].
  apply key_ltb_spec in E. destruct a as [[u v] k]. lia.
Qed.

Lemma key_ltb_total (a b : edge_key) :
  key_eqb a b = false -> key_ltb a b = false -> key_ltb b a = true.
Proof.
  intros Hne Hlt. apply key_ltb_spec.
  assert (Hn : ~ (let '(u1, v1, k1) := a in
                  let '(u2, v2, k2) := b in
                  u1 < u2 \/ (u1 = u2 /\ (v1 < v2 \/ (v1 = v2 /\ k1 < k2))))).
  { intros H. apply key_ltb_spec in H. congruence. }
  apply key_eqb_neq in Hne.
  destruct a as [[u1 v1] k1], b as [[u2 v2] k2].
  assert (u1 <> u2 \/ v1 <> v2 \/ k1 <> k2).
  { destruct (Z.eq_dec u1 u2) as [-> |]; [| auto].
    destruct (Z.eq_dec v1 v2) as [-> |]; [| auto].
    destruct (Z.eq_dec k1 k2) as [-> |]; [congruence | auto]. }
  lia.
Qed.

Lemma lookup_above {V : Type} (k : edge_key) (t : list (edge_key * V)) :
  Forall (fun b => key_ltb k (fst b) = true) t -> lookup k t = None.
Proof.
  induction t as [| [k' c] t IH]; intros H; simpl; [reflexivity |].
  inversion H as [| ? ? Hk Ht]; subst. simpl in Hk.
  destruct (key_eqb k k') eqn:E.
  - apply key_eqb_eq in E. subst k'. rewrite key_ltb_irrefl in Hk. discriminate.
  - apply IH. exact Ht.
Qed.

Lemma count_row_keys (k : edge_key) (t : list (edge_key * Z)) (P : edge_key -> Prop) :
  P k -> Forall (fun b => P (fst b)) t ->
  Forall (fun b => P (fst b)) (count_row k t).
Proof.
  intros Hk. induction t as [| [k' c] t IH]; intros H; simpl.
  - constructor; [exact Hk | constructor].
  - inversion H as [| ? ? Hk' Ht]; subst.
    destruct (key_eqb k k'); [constructor; assumption |].
    destruct (key_ltb k k').
    + constructor; [exact Hk | exact H].
    + constructor; [exact Hk' | apply IH; exact Ht].
Qed.

Lemma count_row_sorted (k : edge_key) (t : list (edge_key * Z)) :
  key_sorted t -> key_sorted (count_row k t).
Proof.
  unfold key_sorted. induction t as [| [k' c] t IH]; intros H; simpl.
  - constructor; constructor.
  - inversion H as [| ? ? Ht Hall]; subst.
    destruct (key_eqb k k') eqn:E.
    + constructor; assumption.
    + destruct (key_ltb k k') eqn:L.
      * constructor; [exact H |].
        constructor; [exact L |].
        eapply Forall_impl; [| exact Hall].
        intros b Hb. simpl in *. eapply key_ltb_trans; eassumption.
      * constructor; [apply IH; exact Ht |].
        apply (count_row_keys k t (fun x => key_ltb k' x = true)).
        -- apply key_ltb_total; [exact E | exact L].
        -- exact Hall.
Qed.

Lemma lookup_count_row (e k : edge_key) (t : list (edge_key * Z)) :
  key_sorted t ->
  lookup e (count_row k t)
  = if key_eqb e k then
      Some (match lookup k t with Some c => c + 1 | None => 1 end)
    else lookup e t.
Proof.
  unfold key_sorted. induction t as [| [k' c] t IH]; intros H; simpl.
  - destruct (key_eqb e k); reflexivity.
  - inversion H as [| ? ? Ht Hall]; subst.
    destruct (key_eqb k k') eqn:E.
    + apply key_eqb_eq in E. subst k'. simpl.
      destruct (key_eqb e k); reflexivity.
    + destruct (key_ltb k k') eqn:L.
      * simpl. destruct (key_eqb e k) eqn:Eek.
        -- rewrite lookup_above; [reflexivity |].
           eapply Forall_impl; [| exact Hall].
           intros b Hb. simpl in *. eapply key_ltb_trans; eassumption.
        -- reflexivity.
      * simpl. destruct (key_eqb e k') eqn:Eek'.
        -- apply key_eqb_eq in Eek'. subst k'.
           destruct (key_eqb e k) eqn:Eek; [| reflexivity].
           apply key_eqb_eq in Eek. subst. rewrite key_eqb_refl in E. discriminate.
        -- apply IH. exact Ht.
Qed.

Lemma occurrences_app (e : edge_key) (a b : list edge_row) :
  occurrences e (a ++ b) = occurrences e a + occurrences e b.
Proof.
  unfold occurrences. rewrite filter_app, length_app. apply Nat2Z.inj_add.
Qed.

Lemma occurrences_nonneg (e : edge_key) (rows : list edge_row) :
  0 <= occurrences e rows.
Proof. unfold occurrences. lia. Qed.

Lemma groupby_count_from (rows : list edge_row) :
  forall (seen : list edge_row) (acc : list (edge_key * Z)),
    key_sorted acc ->
    (forall e, lookup e acc = counted e (occurrences e seen)) ->
    key_sorted (fold_left (fun t r => count_row (fst r) t) rows acc)
    /\ forall e,
         lookup e (fold_left (fun t r => count_row (fst r) t) rows acc)
         = counted e (occurrences e (seen ++ rows)).
Proof.
  induction rows as [| r rows IH]; intros seen acc Hs Hl; simpl.
  - rewrite app_nil_r. split; assumption.
  - replace (seen ++ r :: rows)%list with ((seen ++ [r]) ++ rows)%list
      by (rewrite <- app_assoc; reflexivity).
    apply IH; [apply count_row_sorted; exact Hs |].
    intros e. rewrite lookup_count_row by exact Hs.
    rewrite occurrences_app. unfold occurrences at 2. simpl.
    pose proof (occurrences_nonneg e seen) as Hnn.
    destruct (key_eqb e (fst r)) eqn:E.
    + apply key_eqb_eq in E. subst e. rewrite Hl. unfold counted.
      simpl List.length.
      destruct (occurrences (fst r) seen =? 0) eqn:Z0.
      * apply Z.eqb_eq in Z0. rewrite Z0. reflexivity.
      * apply Z.eqb_neq in Z0.
        destruct (occurrences (fst r) seen + Z.of_nat 1 =? 0) eqn:Z1;
          [apply Z.eqb_eq in Z1; lia |].
        f_equal.
    + rewrite Hl. simpl. rewrite Z.add_0_r. reflexivity.
Qed.

Lemma groupby_count_spec (rows : list edge_row) :
  key_sorted (groupby_count rows)
  /\ forall e, lookup e (groupby_count rows) = counted e (occurrences e rows).
Proof.
  apply (groupby_count_from rows [] []).
  - constructor.
  - intros e. reflexivity.
Qed.

(** ** Routes as rows *)

Lemma min_by_length_In (l : list edge) (e : edge) :
  min_by_length l = Some e -> In e l.
Proof.
  revert e. induction l as [| x l IH]; simpl; intros e E; [discriminate |].
  destruct (min_by_length l) as [e' |].
  - destruct (Qle_bool (e_length (e_data x)) (e_length (e_data e')));
      injection E as <-; [left; reflexivity | right; apply IH; reflexivity].
  - injection E as <-. left. reflexivity.
Qed.

Lemma hop_key_ends (G : MultiDiGraph) (uv : node * node) (k : edge_key) :
  hop_key G uv = Some k -> fst k = uv.
Proof.
  unfold hop_key. destruct (min_by_length _) as [e |] eqn:E; [| discriminate].
  simpl. intros H. injection H as <-.
  apply min_by_length_In in E. unfold parallel in E.
  apply filter_In in E. destruct E as [_ E].
  apply andb_true_iff in E. destruct E as [Eu Ev].
  apply Z.eqb_eq in Eu, Ev. unfold key_of. simpl.
  destruct uv as [u v]. simpl in *. congruence.
Qed.

Lemma hop_row_key (G : MultiDiGraph) (uv : node * node) (row : edge_row) :
  hop_row G uv = Ok row -> hop_key G uv = Some (fst row).
Proof.
  unfold hop_row, hop_key.
  destruct (min_by_length _) as [e |]; [| discriminate].
  intros H. injection H as <-. reflexivity.
Qed.

Lemma route_to_gdf_hops (G : MultiDiGraph) (p : route) (rows : list edge_row) :
  route_to_gdf G (Some p) = Ok rows ->
  Forall2 (fun uv row => hop_key G uv = Some (fst row)) (hops p) rows.
Proof.
  unfold route_to_gdf. destruct (subgraph_edges G p); [discriminate |].
  intros E. apply mapM_ok in E.
  eapply Forall2_impl; [| exact E].
  intros uv row. apply hop_row_key.
Qed.

Lemma occurrences_hops (G : MultiDiGraph) (e : edge_key)
    (hs : list (node * node)) (rows : list edge_row) :
  Forall2 (fun uv row => hop_key G uv = Some (fst row)) hs rows ->
  occurrences e rows = Z.of_nat (List.length (filter (on_edge G e) hs)).
Proof.
  unfold occurrences. intros H. f_equal.
  induction H as [| uv row hs rows Hk _ IH]; simpl; [reflexivity |].
  unfold on_edge at 1. rewrite Hk.
  destruct (key_eqb e (fst row)); simpl; rewrite IH; reflexivity.
Qed.

Lemma combine_NoDup {A B : Type} (l : list A) :
  NoDup l -> forall l' : list B, NoDup (combine l l').
Proof.
  intros H. induction H as [| x l Hx Hl IH]; intros l'; simpl; [constructor |].
  destruct l' as [| y l']; [constructor |].
  constructor; [| apply IH].
  intros Hin. apply in_combine_l in Hin. contradiction.
Qed.

Lemma hops_NoDup (p : route) : NoDup p -> NoDup (hops p).
Proof. intros H. apply combine_NoDup. exact H. Qed.

Lemma NoDup_constant_length {A : Type} (a : A) (l : list A) :
  NoDup l -> (forall x, In x l -> x = a) -> (List.length l <= 1)%nat.
Proof.
  intros Hnd Hall. destruct l as [| x [| y l]]; simpl; try lia.
  exfalso. inversion Hnd as [| ? ? Hx _]; subst. apply Hx.
  rewrite (Hall x (or_introl eq_refl)).
  rewrite <- (Hall y (or_intror (or_introl eq_refl))). left. reflexivity.
Qed.

Lemma on_edge_hop (G : MultiDiGraph) (e : edge_key) (uv : node * node) :
  on_edge G e uv = true -> uv = fst e.
Proof.
  unfold on_edge. destruct (hop_key G uv) as [k |] eqn:E; [| discriminate].
  intros H. apply key_eqb_eq in H. subst k.
  symmetry. apply (hop_key_ends G uv e E).
Qed.

Lemma existsb_filter_length {A : Type} (f : A -> bool) (l : list A) :
  (List.length (filter f l) <= 1)%nat ->
  Z.of_nat (List.length (filter f l)) = if existsb f l then 1 else 0.
Proof.
  induction l as [| x l IH]; simpl; [reflexivity |].
  destruct (f x) eqn:E; simpl.
  - intros H. destruct (filter f l); simpl in *; [reflexivity | lia].
  - exact IH.
Qed.

(** A simple route contributes one row to the group of every edge it
    traverses, and none to the others. *)
Lemma simple_route_rows (G : MultiDiGraph) (e : edge_key) (p : route)
    (rows : list edge_row) :
  NoDup p ->
  route_to_gdf G (Some p) = Ok rows ->
  occurrences e rows = if traverses G e (Some p) then 1 else 0.
Proof.
  intros Hnd E.
  rewrite (occurrences_hops G e (hops p) rows (route_to_gdf_hops G p rows E)).
  change (traverses G e (Some p)) with (existsb (on_edge G e) (hops p)).
  apply existsb_filter_length.
  apply (NoDup_constant_length (fst e)).
  - apply NoDup_filter. apply hops_NoDup. exact Hnd.
  - intros uv Hin. apply filter_In in Hin. apply (on_edge_hop G). apply Hin.
Qed.

Lemma routes_rows (G : MultiDiGraph) (e : edge_key)
    (routes : list (option route)) (frames : list (list edge_row)) :
  Forall simple routes ->
  Forall2 (fun r frame => route_to_gdf G r = Ok frame) routes frames ->
  occurrences e (List.concat frames) = routes_through G routes e.
Proof.
  intros Hs H. unfold routes_through.
  induction H as [| r frame routes frames Hr _ IH]; simpl; [reflexivity |].
  inversion Hs as [| ? ? Hsr Hsrest]; subst.
  rewrite occurrences_app, (IH Hsrest).
  destruct r as [p |]; [| discriminate Hr].
  rewrite (simple_route_rows G e p frame Hsr Hr).
  destruct (traverses G e (Some p)); simpl List.length; lia.
Qed.

Lemma lookup_map {V W : Type} (f : V -> W) (e : edge_key)
    (t : list (edge_key * V)) :
  lookup e (map (fun kc => (fst kc, f (snd kc))) t) = option_map f (lookup e t).
Proof.
  induction t as [| [k c] t IH]; simpl; [reflexivity |].
  destruct (key_eqb e k); [reflexivity | exact IH].
Qed.

(** The table of [count_routes] for simple routes. *)
Lemma count_routes_spec (G : MultiDiGraph) (routes : list (option route))
    (tbl : table) :
  Forall simple routes ->
  Geo.count_routes G routes = Ok tbl ->
  forall e : edge_key,
    lookup e tbl
    = if routes_through G routes e =? 0 then None
      else Some (PyInt (routes_through G routes e)).
Proof.
  intros Hs E e. unfold Geo.count_routes in E.
  apply bind_ok in E. destruct E as (frames & Ef & E).
  apply bind_ok in E. destruct E as (rows & Ec & E).
  injection E as <-.
  assert (rows = List.concat frames) as ->.
  { unfold pd_concat in Ec. destruct frames; [discriminate |].
    injection Ec as <-. reflexivity. }
  rewrite lookup_map.
  rewrite (proj2 (groupby_count_spec (List.concat frames)) e).
  rewrite (routes_rows G e routes frames Hs (mapM_ok _ _ _ Ef)).
  unfold counted. destruct (routes_through G routes e =? 0); reflexivity.
Qed.

(** ** The routes of the router are simple *)

Lemma mem_false (x : node) (l : list node) : mem x l = false -> ~ In x l.
Proof.
  unfold mem. intros H Hin.
  assert (E : existsb (Z.eqb x) l = true).
  { apply existsb_exists. exists x. split; [exact Hin | apply Z.eqb_refl]. }
  congruence.
Qed.

Lemma simple_paths_S (G : MultiDiGraph) (w : string) (fuel : nat)
    (visited : list node) (cur dest : node) :
  simple_paths G w (S fuel) visited cur dest
  = if cur =? dest then [(0%Q, [cur])]
    else flat_map
           (fun e =>
              if (e_u e =? cur) && negb (mem (e_v e) (cur :: visited)) then
                map (fun wp => ((edge_weight w (e_data e) + fst wp)%Q, cur :: snd wp))
                    (simple_paths G w fuel (cur :: visited) (e_v e) dest)
              else [])
           (edges G).
Proof. reflexivity. Qed.

Lemma simple_paths_NoDup (G : MultiDiGraph) (w : string) (fuel : nat) :
  forall (visited : list node) (cur dest : node) (wp : Q * route),
    ~ In cur visited ->
    In wp (simple_paths G w fuel visited cur dest) ->
    NoDup (snd wp) /\ forall x, In x (snd wp) -> ~ In x visited.
Proof.
  assert (Hbase : forall (visited : list node) (cur : node) (wp : Q * route),
             ~ In cur visited -> In wp [(0%Q, [cur])] ->
             NoDup (snd wp) /\ forall x, In x (snd wp) -> ~ In x visited).
  { intros visited cur wp Hcur Hin. simpl in Hin.
    destruct Hin as [<- | []]. simpl. split.
    - constructor; [intros [] | constructor].
    - intros x [<- | []]. exact Hcur. }
  induction fuel as [| fuel IH]; intros visited cur dest wp Hcur Hin.
  - simpl in Hin.
    destruct (cur =? dest); [apply (Hbase visited cur wp Hcur Hin) | destruct Hin].
  - rewrite simple_paths_S in Hin.
    destruct (cur =? dest); [apply (Hbase visited cur wp Hcur Hin) |].
    apply in_flat_map in Hin. destruct Hin as (e & _ & Hin).
    destruct ((e_u e =? cur) && negb (mem (e_v e) (cur :: visited))) eqn:Hc;
      [| destruct Hin].
    apply andb_true_iff in Hc. destruct Hc as [_ Hc].
    apply negb_true_iff in Hc. apply mem_false in Hc.
    apply in_map_iff in Hin. destruct Hin as (wp' & <- & Hin').
    destruct (IH (cur :: visited) (e_v e) dest wp' Hc Hin') as [Hnd Hout].
    simpl. split.
    + constructor; [| exact Hnd].
      intros Hx. apply (Hout cur Hx). left. reflexivity.
    + intros x [<- | Hx]; [exact Hcur |].
      intros Hv. apply (Hout x Hx). right. exact Hv.
Qed.

Lemma lightest_In (l : list (Q * route)) (y : Q * route) :
  lightest l = Some y -> In y l.
Proof.
  revert y. induction l as [| x l IH]; simpl; intros y E; [discriminate |].
  destruct (lightest l) as [z |].
  - destruct (Qle_bool (fst x) (fst z)); injection E as <-;
      [left; reflexivity | right; apply IH; reflexivity].
  - injection E as <-. left. reflexivity.
Qed.

Lemma shortest_path_simple (G : MultiDiGraph) (w : string) (o d : node)
    (p : route) :
  shortest_path G w o d = Some p -> NoDup p.
Proof.
  unfold shortest_path.
  destruct (lightest _) as [wp |] eqn:E; [| discriminate].
  intros H. injection H as <-.
  apply lightest_In in E.
  apply (simple_paths_NoDup G w (List.length (nodes G)) [] o d wp);
    [intros [] | exact E].
Qed.

Lemma kept_simple (G : MultiDiGraph) (w : string) (r : option route) :
  kept (nodes G) (shortest_path G w) r -> simple r.
Proof.
  intros (_ & o & d & _ & _ & E). destruct r as [p |]; [| exact I].
  simpl. apply (shortest_path_simple G w o d p E).
Qed.

(** ** [Geo.centrality] *)

(** For routes computed by length, the edge a hop is counted on is the
    edge the route runs over. *)
Lemma min_by_weight_length (l : list edge) :
  min_by_weight "length" l = min_by_length l.
Proof.
  induction l as [| e l IH]; simpl; [reflexivity |].
  rewrite IH. reflexivity.
Qed.

Lemma routes_through_by_length (G : MultiDiGraph)
    (routes : list (option route)) (e : edge_key) :
  routes_through_by G "length" routes e = routes_through G routes e.
Proof.
  unfold routes_through_by, routes_through. f_equal. f_equal.
  apply filter_ext. intros [p |]; [| reflexivity].
  unfold traverses_by, traverses, traversed_key, hop_key.
  induction (hops p) as [| uv hs IH]; simpl; [reflexivity |].
  rewrite min_by_weight_length, IH. reflexivity.
Qed.

(** C4.  The claim is that the table holds, for every edge key, the
    number of sampled routes that traverse the edge, and no row for an
    edge no route traverses.  For routes computed by length (route type
    [shortest]) it does.  For routes computed by travel time (route type
    [fastest]) [centrality] still expands every hop into the shortest of
    the parallel edges ([route_to_gdf] is called without the weight that
    [shortest_path] was given): between nodes 1 and 2 joined by a
    motorway of 100 m and a living street of 90 m, the fastest route
    takes 3.6 s, which is the motorway (key 0), and the table counts the
    route on the living street (key 1) and has no row for the motorway. *)
Theorem centrality_counts_sampled_routes :
  (forall (self : BetweennessCentrality.t) (fuel : nat) (g : rng)
          (tbl : table) (self' : BetweennessCentrality.t) (g' : rng),
      BetweennessCentrality.weight self = "length" ->
      Geo.centrality self fuel g = Some (Ok (tbl, self', g')) ->
      exists routes : list (option route),
        Geo.generate_routes self fuel g = Some (Ok (routes, g'))
        /\ BetweennessCentrality.centrality_df self' = Some tbl
        /\ forall e : edge_key,
             let c := routes_through_by (BetweennessCentrality.graph self)
                        (BetweennessCentrality.weight self) routes e in
             lookup e tbl = if c =? 0 then None else Some (PyInt c))
  /\ (exists self : BetweennessCentrality.t,
        @Geo.init annotated "A" two_lanes "fastest" 1 "out" = Ok self
        /\ BetweennessCentrality.graph self = two_lanes_timed
        /\ BetweennessCentrality.weight self = "travel_time"
        /\ Geo.generate_routes self 1 (tape_of [0; 1]%nat 0)
           = Some (Ok ([Some [1; 2]], advance 2 (tape_of [0; 1]%nat 0)))
        /\ (exists t0 t1 t : Q,
              map (fun e => (key_of e, travel_time (e_data e)))
                  (edges two_lanes_timed)
              = [((1, 2, 0), Some t0); ((1, 2, 1), Some t1)]
              /\ (t0 == 36 # 10)%Q /\ (t1 == 324 # 10)%Q
              /\ lightest (simple_paths two_lanes_timed "travel_time" 2%nat
                                        [] 1 2)
                 = Some (t, [1; 2])
              /\ (t == t0)%Q)
        /\ routes_through_by two_lanes_timed "travel_time" [Some [1; 2]] (1, 2, 0)
           = 1
        /\ routes_through_by two_lanes_timed "travel_time" [Some [1; 2]] (1, 2, 1)
           = 0
        /\ exists (self' : BetweennessCentrality.t) (g' : rng),
             Geo.centrality self 1 (tape_of [0; 1]%nat 0)
             = Some (Ok ([((1, 2, 1), PyInt 1)], self', g'))).
Proof.
  split.
  - intros self fuel g tbl self' g' Hw E. unfold Geo.centrality in E.
    destruct (Geo.generate_routes self fuel g) as [[[routes g1] | ex] |] eqn:Eg;
      try discriminate E.
    injection E as E.
    apply bind_ok in E. destruct E as (df & Ec & E).
    injection E as -> <- <-.
    exists routes. split; [reflexivity | split; [reflexivity |]].
    intros e. rewrite Hw, routes_through_by_length.
    apply count_routes_spec; [| exact Ec].
    destruct (BetweennessCentrality.n self) as [n_routes |] eqn:En.
    + destruct (generate_routes_returns self n_routes fuel g routes g1 En Eg)
        as (_ & _ & Hkept).
      eapply Forall_impl; [| exact Hkept].
      intros r. apply kept_simple.
    + unfold Geo.generate_routes in Eg. rewrite En in Eg. discriminate Eg.
  - eexists. split; [vm_compute; reflexivity |].
    split; [reflexivity |]. split; [reflexivity |].
    split; [vm_compute; reflexivity |].
    split.
    { eexists. eexists. eexists. split; [vm_compute; reflexivity |].
      split; [reflexivity |]. split; [reflexivity |].
      split; [vm_compute; reflexivity | reflexivity]. }
    split; [vm_compute; reflexivity |].
    split; [vm_compute; reflexivity |].
    eexists. eexists. vm_compute. reflexivity.
Qed.

(** An instance of the first part: two routes on the chain, [1; 2; 3]
    and [1; 2]; edge (1, 2, 1), the shorter of the two parallel streets,
    is counted twice, edge (2, 3, 0) once, edge (1, 2, 0) has no row. *)
Lemma centrality_counts_sampled_routes_witness :
  exists routes : list (option route),
    Geo.generate_routes (geo_object "A" chain 2 "out") 1
      (tape_of [0; 0; 2; 1]%nat 0)
    = Some (Ok (routes, advance 4 (tape_of [0; 0; 2; 1]%nat 0)))
    /\ BetweennessCentrality.centrality_df
         (BetweennessCentrality.set_centrality_df (geo_object "A" chain 2 "out")
            chain_table)
       = Some chain_table
    /\ forall e : edge_key,
         let c := routes_through_by chain "length" routes e in
         lookup e chain_table = if c =? 0 then None else Some (PyInt c).
Proof.
  apply (proj1 centrality_counts_sampled_routes
           (geo_object "A" chain 2 "out") 1%nat (tape_of [0; 0; 2; 1]%nat 0)).
  - reflexivity.
  - vm_compute. reflexivity.
Defined.

(** C5.  The claim is that on a graph with one street and one requested
    route the table always has the single row of that street with
    centrality 1.  It has when the draw picks the two ends of the street;
    when the draw picks node 1 twice, [generate_routes] hands the
    single-node route [[1]] to [route_to_gdf], whose subgraph has no edge,
    and [centrality] ends with [ValueError] instead of a table. *)
Theorem centrality_one_street_single_node_route :
  Geo.generate_routes (geo_object "A" one_way 1 "out") 1 (tape_of [] 0)
  = Some (Ok ([Some [1]], advance 2 (tape_of [] 0)))
  /\ route_to_gdf one_way (Some [1]) = Raise ValueError
  /\ Geo.centrality (geo_object "A" one_way 1 "out") 1 (tape_of [] 0)
     = Some (Raise ValueError)
  /\ exists self' g',
       Geo.centrality (geo_object "A" one_way 1 "out") 1
         (tape_of [0; 1]%nat 0)
       = Some (Ok ([((1, 2, 0), PyInt 1)], self', g')).
Proof.
  split; [| split; [| split]].
  - vm_compute. reflexivity.
  - vm_compute. reflexivity.
  - vm_compute. reflexivity.
  - eexists. eexists. vm_compute. reflexivity.
Qed.

(** ** [join_dataframe] *)

Lemma matches_absent (k : edge_key) (right : list edge_row) :
  ~ In k (map fst right) -> matches k right = [].
Proof.
  unfold matches. induction right as [| r right IH]; simpl; intros H;
    [reflexivity |].
  destruct (key_eqb k (fst r)) eqn:E.
  - apply key_eqb_eq in E. exfalso. apply H. left. symmetry. exact E.
  - apply IH. intros Hin. apply H. right. exact Hin.
Qed.

Lemma matches_unique (k : edge_key) (right : list edge_row) :
  NoDup (map fst right) -> In k (map fst right) ->
  exists d, matches k right = [(k, d)] /\ In (k, d) right.
Proof.
  induction right as [| r right IH]; simpl; intros Hnd Hin; [destruct Hin |].
  inversion Hnd as [| ? ? Hr Hnd']; subst.
  unfold matches. simpl. destruct (key_eqb k (fst r)) eqn:E.
  - apply key_eqb_eq in E. subst k. exists (snd r).
    fold (matches (fst r) right). rewrite (matches_absent _ _ Hr).
    destruct r as [k d]. simpl. split; [reflexivity | left; reflexivity].
  - apply key_eqb_neq in E. destruct Hin as [Hin | Hin]; [congruence |].
    destruct (IH Hnd' Hin) as (d & Hm & Hd).
    exists d. split; [exact Hm | right; exact Hd].
Qed.

Lemma join_row_nonempty (right : list edge_row) (l : edge_key * num) :
  (1 <= List.length (join_row right l))%nat.
Proof.
  unfold join_row. destruct (matches (fst l) right); simpl; lia.
Qed.

Lemma key_eq_dec (a b : edge_key) : {a = b} + {a <> b}.
Proof.
  destruct (key_eqb a b) eqn:E.
  - left. apply key_eqb_eq. exact E.
  - right. apply key_eqb_neq. exact E.
Qed.

Lemma join_row_unique (rt : list edge_row) (l : edge_key * num) :
  NoDup (map fst rt) ->
  exists d : option edge_data,
    join_row rt l = [(fst l, snd l, d)]
    /\ (In (fst l) (map fst rt) ->
        exists d', d = Some d' /\ In (fst l, d') rt).
Proof.
  intros Hnd. unfold join_row.
  destruct (in_dec key_eq_dec (fst l) (map fst rt)) as [Hin | Hout].
  - destruct (matches_unique (fst l) rt Hnd Hin) as (d & Hm & Hd).
    rewrite Hm. exists (Some d). split; [reflexivity |].
    intros _. exists d. split; [reflexivity | exact Hd].
  - rewrite (matches_absent _ _ Hout). exists None.
    split; [reflexivity | intros Hin; contradiction].
Qed.

Lemma left_join_length_le (left : table) (right : list edge_row) :
  (List.length left <= List.length (left_join left right))%nat.
Proof.
  unfold left_join. induction left as [| l left IH]; simpl; [lia |].
  rewrite length_app. pose proof (join_row_nonempty right l). lia.
Qed.

Lemma left_join_unique (left : table) (right : list edge_row) :
  NoDup (map fst right) ->
  Forall2 (fun l x =>
             exists d, x = (fst l, snd l, d)
               /\ (In (fst l) (map fst right) ->
                   exists d', d = Some d' /\ In (fst l, d') right))
          left (left_join left right).
Proof.
  intros Hnd. unfold left_join.
  induction left as [| l left IH]; simpl; [constructor |].
  destruct (join_row_unique right l Hnd) as (d & -> & Hd).
  simpl. constructor; [exists d; split; [reflexivity | exact Hd] | exact IH].
Qed.

(** The rows of the layer when the edge index has no repeated key:
    one per row of the table, with its key and centrality, whatever the
    type of the [osmid] column. *)
Lemma joined_rows_table (as_float : bool) (rt : list edge_row) (df : table)
    (joined : list (edge_key * num * option edge_data)) :
  Forall2 (fun l x =>
             exists d, x = (fst l, snd l, d)
               /\ (In (fst l) (map fst rt) ->
                   exists d', d = Some d' /\ In (fst l, d') rt))
          df joined ->
  List.length (map (BetweennessCentrality.joined_row as_float) joined)
  = List.length df
  /\ map (fun r => (l_key r, l_centrality r))
         (map (BetweennessCentrality.joined_row as_float) joined) = df.
Proof.
  intros H. induction H as [| l x df joined (d & -> & Hd) _ IH]; simpl.
  - split; reflexivity.
  - destruct IH as (Hlen & Hmap). split.
    + rewrite Hlen. reflexivity.
    + rewrite Hmap. destruct l. reflexivity.
Qed.

(** When every key of the table has an edge, no row is unmatched and
    every row carries the data of its edge. *)
Lemma joined_rows_matched (rt : list edge_row) (df : table)
    (joined : list (edge_key * num * option edge_data)) :
  Forall2 (fun l x =>
             exists d, x = (fst l, snd l, d)
               /\ (In (fst l) (map fst rt) ->
                   exists d', d = Some d' /\ In (fst l, d') rt))
          df joined ->
  (forall k, In k (map fst df) -> In k (map fst rt)) ->
  existsb unmatched joined = false
  /\ Forall (fun r =>
               exists d : edge_data,
                 In (l_key r, d) rt
                 /\ l_osmid r = str_of_osmid (Some (osmid d))
                 /\ l_geometry r = Some (geometry d))
            (map (BetweennessCentrality.joined_row false) joined).
Proof.
  intros H. induction H as [| l x df joined (d & -> & Hd) _ IH]; simpl;
    intros Hkeys.
  - split; [reflexivity | constructor].
  - destruct (Hd (Hkeys (fst l) (or_introl eq_refl))) as (d' & -> & Hin).
    destruct IH as (Hno & Hall);
      [intros k Hk; apply Hkeys; right; exact Hk |].
    split; [exact Hno |].
    constructor; [| exact Hall].
    exists d'. simpl. repeat split. exact Hin.
Qed.

(** C6.  [join_dataframe] drops no row of the centrality table.  When the
    index of the edge frame has no repeated key (the keys of a
    [MultiDiGraph] are unique), the layer has exactly the rows of the
    table, in order, with their keys and centralities; and then, when
    every key of the table is a key of the edge frame, every row of the
    layer carries the [osmid] (as a string) and the geometry of the edge
    with its key. *)
Theorem join_dataframe_keeps_rows :
  forall (self : BetweennessCentrality.t) (df : table)
         (gdf : list layer_row) (self' : BetweennessCentrality.t),
    BetweennessCentrality.centrality_df self = Some df ->
    BetweennessCentrality.join_dataframe self = Ok (gdf, self') ->
    BetweennessCentrality.centrality_gdf self' = Some gdf
    /\ (List.length df <= List.length gdf)%nat
    /\ (NoDup (map fst (BetweennessCentrality.edges_df self)) ->
        List.length gdf = List.length df
        /\ map (fun r => (l_key r, l_centrality r)) gdf = df
        /\ ((forall k, In k (map fst df) ->
                       In k (map fst (BetweennessCentrality.edges_df self))) ->
            Forall (fun r =>
                      exists d : edge_data,
                        In (l_key r, d) (BetweennessCentrality.edges_df self)
                        /\ l_osmid r = str_of_osmid (Some (osmid d))
                        /\ l_geometry r = Some (geometry d)) gdf)).
Proof.
  intros self df gdf self' Hdf Hjoin.
  unfold BetweennessCentrality.join_dataframe in Hjoin. rewrite Hdf in Hjoin.
  injection Hjoin as <- <-.
  split; [reflexivity | split].
  - rewrite length_map. apply left_join_length_le.
  - intros Hnd.
    pose proof (left_join_unique df (BetweennessCentrality.edges_df self) Hnd) as H.
    destruct (joined_rows_table
                (forallb (fun r => single_id (snd r))
                         (BetweennessCentrality.edges_df self)
                 && existsb unmatched
                      (left_join df (BetweennessCentrality.edges_df self)))
                _ _ _ H) as (Hlen & Hmap).
    split; [exact Hlen | split; [exact Hmap |]].
    intros Hkeys.
    destruct (joined_rows_matched _ _ _ H Hkeys) as (Hno & Hall).
    rewrite Hno, andb_false_r. exact Hall.
Qed.

(** An instance: the table of the two routes on the chain, joined with
    the chain's edge frame. *)
Lemma join_dataframe_keeps_rows_witness :
  List.length chain_layer = List.length chain_table
  /\ map (fun r => (l_key r, l_centrality r)) chain_layer = chain_table
  /\ Forall (fun r =>
               exists d : edge_data,
                 In (l_key r, d) (map row_of (edges chain))
                 /\ l_osmid r = str_of_osmid (Some (osmid d))
                 /\ l_geometry r = Some (geometry d)) chain_layer.
Proof.
  pose proof (join_dataframe_keeps_rows
                (BetweennessCentrality.set_centrality_df
                   (geo_object "A" chain 2 "out") chain_table)
                chain_table chain_layer
                (BetweennessCentrality.set_centrality_gdf
                   (BetweennessCentrality.set_centrality_df
                      (geo_object "A" chain 2 "out") chain_table)
                   chain_layer)
                eq_refl eq_refl) as (_ & _ & H).
  assert (Hnd : NoDup (map fst (map row_of (edges chain)))).
  { simpl. repeat constructor; simpl; intuition discriminate. }
  destruct (H Hnd) as (Hlen & Hrows & Hall).
  split; [exact Hlen | split; [exact Hrows |]].
  apply Hall. simpl. intros k [<- | [<- | []]]; auto.
Defined.

(** ** [plot_network] *)

Lemma fold_min_same (c : Q) (k : nat) : fold_left Qmin (repeat c k) c = c.
Proof.
  induction k as [| k IH]; simpl; [reflexivity |].
  replace (Qmin c c) with c; [exact IH |].
  unfold Qmin, GenericMinMax.gmin. destruct (c ?= c)%Q; reflexivity.
Qed.

Lemma fold_max_same (c : Q) (k : nat) : fold_left Qmax (repeat c k) c = c.
Proof.
  induction k as [| k IH]; simpl; [reflexivity |].
  replace (Qmax c c) with c; [exact IH |].
  unfold Qmax, GenericMinMax.gmax. destruct (c ?= c)%Q; reflexivity.
Qed.

Lemma fdiv_zero_zero (c : Q) : fdiv (c - c) (c - c) = NaN.
Proof.
  unfold fdiv, is_zero.
  assert (E : Qeq_bool (c - c) 0 = true) by (apply Qeq_bool_iff; ring).
  rewrite E. reflexivity.
Qed.





(** C7.  The claim is that every weight lies in [0, 1], also when all
    centralities are equal.  With equal centralities the maximum equals
    the minimum, every weight is [0 / 0], and pandas yields NaN: the
    column [weight] and the line widths of a layer of equal centralities
    are NaN, which is no number of the unit interval.  The one-row layer
    of a run with a single route is such a layer. *)
Theorem plot_network_equal_centralities :
  (forall (c : Q) (k : nat),
      BetweennessCentrality.normalize (repeat c (S k)) = repeat NaN (S k))
  /\ ~ unit_weight NaN
  /\ exists (fig : figure) (self' : BetweennessCentrality.t),
       BetweennessCentrality.plot_network
         (BetweennessCentrality.set_centrality_gdf
            (geo_object "Test Graph" two_way 1 "out") one_row_layer)
       = Ok (fig, self')
       /\ linewidths fig = [NaN]
       /\ option_map (map l_weight) (BetweennessCentrality.centrality_gdf self')
          = Some [Some NaN].
Proof.
  split; [| split].
  - intros c k. unfold BetweennessCentrality.normalize.
    simpl series_min. simpl series_max.
    rewrite fold_min_same, fold_max_same.
    change (c :: repeat c k) with (repeat c (S k)).
    induction (S k) as [| m IH]; simpl; [reflexivity |].
    rewrite fdiv_zero_zero, IH. reflexivity.
  - intros H. exact H.
  - eexists. eexists. split; [vm_compute; reflexivity | split; reflexivity].
Qed.

(** ** The command line and [main] *)








(** ** Paths and the file system *)

Lemma string_length_app (a b : string) :
  String.length (a ++ b) = (String.length a + String.length b)%nat.
Proof. induction a as [| c a IH]; simpl; [reflexivity | rewrite IH; reflexivity]. Qed.

Lemma string_app_inv_head (a b c : string) : a ++ b = a ++ c -> b = c.
Proof.
  induction a as [| x a IH]; simpl; intros E; [exact E |].
  injection E as E. apply IH. exact E.
Qed.

Lemma string_app_longer (a b : string) : b <> "" -> a ++ b <> a.
Proof.
  intros Hb E. apply (f_equal String.length) in E.
  rewrite string_length_app in E.
  destruct b as [| c b]; [congruence | simpl in E; lia].
Qed.

Lemma string_app_assoc (a b c : string) : (a ++ b) ++ c = a ++ (b ++ c).
Proof. induction a as [| x a IH]; simpl; [reflexivity | rewrite IH; reflexivity]. Qed.

(** A file name without a leading slash is appended to the folder. *)
Lemma path_join_file (dir file : string) :
  starts_with_slash file = false -> file <> "" ->
  exists sep, path_join dir file = dir ++ sep ++ file
              /\ path_join dir file <> dir.
Proof.
  intros Hs Hne. unfold path_join. rewrite Hs.
  destruct (String.eqb dir "" || ends_with_slash dir).
  - exists "". split; [reflexivity |]. apply string_app_longer. exact Hne.
  - exists "/". split; [reflexivity |]. apply string_app_longer. discriminate.
Qed.

Lemma path_exists_cons (p q : string) (e : fs_entry) (fs : filesystem) :
  path_exists p ((q, e) :: fs) = String.eqb q p || path_exists p fs.
Proof. reflexivity. Qed.



Lemma read_file_write_same (p : string) (e : fs_entry) (fs : filesystem) :
  read_file p (write_file p e fs) = Some e.
Proof. unfold write_file. simpl. rewrite String.eqb_refl. reflexivity. Qed.

Lemma read_file_write_other (p q : string) (e : fs_entry) (fs : filesystem) :
  q <> p -> read_file q (write_file p e fs) = read_file q fs.
Proof.
  intros Hqp. unfold write_file. simpl.
  assert (E : String.eqb p q = false) by (apply String.eqb_neq; congruence).
  rewrite E.
  induction fs as [| [x y] fs IH]; simpl; [reflexivity |].
  destruct (String.eqb x p) eqn:Exp; simpl.
  - apply String.eqb_eq in Exp. subst x. rewrite E. exact IH.
  - rewrite IH. reflexivity.
Qed.

Lemma is_dir_exists (p : string) (fs : filesystem) :
  is_dir p fs = true -> path_exists p fs = true.
Proof.
  unfold is_dir, path_exists.
  induction fs as [| [q e] fs IH]; simpl; [discriminate |].
  destruct (String.eqb q p); simpl; [reflexivity | exact IH].
Qed.

Lemma is_dir_write_other (p q : string) (e : fs_entry) (fs : filesystem) :
  q <> p -> is_dir q (write_file p e fs) = is_dir q fs.
Proof.
  intros H. unfold is_dir. rewrite read_file_write_other by exact H.
  reflexivity.
Qed.

Lemma makedirs_creates (p : string) (fs fs' : filesystem) :
  makedirs p fs = Ok fs' ->
  path_exists p fs = false
  /\ path_exists p fs' = true /\ is_dir p fs' = true.
Proof.
  unfold makedirs. destruct (path_exists p fs); [discriminate |].
  destruct (existsb _ (ancestors p)); [discriminate |].
  intros E. injection E as <-. split; [reflexivity |].
  unfold is_dir. rewrite path_exists_cons. simpl.
  rewrite String.eqb_refl. split; reflexivity.
Qed.

(** A call of [create_new_folder] that succeeds returns the path of the
    run's folder, and the folder exists afterwards; an existing path
    leaves the file system as it is, a new folder is a directory. *)
Lemma create_new_folder_ok (self : BetweennessCentrality.t)
    (fs : filesystem) (q : string) (fs1 : filesystem) :
  let p := path_join (BetweennessCentrality.outfile self)
                     (BetweennessCentrality.folder_name self) in
  BetweennessCentrality.create_new_folder self fs = Ok (q, fs1) ->
  q = p
  /\ path_exists p fs1 = true
  /\ (path_exists p fs = true -> fs1 = fs)
  /\ (path_exists p fs = false -> is_dir p fs1 = true).
Proof.
  intros p. unfold BetweennessCentrality.create_new_folder. fold p.
  destruct (path_exists p fs) eqn:E; simpl.
  - intros H. injection H as <- <-. repeat split; [exact E | discriminate].
  - destruct (makedirs p fs) as [fs' | e] eqn:Em; simpl; [| discriminate].
    intros H. injection H as <- <-.
    apply makedirs_creates in Em. destruct Em as (_ & Hex & Hdir).
    repeat split; [exact Hex | discriminate | intros _; exact Hdir].
Qed.

Lemma create_new_folder_existing (self : BetweennessCentrality.t)
    (fs : filesystem) :
  let p := path_join (BetweennessCentrality.outfile self)
                     (BetweennessCentrality.folder_name self) in
  path_exists p fs = true ->
  BetweennessCentrality.create_new_folder self fs = Ok (p, fs).
Proof.
  intros p E. unfold BetweennessCentrality.create_new_folder. fold p.
  rewrite E. reflexivity.
Qed.

(** Without the folder and with no file in the place of one of its
    ancestors, [create_new_folder] makes the folder. *)
Lemma create_new_folder_fresh (self : BetweennessCentrality.t)
    (fs : filesystem) :
  let p := path_join (BetweennessCentrality.outfile self)
                     (BetweennessCentrality.folder_name self) in
  path_exists p fs = false ->
  existsb (fun a => path_exists a fs && negb (is_dir a fs)) (ancestors p)
  = false ->
  exists fs1,
    BetweennessCentrality.create_new_folder self fs = Ok (p, fs1)
    /\ is_dir p fs1 = true.
Proof.
  intros p E Hanc. unfold BetweennessCentrality.create_new_folder. fold p.
  rewrite E. simpl. unfold makedirs. rewrite E, Hanc. simpl.
  eexists. split; [reflexivity |].
  unfold is_dir. simpl. rewrite String.eqb_refl. reflexivity.
Qed.

Lemma create_repeatedly_existing (k : nat) (self : BetweennessCentrality.t)
    (fs : filesystem) :
  let p := path_join (BetweennessCentrality.outfile self)
                     (BetweennessCentrality.folder_name self) in
  path_exists p fs = true ->
  create_repeatedly k self fs = Ok (repeat p k, fs).
Proof.
  intros p E. induction k as [| k IH]; simpl; [reflexivity |].
  rewrite (create_new_folder_existing self fs E). simpl.
  rewrite IH. reflexivity.
Qed.

(** [plot_network] changes neither the output folder nor the name. *)
Lemma plot_network_same_folder (self self' : BetweennessCentrality.t)
    (fig : figure) :
  BetweennessCentrality.plot_network self = Ok (fig, self') ->
  BetweennessCentrality.outfile self' = BetweennessCentrality.outfile self
  /\ BetweennessCentrality.folder_name self'
     = BetweennessCentrality.folder_name self.
Proof.
  unfold BetweennessCentrality.plot_network.
  destruct (BetweennessCentrality.centrality_gdf self) as [gdf |];
    [| discriminate].
  destruct (existsb BetweennessCentrality.has_point gdf); [| discriminate].
  intros E. injection E as _ <-. split; reflexivity.
Qed.

(** The two files of the export have different paths, and neither is the
    folder. *)
Lemma export_paths (p : string) :
  path_join p "centrality.gpkg" <> p
  /\ path_join p "centrality.png" <> p
  /\ path_join p "centrality.gpkg" <> path_join p "centrality.png".
Proof.
  destruct (path_join_file p "centrality.gpkg" eq_refl ltac:(discriminate))
    as (sep1 & _ & Hgp).
  destruct (path_join_file p "centrality.png" eq_refl ltac:(discriminate))
    as (sep2 & _ & Hpng).
  split; [exact Hgp | split; [exact Hpng |]].
  unfold path_join. simpl starts_with_slash. cbv iota.
  destruct (String.eqb p "" || ends_with_slash p); intros E;
    apply string_app_inv_head in E; discriminate E.
Qed.

(** What a [save_as_geopackage] that succeeds leaves: the folder is a
    directory and holds the layer. *)
Lemma save_as_geopackage_ok (self : BetweennessCentrality.t)
    (gdf : list layer_row) (fs fs2 : filesystem) :
  let p := path_join (BetweennessCentrality.outfile self)
                     (BetweennessCentrality.folder_name self) in
  BetweennessCentrality.centrality_gdf self = Some gdf ->
  BetweennessCentrality.save_as_geopackage self fs = Ok fs2 ->
  exists fs1,
    BetweennessCentrality.create_new_folder self fs = Ok (p, fs1)
    /\ is_dir p fs1 = true
    /\ fs2 = write_file (path_join p "centrality.gpkg") (GpkgFile gdf) fs1
    /\ is_dir p fs2 = true
    /\ read_file (path_join p "centrality.gpkg") fs2 = Some (GpkgFile gdf).
Proof.
  intros p Hgdf E. unfold BetweennessCentrality.save_as_geopackage in E.
  rewrite Hgdf in E. apply bind_ok in E. destruct E as ([q fs1] & Hc & E).
  destruct (create_new_folder_ok self fs q fs1 Hc) as (-> & _ & _ & _).
  fold p in Hc, E. unfold to_file in E.
  destruct (is_dir p fs1) eqn:Hdir; [| discriminate E].
  destruct (is_dir (path_join p "centrality.gpkg") fs1); [discriminate E |].
  injection E as <-. exists fs1.
  split; [exact Hc | split; [exact Hdir | split; [reflexivity | split]]].
  - rewrite is_dir_write_other; [exact Hdir |].
    intros H. symmetry in H. revert H. apply export_paths.
  - apply read_file_write_same.
Qed.

(** C10.  [create_new_folder] succeeds when the folder exists already,
    and changes nothing; without the folder, and with no file in the
    place of one of its ancestors, it makes the folder.  A call that
    succeeds returns the path of the run's folder, which exists
    afterwards, and called again, any number of times, it returns the
    same path and leaves the file system as the first call left it.  In
    the export, once [save_as_geopackage] has written its file, the call
    in [save_as_png] finds the folder, returns the same path and creates
    nothing, and the map lands beside the GeoPackage (unless the path of
    the map holds a directory). *)
Theorem create_new_folder_idempotent :
  forall (self : BetweennessCentrality.t) (fs : filesystem),
    let p := path_join (BetweennessCentrality.outfile self)
                       (BetweennessCentrality.folder_name self) in
    (path_exists p fs = true ->
     BetweennessCentrality.create_new_folder self fs = Ok (p, fs))
    /\ (path_exists p fs = false ->
        existsb (fun a => path_exists a fs && negb (is_dir a fs)) (ancestors p)
        = false ->
        exists fs1 : filesystem,
          BetweennessCentrality.create_new_folder self fs = Ok (p, fs1)
          /\ is_dir p fs1 = true)
    /\ (forall (q : string) (fs1 : filesystem),
           BetweennessCentrality.create_new_folder self fs = Ok (q, fs1) ->
           q = p
           /\ path_exists p fs1 = true
           /\ BetweennessCentrality.create_new_folder self fs1 = Ok (p, fs1)
           /\ forall k : nat,
                create_repeatedly (S k) self fs = Ok (repeat p (S k), fs1))
    /\ (forall (gdf : list layer_row) (fs2 : filesystem),
           BetweennessCentrality.centrality_gdf self = Some gdf ->
           BetweennessCentrality.save_as_geopackage self fs = Ok fs2 ->
           is_dir p fs2 = true
           /\ read_file (path_join p "centrality.gpkg") fs2 = Some (GpkgFile gdf)
           /\ forall (fig : figure) (self1 : BetweennessCentrality.t),
                BetweennessCentrality.plot_network self = Ok (fig, self1) ->
                BetweennessCentrality.create_new_folder self1 fs2 = Ok (p, fs2)
                /\ (is_dir (path_join p "centrality.png") fs2 = false ->
                    let fs3 := write_file (path_join p "centrality.png")
                                          (PngFile fig) fs2 in
                    BetweennessCentrality.save_as_png self fs2 = Ok (self1, fs3)
                    /\ is_dir p fs3 = true
                    /\ read_file (path_join p "centrality.gpkg") fs3
                       = Some (GpkgFile gdf)
                    /\ read_file (path_join p "centrality.png") fs3
                       = Some (PngFile fig))).
Proof.
  intros self fs p.
  split; [apply create_new_folder_existing |].
  split; [apply create_new_folder_fresh |].
  split.
  - intros q fs1 Hc.
    destruct (create_new_folder_ok self fs q fs1 Hc) as (-> & Hex & _ & _).
    fold p in Hex. split; [reflexivity | split; [exact Hex |]].
    split; [apply create_new_folder_existing; exact Hex |].
    intros k. simpl create_repeatedly. rewrite Hc. simpl.
    rewrite (create_repeatedly_existing k self fs1 Hex). reflexivity.
  - intros gdf fs2 Hgdf Hsave.
    destruct (save_as_geopackage_ok self gdf fs fs2 Hgdf Hsave)
      as (fs1 & _ & _ & _ & Hdir2 & Hread).
    fold p in Hdir2, Hread.
    split; [exact Hdir2 | split; [exact Hread |]].
    intros fig self1 Hplot.
    destruct (plot_network_same_folder self self1 fig Hplot) as [Hout Hname].
    assert (Hagain :
      BetweennessCentrality.create_new_folder self1 fs2 = Ok (p, fs2)).
    { pose proof (create_new_folder_existing self1 fs2) as H.
      cbv zeta in H. rewrite Hout, Hname in H. apply H.
      apply is_dir_exists. exact Hdir2. }
    split; [exact Hagain |].
    intros Hpng fs3.
    destruct (export_paths p) as (Hgp & Hpp & Hfiles).
    split; [| split; [| split]].
    + unfold BetweennessCentrality.save_as_png. rewrite Hplot. cbn [bind].
      rewrite Hagain. cbn [bind]. unfold savefig.
      rewrite (is_dir_exists p fs2 Hdir2), Hdir2, Hpng. reflexivity.
    + unfold fs3. rewrite is_dir_write_other; [exact Hdir2 | congruence].
    + unfold fs3. rewrite read_file_write_other by exact Hfiles. exact Hread.
    + apply read_file_write_same.
Qed.

(** An instance: the export of the layer of the two routes on the chain
    into an empty file system. *)
Lemma create_new_folder_idempotent_witness :
  exists fs1 : filesystem,
    BetweennessCentrality.create_new_folder
      (BetweennessCentrality.set_centrality_gdf
         (geo_object "A" chain 2 "out") chain_layer) []
    = Ok ("out/A_shortest_geographical_2", fs1)
    /\ is_dir "out/A_shortest_geographical_2" fs1 = true.
Proof.
  exact (proj1 (proj2 (create_new_folder_idempotent
                         (BetweennessCentrality.set_centrality_gdf
                            (geo_object "A" chain 2 "out") chain_layer) []))
               eq_refl eq_refl).
Defined.

(** ** The name of the output folder *)

Lemma count_us_app (a b : string) :
  count_us (a ++ b) = (count_us a + count_us b)%nat.
Proof.
  induction a as [| c a IH]; simpl; [reflexivity | rewrite IH; lia].
Qed.

Lemma string_app_split (a1 : string) :
  forall a2 s1 s2 : string,
    a1 ++ s1 = a2 ++ s2 ->
    exists d, (a1 = a2 ++ d /\ s2 = d ++ s1) \/ (a2 = a1 ++ d /\ s1 = d ++ s2).
Proof.
  induction a1 as [| c a1 IH]; intros a2 s1 s2 E.
  - exists a2. right. split; [reflexivity | exact E].
  - destruct a2 as [| c2 a2].
    + exists (String c a1). left. split; [reflexivity | symmetry; exact E].
    + simpl in E. injection E as -> E.
      destruct (IH a2 s1 s2 E) as (d & [[-> ->] | [-> ->]]);
        exists d; [left | right]; split; reflexivity.
Qed.

Lemma count_us_uint (d : Decimal.uint) :
  count_us (NilEmpty.string_of_uint d) = 0%nat.
Proof. induction d; simpl; try assumption; reflexivity. Qed.

Lemma count_us_str_of_int (z : Z) : count_us (str_of_int z) = 0%nat.
Proof.
  unfold str_of_int, NilZero.string_of_int, NilZero.string_of_uint.
  destruct (Z.to_int z) as [d | d]; destruct d; simpl;
    try apply count_us_uint; reflexivity.
Qed.

(** [str] of an integer is a decimal literal, which reads back as the
    integer. *)
Lemma str_of_int_literal (z : Z) :
  option_map Z.of_int (NilZero.int_of_string (str_of_int z)) = Some z.
Proof.
  unfold str_of_int. rewrite NilZero.isi.
  - simpl. rewrite DecimalZ.of_to. reflexivity.
  - destruct z; simpl; intros E; try discriminate E;
      injection E as E; exact (DecimalPos.Unsigned.to_uint_nonnil _ E).
  - destruct z; simpl; intros E; try discriminate E.
    injection E as E. exact (DecimalPos.Unsigned.to_uint_nonnil _ E).
Qed.

Lemma str_of_int_inj (a b : Z) : str_of_int a = str_of_int b -> a = b.
Proof.
  intros E.
  apply (f_equal (fun s => option_map Z.of_int (NilZero.int_of_string s))) in E.
  rewrite !str_of_int_literal in E. injection E as E. exact E.
Qed.

Lemma folder_name_tail (self : BetweennessCentrality.t) :
  BetweennessCentrality.folder_name self
  = BetweennessCentrality.area self ++ "_" ++ name_tail self.
Proof. reflexivity. Qed.

Lemma name_tail_us (self : BetweennessCentrality.t) :
  named_by_constructor self -> count_us (name_tail self) = 2%nat.
Proof.
  intros (Ht & Hm & k & Hk). unfold name_tail. rewrite Hk.
  destruct Ht as [-> | ->]; destruct Hm as [-> | ->]; simpl fmt;
    rewrite !count_us_app, count_us_str_of_int; reflexivity.
Qed.

Lemma name_tail_inj (a b : BetweennessCentrality.t) :
  named_by_constructor a -> named_by_constructor b ->
  name_tail a = name_tail b ->
  BetweennessCentrality.type a = BetweennessCentrality.type b
  /\ BetweennessCentrality.method a = BetweennessCentrality.method b
  /\ BetweennessCentrality.n a = BetweennessCentrality.n b.
Proof.
  intros (Hta & Hma & ka & Hka) (Htb & Hmb & kb & Hkb). unfold name_tail.
  rewrite Hka, Hkb.
  destruct Hta as [-> | ->]; destruct Htb as [-> | ->];
    destruct Hma as [-> | ->]; destruct Hmb as [-> | ->]; simpl;
    intros E; try discriminate E;
    injection E as E; apply str_of_int_inj in E; subst kb; auto.
Qed.

Lemma string_app_nil_r (a : string) : a ++ "" = a.
Proof. induction a as [| c a IH]; simpl; [reflexivity | rewrite IH; reflexivity]. Qed.

Lemma underscore_overlap (u v d : string) :
  count_us u = count_us v -> "_" ++ v = d ++ "_" ++ u -> d = "".
Proof.
  intros Huv E. destruct d as [| c d]; [reflexivity |].
  exfalso. simpl in E. injection E as _ E.
  apply (f_equal count_us) in E. rewrite count_us_app in E. simpl in E. lia.
Qed.

Lemma area_tail_inj (a1 a2 t1 t2 : string) :
  count_us t1 = count_us t2 ->
  a1 ++ "_" ++ t1 = a2 ++ "_" ++ t2 -> a1 = a2 /\ t1 = t2.
Proof.
  intros Hc E.
  destruct (string_app_split a1 a2 ("_" ++ t1) ("_" ++ t2) E)
    as (d & [[Ha Hs] | [Ha Hs]]).
  - assert (d = "") as -> by (apply (underscore_overlap t1 t2 d Hc Hs)).
    rewrite string_app_nil_r in Ha. simpl in Hs. injection Hs as Hs.
    split; [exact Ha | symmetry; exact Hs].
  - assert (d = "") as -> by (apply (underscore_overlap t2 t1 d (eq_sym Hc) Hs)).
    rewrite string_app_nil_r in Ha. simpl in Hs. injection Hs as Hs.
    split; [symmetry; exact Ha | exact Hs].
Qed.

Lemma folder_name_inj (a b : BetweennessCentrality.t) :
  named_by_constructor a -> named_by_constructor b ->
  BetweennessCentrality.folder_name a = BetweennessCentrality.folder_name b ->
  same_run a b.
Proof.
  intros Ha Hb E. rewrite !folder_name_tail in E.
  apply area_tail_inj in E.
  - destruct E as [Earea Etail].
    destruct (name_tail_inj a b Ha Hb Etail) as (Et & Em & En).
    repeat split; assumption.
  - rewrite (name_tail_us a Ha), (name_tail_us b Hb). reflexivity.
Qed.

Lemma folder_name_relative (self : BetweennessCentrality.t) :
  starts_with_slash (BetweennessCentrality.area self) = false ->
  starts_with_slash (BetweennessCentrality.folder_name self) = false.
Proof.
  rewrite folder_name_tail.
  destruct (BetweennessCentrality.area self) as [| c s]; simpl; auto.
Qed.

Lemma path_join_relative (out name : string) :
  starts_with_slash name = false ->
  path_join out name
  = out ++ (if String.eqb out "" || ends_with_slash out then "" else "/") ++ name.
Proof.
  intros H. unfold path_join. rewrite H.
  destruct (String.eqb out "" || ends_with_slash out); reflexivity.
Qed.

Lemma base_init_type (X : External) (study_area : string) (G : MultiDiGraph)
    (route_types out : string) (self : BetweennessCentrality.t) :
  BetweennessCentrality.init study_area G route_types out = Ok self ->
  BetweennessCentrality.type self = "shortest"
  \/ BetweennessCentrality.type self = "fastest".
Proof.
  unfold BetweennessCentrality.init. intros E.
  apply bind_ok in E. destruct E as ([g w] & Et & E).
  apply bind_ok in E. destruct E as ([ndf edf] & _ & E).
  injection E as <-. simpl.
  destruct (String.eqb route_types "shortest") eqn:Es;
    [left; apply String.eqb_eq; exact Es |].
  destruct (String.eqb route_types "fastest") eqn:Ef;
    [right; apply String.eqb_eq; exact Ef | discriminate Et].
Qed.

(** The constructors of both classes build objects that
    [named_by_constructor] describes. *)
Lemma constructors_named (X : External) (study_area : string)
    (G : MultiDiGraph) (route_types out : string) (k : Z)
    (self : BetweennessCentrality.t) :
  Networkx.init study_area G route_types out = Ok self
  \/ Geo.init study_area G route_types k out = Ok self ->
  named_by_constructor self.
Proof.
  unfold Networkx.init, Geo.init. intros [E | E];
    apply bind_ok in E; destruct E as (base & Eb & E); injection E as <-;
    (split; [exact (base_init_type X _ _ _ _ _ Eb) | split]);
    simpl; eauto.
Qed.

(** C9 as the claim states it fails for an area that starts with a
    slash: [os.path.join] drops the output folder, so the path is not
    [outfile/name]; and that run and the run for the area without the
    leading folders write into the same directory. *)
Lemma absolute_area_replaces_outfile :
  (exists fs',
      BetweennessCentrality.create_new_folder
        (geo_object "/srv/a" one_way 1 "/srv") []
      = Ok ("/srv/a_shortest_geographical_1", fs'))
  /\ "/srv/a_shortest_geographical_1"
     <> BetweennessCentrality.outfile (geo_object "/srv/a" one_way 1 "/srv")
        ++ "/"
        ++ BetweennessCentrality.folder_name (geo_object "/srv/a" one_way 1 "/srv")
  /\ (exists fs',
        BetweennessCentrality.create_new_folder
          (geo_object "a" one_way 1 "/srv") []
        = Ok ("/srv/a_shortest_geographical_1", fs'))
  /\ BetweennessCentrality.area (geo_object "/srv/a" one_way 1 "/srv")
     <> BetweennessCentrality.area (geo_object "a" one_way 1 "/srv").
Proof.
  split; [| split; [| split]].
  - eexists. vm_compute. reflexivity.
  - vm_compute. discriminate.
  - eexists. vm_compute. reflexivity.
  - vm_compute. discriminate.
Qed.

(** C9, amended.  The path [create_new_folder] returns is
    [os.path.join(outfile, name)] with
    [name = area_type_method_n], in that order, a function of the four
    attributes and the output folder alone.  When the output folder is
    not empty and has no trailing slash and the area has no leading slash,
    the path is [outfile/name].  For objects as the constructors of
    [Networkx] and [Geo] build them, equal names mean the same (area,
    type, method, n); and with one output folder and areas without a
    leading slash, equal paths mean the same (area, type, method, n). *)
Theorem create_new_folder_path :
  forall (self : BetweennessCentrality.t) (fs : filesystem)
         (p : string) (fs' : filesystem),
    BetweennessCentrality.create_new_folder self fs = Ok (p, fs') ->
    p = path_join (BetweennessCentrality.outfile self)
                  (BetweennessCentrality.folder_name self)
    /\ BetweennessCentrality.folder_name self
       = BetweennessCentrality.area self ++ "_"
         ++ BetweennessCentrality.type self ++ "_"
         ++ fmt (fun s => s) (BetweennessCentrality.method self) ++ "_"
         ++ fmt str_of_int (BetweennessCentrality.n self)
    /\ (BetweennessCentrality.outfile self <> "" ->
        ends_with_slash (BetweennessCentrality.outfile self) = false ->
        starts_with_slash (BetweennessCentrality.area self) = false ->
        p = BetweennessCentrality.outfile self ++ "/"
            ++ BetweennessCentrality.folder_name self)
    /\ (forall other : BetweennessCentrality.t,
           named_by_constructor self -> named_by_constructor other ->
           (BetweennessCentrality.folder_name other
            = BetweennessCentrality.folder_name self -> same_run other self)
           /\ (BetweennessCentrality.outfile other
               = BetweennessCentrality.outfile self ->
               starts_with_slash (BetweennessCentrality.area self) = false ->
               starts_with_slash (BetweennessCentrality.area other) = false ->
               forall (fs0 : filesystem) (q : string) (fs0' : filesystem),
                 BetweennessCentrality.create_new_folder other fs0 = Ok (q, fs0') ->
                 q = p -> same_run other self)).
Proof.
  intros self fs p fs' Hcreate.
  assert (Hp : forall (o : BetweennessCentrality.t) (s : filesystem)
                      (q : string) (s' : filesystem),
             BetweennessCentrality.create_new_folder o s = Ok (q, s') ->
             q = path_join (BetweennessCentrality.outfile o)
                           (BetweennessCentrality.folder_name o)).
  { intros o s q s' E.
    exact (proj1 (create_new_folder_ok o s q s' E)). }
  pose proof (Hp self fs p fs' Hcreate) as Epath.
  split; [exact Epath | split; [reflexivity | split]].
  - intros Hne Hend Harea. rewrite Epath.
    rewrite (path_join_relative _ _ (folder_name_relative self Harea)).
    apply String.eqb_neq in Hne. rewrite Hne, Hend. reflexivity.
  - intros other Hself Hother. split.
    + intros E. apply folder_name_inj; assumption.
    + intros Hout Ha Hb fs0 q fs0' Hq Eqp.
      apply Hp in Hq. rewrite Hq, Epath, Hout in Eqp.
      rewrite (path_join_relative _ _ (folder_name_relative self Ha)) in Eqp.
      rewrite (path_join_relative _ _ (folder_name_relative other Hb)) in Eqp.
      apply string_app_inv_head in Eqp. apply string_app_inv_head in Eqp.
      apply folder_name_inj; assumption.
Qed.

(** An instance: five routes for Heidelberg, written below [out]. *)
Lemma create_new_folder_path_witness :
  "out/Heidelberg_shortest_geographical_5"
  = path_join "out" "Heidelberg_shortest_geographical_5"
  /\ "out/Heidelberg_shortest_geographical_5"
     = "out" ++ "/" ++ "Heidelberg_shortest_geographical_5".
Proof.
  pose proof (create_new_folder_path
                (geo_object "Heidelberg" one_way 5 "out") []
                "out/Heidelberg_shortest_geographical_5"
                [("out/Heidelberg_shortest_geographical_5", Dir); ("out", Dir)]
                eq_refl) as H.
  split.
  - exact (proj1 H).
  - exact (proj1 (proj2 (proj2 H)) ltac:(discriminate) eq_refl eq_refl).
Defined.

(** ** A run of [main] *)

(** On the graph of the tests, with one route requested and a draw that
    picks the two ends of the street, [main] returns after writing the
    GeoPackage and the map into the run's folder. *)
Example main_geographical_run :
  exists w : world,
    @main offline ["Test Graph"; "out"; "shortest"; "geographical"; "1"] 1
      {| w_rng := tape_of [0; 1]%nat 0; w_fs := []; w_out := [] |}
    = Some (Returned, w)
    /\ map fst (w_fs w)
       = ["out/Test Graph_shortest_geographical_1/centrality.png";
          "out/Test Graph_shortest_geographical_1/centrality.gpkg";
          "out/Test Graph_shortest_geographical_1";
          "out"]
    /\ List.length (w_out w) = 5%nat.
Proof.
  eexists. split; [vm_compute; reflexivity | split; reflexivity].
Qed.

(* ================================================================= *)
(** * Further properties *)

(** ** [plot_network]: the range of the weights, and plotting twice *)

Lemma normalize_length (cs : list Q) :
  List.length (BetweennessCentrality.normalize cs) = List.length cs.
Proof.
  unfold BetweennessCentrality.normalize.
  destruct cs as [| c cs]; [reflexivity |].
  simpl series_min. simpl series_max. cbv iota. apply length_map.
Qed.

Lemma combine_map_fst {A B C : Type} (f : A -> C) (g : A * B -> A)
    (l : list A) (l' : list B) :
  (forall x, f (g x) = f (fst x)) ->
  List.length l = List.length l' ->
  map (fun x => f (g x)) (combine l l') = map f l.
Proof.
  intros Hg. revert l'. induction l as [| a l IH]; intros [| b l'] Hlen;
    simpl in *; try discriminate; [reflexivity |].
  rewrite Hg. simpl. f_equal. apply IH. lia.
Qed.

Lemma weighted_centralities (gdf : list layer_row) (ws : list fval) :
  List.length gdf = List.length ws ->
  map (fun r => num_to_Q (l_centrality r))
      (map (fun rw => BetweennessCentrality.with_weight (fst rw) (snd rw))
           (combine gdf ws))
  = map (fun r => num_to_Q (l_centrality r)) gdf.
Proof.
  intros Hlen. rewrite map_map.
  revert ws Hlen. induction gdf as [| r gdf IH]; intros [| w ws] Hlen;
    simpl in *; try discriminate; [reflexivity |].
  f_equal. apply IH. lia.
Qed.

Lemma weighted_again (gdf : list layer_row) (ws : list fval) :
  List.length gdf = List.length ws ->
  map (fun rw => BetweennessCentrality.with_weight (fst rw) (snd rw))
      (combine (map (fun rw => BetweennessCentrality.with_weight (fst rw) (snd rw))
                    (combine gdf ws)) ws)
  = map (fun rw => BetweennessCentrality.with_weight (fst rw) (snd rw))
        (combine gdf ws).
Proof.
  revert ws. induction gdf as [| r gdf IH]; intros [| w ws] Hlen;
    simpl in *; try discriminate; [reflexivity |].
  f_equal. apply IH. lia.
Qed.


Lemma weighted_has_point (gdf : list layer_row) (ws : list fval) :
  List.length gdf = List.length ws ->
  existsb BetweennessCentrality.has_point
    (map (fun rw => BetweennessCentrality.with_weight (fst rw) (snd rw))
         (combine gdf ws))
  = existsb BetweennessCentrality.has_point gdf.
Proof.
  revert ws. induction gdf as [| r gdf IH]; intros [| w ws] Hlen;
    simpl in *; try discriminate; [reflexivity |].
  f_equal. apply IH. lia.
Qed.





(** Plotting is idempotent: a second [plot_network], as [save_as_png]
    makes after the one of [main], draws the same figure and leaves the
    object as the first call left it. *)
Theorem plot_network_twice :
  forall (self self' : BetweennessCentrality.t) (fig : figure),
    BetweennessCentrality.plot_network self = Ok (fig, self') ->
    BetweennessCentrality.plot_network self' = Ok (fig, self').
Proof.
  intros self self' fig E.
  unfold BetweennessCentrality.plot_network in E.
  destruct (BetweennessCentrality.centrality_gdf self) as [gdf |] eqn:Hgdf;
    [| discriminate E].
  destruct (existsb BetweennessCentrality.has_point gdf) eqn:Hgeo;
    [| discriminate E].
  injection E as <- <-.
  unfold BetweennessCentrality.plot_network.
  simpl BetweennessCentrality.centrality_gdf.
  set (cs := map (fun r => num_to_Q (l_centrality r)) gdf).
  assert (Hlen : List.length gdf = List.length (BetweennessCentrality.normalize cs)).
  { rewrite normalize_length. unfold cs. rewrite length_map. reflexivity. }
  cbv beta iota.
  rewrite (weighted_centralities gdf _ Hlen). fold cs.
  rewrite (weighted_again gdf _ Hlen).
  rewrite (weighted_has_point gdf _ Hlen), Hgeo.
  reflexivity.
Qed.

(** An instance: the one-row layer of the tests. *)
Lemma plot_network_twice_witness :
  exists (fig : figure) (self' : BetweennessCentrality.t),
    BetweennessCentrality.plot_network
      (BetweennessCentrality.set_centrality_gdf
         (geo_object "Test Graph" two_way 1 "out") one_row_layer)
    = Ok (fig, self')
    /\ BetweennessCentrality.plot_network self' = Ok (fig, self').
Proof.
  eexists. eexists. split; [vm_compute; reflexivity |].
  apply (plot_network_twice
           (BetweennessCentrality.set_centrality_gdf
              (geo_object "Test Graph" two_way 1 "out") one_row_layer)).
  vm_compute. reflexivity.
Defined.

(** ** [input_from_commandline] and [main] *)

(** [int] as the parser uses it for [n_routes]: blanks around the
    number, a sign and underscores between digits are read; a word
    without digits, with a doubled or trailing underscore, or with a
    blank after the sign is refused. *)
Lemma int_of_str_examples :
  int_of_str "5" = Some 5
  /\ int_of_str "+5" = Some 5
  /\ int_of_str " 5 " = Some 5
  /\ int_of_str "1_000" = Some 1000
  /\ int_of_str "007" = Some 7
  /\ int_of_str "" = None
  /\ int_of_str "+" = None
  /\ int_of_str "1__0" = None
  /\ int_of_str "1_" = None
  /\ int_of_str "_1" = None
  /\ int_of_str "+ 5" = None
  /\ int_of_str "5.0" = None
  /\ int_of_str "many" = None.
Proof. repeat split. Qed.





(** ** [Geo.generate_routes] and [Geo.centrality]: requests and failures *)

Lemma while_loop_done (ns : list node) (route_of : node -> node -> option route)
    (n_routes : Z) (fuel : nat) (s : Geo.loop_state) :
  Geo.temp s = 0 ->
  Geo.while_loop ns route_of n_routes fuel s
  = Some (Ok (Geo.routes_valid s, Geo.gen s)).
Proof. intros E. destruct fuel; simpl; rewrite E; reflexivity. Qed.

Lemma loop_body_negative (ns : list node)
    (route_of : node -> node -> option route) (n_routes : Z)
    (s : Geo.loop_state) :
  Geo.temp s < 0 -> Geo.loop_body ns route_of n_routes s = Raise ValueError.
Proof.
  intros Hneg. unfold Geo.loop_body, Geo.sample_routes, random_choice.
  destruct (Geo.temp s <? 0) eqn:H; [reflexivity |].
  apply Z.ltb_ge in H. lia.
Qed.

Lemma random_choice_raises (ns : list node) (k : Z) (g : rng) (e : exn) :
  random_choice ns k g = Raise e -> e = ValueError.
Proof.
  unfold random_choice. destruct (k <? 0); [congruence |].
  destruct (Nat.eqb (List.length ns) 0 && (0 <? k)); congruence.
Qed.

Lemma loop_body_raises (ns : list node)
    (route_of : node -> node -> option route) (n_routes : Z)
    (s : Geo.loop_state) (e : exn) :
  Geo.loop_body ns route_of n_routes s = Raise e -> e = ValueError.
Proof.
  unfold Geo.loop_body, Geo.sample_routes.
  destruct (random_choice ns (Geo.temp s) (Geo.gen s)) as [[origs g1] | e1] eqn:E1;
    simpl.
  - destruct (random_choice ns (Geo.temp s) g1) as [[dests g2] | e2] eqn:E2;
      simpl; [discriminate |].
    intros E. injection E as <-. apply (random_choice_raises _ _ _ _ E2).
  - intros E. injection E as <-. apply (random_choice_raises _ _ _ _ E1).
Qed.

Lemma while_loop_raises (ns : list node)
    (route_of : node -> node -> option route) (n_routes : Z) (fuel : nat) :
  forall (s : Geo.loop_state) (e : exn),
    Geo.while_loop ns route_of n_routes fuel s = Some (Raise e) ->
    e = ValueError.
Proof.
  induction fuel as [| fuel IH]; intros s e; simpl;
    destruct (Geo.temp s =? 0); try discriminate.
  destruct (Geo.loop_body ns route_of n_routes s) as [s' | e'] eqn:Eb.
  - apply IH.
  - intros E. injection E as <-. apply (loop_body_raises _ _ _ _ _ Eb).
Qed.

(** A request for no route returns the empty list without a draw, and
    [centrality] then has nothing to concatenate; a request for a negative
    number of routes is refused by the first draw.  Either way
    [centrality] raises [ValueError]. *)
Theorem geo_nonpositive_request :
  forall (self : BetweennessCentrality.t) (k : Z) (fuel : nat) (g : rng),
    BetweennessCentrality.n self = Some k ->
    k <= 0 ->
    Geo.centrality self (S fuel) g = Some (Raise ValueError)
    /\ (k = 0 -> Geo.generate_routes self fuel g = Some (Ok ([], g)))
    /\ (k < 0 -> Geo.generate_routes self (S fuel) g = Some (Raise ValueError)).
Proof.
  intros self k fuel g Hn Hk.
  assert (Hzero : k = 0 -> forall f, Geo.generate_routes self f g = Some (Ok ([], g))).
  { intros -> f. unfold Geo.generate_routes. rewrite Hn.
    apply while_loop_done. reflexivity. }
  assert (Hneg : k < 0 ->
                 Geo.generate_routes self (S fuel) g = Some (Raise ValueError)).
  { intros Hlt. unfold Geo.generate_routes. rewrite Hn. rewrite while_loop_S.
    simpl Geo.temp.
    destruct (k - 0 =? 0) eqn:Hz; [apply Z.eqb_eq in Hz; lia |].
    rewrite loop_body_negative by (simpl; lia). reflexivity. }
  split; [| split; [intros E; apply Hzero; exact E | exact Hneg]].
  unfold Geo.centrality.
  destruct (Z.eq_dec k 0) as [E0 | Hne].
  - rewrite (Hzero E0 (S fuel)). reflexivity.
  - rewrite Hneg by lia. reflexivity.
Qed.

(** An instance: no route requested on the one-street graph. *)
Lemma geo_nonpositive_request_witness :
  Geo.centrality (geo_object "A" one_way 0 "out") 1 (tape_of [] 0)
  = Some (Raise ValueError).
Proof.
  exact (proj1 (geo_nonpositive_request (geo_object "A" one_way 0 "out") 0 0
                  (tape_of [] 0) eq_refl ltac:(lia))).
Defined.

(** ** The routes of the router follow edges *)

(** The hop has an edge of the graph. *)
Lemma simple_paths_walk (G : MultiDiGraph) (w : string) (fuel : nat) :
  forall (visited : list node) (cur dest : node) (wp : Q * route),
    In wp (simple_paths G w fuel visited cur dest) ->
    (exists rest, snd wp = cur :: rest)
    /\ Forall (fun uv => parallel G (fst uv) (snd uv) <> []) (hops (snd wp)).
Proof.
  assert (Hbase : forall (cur : node) (wp : Q * route),
             In wp [(0%Q, [cur])] ->
             (exists rest, snd wp = cur :: rest)
             /\ Forall (fun uv => parallel G (fst uv) (snd uv) <> [])
                       (hops (snd wp))).
  { intros cur wp Hin. simpl in Hin. destruct Hin as [<- | []]. simpl.
    split; [exists []; reflexivity | constructor]. }
  induction fuel as [| fuel IH]; intros visited cur dest wp Hin.
  - simpl in Hin. destruct (cur =? dest); [apply Hbase; exact Hin | destruct Hin].
  - rewrite simple_paths_S in Hin.
    destruct (cur =? dest); [apply Hbase; exact Hin |].
    apply in_flat_map in Hin. destruct Hin as (e & He & Hin).
    destruct ((e_u e =? cur) && negb (mem (e_v e) (cur :: visited))) eqn:Hc;
      [| destruct Hin].
    apply andb_true_iff in Hc. destruct Hc as [Hu _]. apply Z.eqb_eq in Hu.
    apply in_map_iff in Hin. destruct Hin as (wp' & <- & Hin').
    destruct (IH (cur :: visited) (e_v e) dest wp' Hin') as [[rest Hrest] Hall].
    simpl snd. split; [exists (snd wp'); reflexivity |].
    destruct wp' as [q pth]. simpl in Hrest, Hall. simpl snd. subst pth.
    change (hops (cur :: e_v e :: rest))
      with ((cur, e_v e) :: hops (e_v e :: rest)).
    constructor; [| exact Hall].
    simpl. intros Hnil.
    assert (Hp : In e (parallel G cur (e_v e))).
    { unfold parallel. apply filter_In. split; [exact He |].
      rewrite Hu, !Z.eqb_refl. reflexivity. }
    rewrite Hnil in Hp. destruct Hp.
Qed.

Lemma shortest_path_walk (G : MultiDiGraph) (w : string) (o d : node)
    (p : route) :
  shortest_path G w o d = Some p ->
  (exists rest, p = o :: rest)
  /\ Forall (fun uv => parallel G (fst uv) (snd uv) <> []) (hops p).
Proof.
  unfold shortest_path.
  destruct (lightest _) as [wp |] eqn:E; [| discriminate].
  intros H. injection H as <-. apply lightest_In in E.
  apply (simple_paths_walk G w (List.length (nodes G)) [] o d wp E).
Qed.

Lemma min_by_length_some (l : list edge) :
  l <> [] -> exists e, min_by_length l = Some e.
Proof.
  destruct l as [| x l]; [congruence |]. intros _. simpl.
  destruct (min_by_length l) as [e' |]; [| eauto].
  destruct (Qle_bool (e_length (e_data x)) (e_length (e_data e'))); eauto.
Qed.

Lemma mapM_total {A B : Type} (f : A -> res B) (l : list A) :
  Forall (fun x => exists y, f x = Ok y) l -> exists ys, mapM f l = Ok ys.
Proof.
  induction 1 as [| x l [y Hy] _ [ys Hys]]; simpl; [eauto |].
  rewrite Hy. simpl. rewrite Hys. simpl. eauto.
Qed.

Lemma mapM_raises {A B : Type} (f : A -> res B) (l : list A) (e : exn) :
  mapM f l = Raise e -> exists x, In x l /\ f x = Raise e.
Proof.
  induction l as [| x l IH]; simpl; [discriminate |].
  destruct (f x) as [y | e'] eqn:Ex; simpl.
  - destruct (mapM f l) as [ys | e''] eqn:El; simpl; [discriminate |].
    intros E. injection E as <-.
    destruct (IH eq_refl) as (x' & Hin & Hx'). exists x'. split; [right |]; assumption.
  - intros E. injection E as <-. exists x. split; [left; reflexivity | exact Ex].
Qed.

Lemma hop_rows_total (G : MultiDiGraph) (p : route) :
  Forall (fun uv => parallel G (fst uv) (snd uv) <> []) (hops p) ->
  exists rows, mapM (hop_row G) (hops p) = Ok rows.
Proof.
  intros H. apply mapM_total. eapply Forall_impl; [| exact H].
  intros uv Huv. unfold hop_row.
  destruct (min_by_length_some _ Huv) as [e ->]. eauto.
Qed.

(** A route of the router makes [route_to_gdf] return rows or raise
    [ValueError], nothing else; with two nodes or more it returns rows. *)
Lemma route_to_gdf_walk (G : MultiDiGraph) (p : route) :
  Forall (fun uv => parallel G (fst uv) (snd uv) <> []) (hops p) ->
  (route_to_gdf G (Some p) = Raise ValueError
   \/ exists rows, route_to_gdf G (Some p) = Ok rows)
  /\ ((2 <= List.length p)%nat -> exists rows, route_to_gdf G (Some p) = Ok rows).
Proof.
  intros H. unfold route_to_gdf.
  destruct (hop_rows_total G p H) as [rows Hrows].
  split.
  - destruct (subgraph_edges G p); [left; reflexivity | right; eauto].
  - intros Hlen. destruct p as [| u [| v rest]]; simpl in Hlen; try lia.
    unfold hops in H. simpl in H. inversion H as [| ? ? Huv _]; subst.
    simpl in Huv.
    destruct (parallel G u v) as [| e es] eqn:Ep; [congruence |].
    assert (He : In e (parallel G u v)) by (rewrite Ep; left; reflexivity).
    unfold parallel in He. apply filter_In in He. destruct He as [He Hc].
    apply andb_true_iff in Hc. destruct Hc as [Hu Hv].
    assert (Hs : In e (subgraph_edges G (u :: v :: rest))).
    { unfold subgraph_edges. apply filter_In. split; [exact He |].
      unfold mem. simpl. rewrite Hu. simpl.
      rewrite Hv. rewrite orb_true_r. reflexivity. }
    destruct (subgraph_edges G (u :: v :: rest)); [destruct Hs | eauto].
Qed.

Lemma kept_walk (G : MultiDiGraph) (w : string) (r : option route) :
  kept (nodes G) (shortest_path G w) r ->
  exists p, r = Some p
            /\ Forall (fun uv => parallel G (fst uv) (snd uv) <> []) (hops p).
Proof.
  intros (Hsome & o & d & _ & _ & E). destruct r as [p |]; [| congruence].
  exists p. split; [reflexivity |].
  apply (shortest_path_walk G w o d p E).
Qed.

(** [Geo.centrality] fails in one way only: whatever exception it ends
    with is a [ValueError] (a refused draw, a single-node route, nothing
    to concatenate); no sampled route makes [route_to_gdf] raise
    [KeyError] or [TypeError]. *)
Theorem geo_centrality_raises_value_error_only :
  forall (self : BetweennessCentrality.t) (k : Z) (fuel : nat) (g : rng)
         (e : exn),
    BetweennessCentrality.n self = Some k ->
    Geo.centrality self fuel g = Some (Raise e) ->
    e = ValueError.
Proof.
  intros self k fuel g e Hn E. unfold Geo.centrality in E.
  destruct (Geo.generate_routes self fuel g) as [[[routes g1] | ex] |] eqn:Eg;
    [| | discriminate E].
  - destruct (generate_routes_returns self k fuel g routes g1 Hn Eg)
      as (_ & _ & Hkept).
    injection E as E. unfold Geo.count_routes in E.
    destruct (mapM (route_to_gdf (BetweennessCentrality.graph self)) routes)
      as [frames | e1] eqn:Em; simpl in E.
    + destruct frames; simpl in E; [congruence | discriminate E].
    + injection E as <-. apply mapM_raises in Em.
      destruct Em as (r & Hin & Hr).
      rewrite Forall_forall in Hkept. apply Hkept in Hin.
      destruct (kept_walk _ _ _ Hin) as (p & -> & Hwalk).
      destruct (proj1 (route_to_gdf_walk _ p Hwalk)) as [Hv | [rows Hrows]];
        congruence.
  - injection E as <-. unfold Geo.generate_routes in Eg. rewrite Hn in Eg.
    apply (while_loop_raises _ _ _ _ _ _ Eg).
Qed.

(** An instance: the single-node route on the one-street graph. *)
Lemma geo_centrality_raises_value_error_only_witness :
  exists e : exn,
    Geo.centrality (geo_object "A" one_way 1 "out") 1 (tape_of [] 0)
    = Some (Raise e)
    /\ e = ValueError.
Proof.
  exists ValueError. split; [vm_compute; reflexivity |].
  exact (geo_centrality_raises_value_error_only
           (geo_object "A" one_way 1 "out") 1 1 (tape_of [] 0) ValueError
           eq_refl ltac:(vm_compute; reflexivity)).
Defined.

(** When at least one route is requested and every route that
    [generate_routes] returns has two nodes or more, [centrality] returns
    a table: a single-node route is the only way a returned list can make
    it fail. *)
Theorem geo_centrality_returns_for_proper_routes :
  forall (self : BetweennessCentrality.t) (k : Z) (fuel : nat) (g : rng)
         (routes : list (option route)) (g' : rng),
    BetweennessCentrality.n self = Some k ->
    0 < k ->
    Geo.generate_routes self fuel g = Some (Ok (routes, g')) ->
    Forall (fun r => exists p, r = Some p /\ (2 <= List.length p)%nat) routes ->
    exists (tbl : table) (self' : BetweennessCentrality.t),
      Geo.centrality self fuel g = Some (Ok (tbl, self', g')).
Proof.
  intros self k fuel g routes g' Hn Hk Eg Hproper.
  destruct (generate_routes_returns self k fuel g routes g' Hn Eg)
    as (_ & Hlen & Hkept).
  unfold Geo.centrality. rewrite Eg. unfold Geo.count_routes.
  assert (Hall : Forall (fun r => exists rows,
                    route_to_gdf (BetweennessCentrality.graph self) r = Ok rows)
                  routes).
  { apply Forall_forall. intros r Hin.
    rewrite Forall_forall in Hkept, Hproper.
    destruct (kept_walk _ _ _ (Hkept r Hin)) as (p & -> & Hwalk).
    destruct (Hproper _ Hin) as (p' & Ep & Hp). injection Ep as <-.
    apply (proj2 (route_to_gdf_walk _ p Hwalk) Hp). }
  destruct (mapM_total _ _ Hall) as [frames Hframes].
  rewrite Hframes. simpl bind.
  assert (Hne : frames <> []).
  { apply mapM_ok in Hframes. apply Forall2_length in Hframes.
    intros ->. simpl in Hframes. lia. }
  destruct frames as [| f fs]; [congruence |].
  simpl. eauto.
Qed.

(** An instance: the two routes on the chain. *)
Lemma geo_centrality_returns_for_proper_routes_witness :
  exists (tbl : table) (self' : BetweennessCentrality.t),
    Geo.centrality (geo_object "A" chain 2 "out") 1 (tape_of [0; 0; 2; 1]%nat 0)
    = Some (Ok (tbl, self', advance 4 (tape_of [0; 0; 2; 1]%nat 0))).
Proof.
  apply (geo_centrality_returns_for_proper_routes
           (geo_object "A" chain 2 "out") 2 1 (tape_of [0; 0; 2; 1]%nat 0)
           [Some [1; 2; 3]; Some [1; 2]]).
  - reflexivity.
  - lia.
  - vm_compute. reflexivity.
  - repeat constructor; eexists; (split; [reflexivity | simpl; lia]).
Defined.

(** ** The table of [Geo.centrality]: order, range and total *)

Lemma key_sorted_map {V W : Type} (f : V -> W) (t : list (edge_key * V)) :
  key_sorted t -> key_sorted (map (fun kc => (fst kc, f (snd kc))) t).
Proof.
  unfold key_sorted. induction 1 as [| a t Ht IH Hall]; simpl; constructor.
  - exact IH.
  - apply Forall_map. eapply Forall_impl; [| exact Hall].
    intros b Hb. exact Hb.
Qed.

Lemma key_sorted_NoDup {V : Type} (t : list (edge_key * V)) :
  key_sorted t -> NoDup (map fst t).
Proof.
  unfold key_sorted. induction 1 as [| a t Ht IH Hall]; simpl; constructor;
    [| exact IH].
  intros Hin. apply in_map_iff in Hin. destruct Hin as (b & Eb & Hb).
  rewrite Forall_forall in Hall. specialize (Hall b Hb).
  rewrite Eb, key_ltb_irrefl in Hall. discriminate Hall.
Qed.

Lemma key_sorted_lookup {V : Type} (t : list (edge_key * V)) (k : edge_key)
    (v : V) :
  key_sorted t -> In (k, v) t -> lookup k t = Some v.
Proof.
  unfold key_sorted. induction 1 as [| [k' v'] t Ht IH Hall]; simpl;
    intros Hin; [destruct Hin |].
  destruct Hin as [E | Hin].
  - injection E as -> ->. rewrite key_eqb_refl. reflexivity.
  - destruct (key_eqb k k') eqn:E.
    + apply key_eqb_eq in E. subst k'. exfalso.
      rewrite Forall_forall in Hall. specialize (Hall _ Hin). simpl in Hall.
      rewrite key_ltb_irrefl in Hall. discriminate Hall.
    + apply IH. exact Hin.
Qed.

Lemma total_count_cons (k : edge_key) (c : Z) (t : list (edge_key * Z)) :
  total_count ((k, c) :: t) = c + total_count t.
Proof. reflexivity. Qed.

Lemma total_count_row (k : edge_key) (t : list (edge_key * Z)) :
  total_count (count_row k t) = total_count t + 1.
Proof.
  induction t as [| [k' c] t IH]; [reflexivity |].
  simpl count_row.
  destruct (key_eqb k k'); [rewrite !total_count_cons; lia |].
  destruct (key_ltb k k'); [rewrite !total_count_cons; lia |].
  rewrite !total_count_cons, IH. lia.
Qed.

Lemma total_count_groupby (rows : list edge_row) :
  total_count (groupby_count rows) = Z.of_nat (List.length rows).
Proof.
  unfold groupby_count.
  assert (H : forall acc,
             total_count (fold_left (fun t r => count_row (fst r) t) rows acc)
             = total_count acc + Z.of_nat (List.length rows)).
  { induction rows as [| r rows IH]; intros acc; simpl fold_left.
    - simpl. lia.
    - rewrite IH, total_count_row. simpl List.length. lia. }
  rewrite H. reflexivity.
Qed.

Lemma frames_hops (G : MultiDiGraph) (routes : list (option route))
    (frames : list (list edge_row)) :
  Forall2 (fun r frame => route_to_gdf G r = Ok frame) routes frames ->
  Z.of_nat (List.length (List.concat frames)) = total_hops routes.
Proof.
  unfold total_hops. intros H. f_equal.
  induction H as [| r frame routes frames Hr _ IH]; simpl; [reflexivity |].
  rewrite !length_app, IH. f_equal.
  destruct r as [p |]; [| discriminate Hr].
  apply route_to_gdf_hops in Hr. apply Forall2_length in Hr.
  symmetry. exact Hr.
Qed.

Lemma routes_through_le (G : MultiDiGraph) (routes : list (option route))
    (e : edge_key) :
  routes_through G routes e <= Z.of_nat (List.length routes).
Proof.
  unfold routes_through. apply inj_le. apply filter_length_le.
Qed.

(** The table [Geo.centrality] returns has its keys in strictly
    increasing order (so no key twice), every centrality is an integer
    between 1 and the number of routes requested, and the centralities add
    up to the number of hops of the sampled routes. *)
Theorem geo_centrality_table_shape :
  forall (self : BetweennessCentrality.t) (k : Z) (fuel : nat) (g : rng)
         (tbl : table) (self' : BetweennessCentrality.t) (g' : rng),
    BetweennessCentrality.n self = Some k ->
    Geo.centrality self fuel g = Some (Ok (tbl, self', g')) ->
    key_sorted tbl
    /\ NoDup (map fst tbl)
    /\ Forall (fun row => exists c, snd row = PyInt c /\ 1 <= c <= k) tbl
    /\ exists (routes : list (option route)) (counts : list (edge_key * Z)),
         Geo.generate_routes self fuel g = Some (Ok (routes, g'))
         /\ tbl = map (fun kc => (fst kc, PyInt (snd kc))) counts
         /\ total_count counts = total_hops routes.
Proof.
  intros self k fuel g tbl self' g' Hn E.
  pose proof E as E0. unfold Geo.centrality in E.
  destruct (Geo.generate_routes self fuel g) as [[[routes g1] | ex] |] eqn:Eg;
    try discriminate E.
  injection E as E.
  apply bind_ok in E. destruct E as (df & Ec & E).
  injection E as -> _ <-.
  destruct (generate_routes_returns self k fuel g routes g1 Hn Eg)
    as (_ & Hlen & Hkept).
  assert (Hsimple : Forall simple routes).
  { eapply Forall_impl; [| exact Hkept]. intros r. apply kept_simple. }
  pose proof (count_routes_spec _ routes tbl Hsimple Ec) as Hlookup.
  unfold Geo.count_routes in Ec.
  apply bind_ok in Ec. destruct Ec as (frames & Ef & Ec).
  apply bind_ok in Ec. destruct Ec as (rows & Erows & Ec).
  injection Ec as <-.
  assert (rows = List.concat frames) as ->.
  { unfold pd_concat in Erows. destruct frames; [discriminate |].
    injection Erows as <-. reflexivity. }
  destruct (groupby_count_spec (List.concat frames)) as [Hsorted _].
  pose proof (key_sorted_map PyInt _ Hsorted) as Hs.
  split; [exact Hs | split; [apply key_sorted_NoDup; exact Hs | split]].
  - apply Forall_forall. intros [e v] Hin.
    pose proof (key_sorted_lookup _ e v Hs Hin) as Hl.
    rewrite Hlookup in Hl.
    pose proof (routes_through_le (BetweennessCentrality.graph self) routes e) as Hle.
    assert (Hnn : 0 <= routes_through (BetweennessCentrality.graph self) routes e)
      by (unfold routes_through; lia).
    destruct (routes_through (BetweennessCentrality.graph self) routes e =? 0)
      eqn:Hz; [discriminate Hl |].
    apply Z.eqb_neq in Hz. injection Hl as <-.
    eexists. split; [reflexivity | lia].
  - exists routes, (groupby_count (List.concat frames)).
    split; [reflexivity | split; [reflexivity |]].
    rewrite total_count_groupby.
    apply (frames_hops _ routes frames (mapM_ok _ _ _ Ef)).
Qed.

(** An instance: the two routes on the chain, three hops in all. *)
Lemma geo_centrality_table_shape_witness :
  key_sorted chain_table /\ NoDup (map fst chain_table).
Proof.
  pose proof (geo_centrality_table_shape
                (geo_object "A" chain 2 "out") 2 1 (tape_of [0; 0; 2; 1]%nat 0)
                chain_table
                (BetweennessCentrality.set_centrality_df
                   (geo_object "A" chain 2 "out") chain_table)
                (advance 4 (tape_of [0; 0; 2; 1]%nat 0))
                eq_refl ltac:(vm_compute; reflexivity)) as H.
  exact (conj (proj1 H) (proj1 (proj2 H))).
Defined.

(** ** [join_dataframe]: keys without an edge *)

Lemma left_join_absent (left : table) (rt : list edge_row) (k : edge_key)
    (c : num) :
  In (k, c) left -> ~ In k (map fst rt) -> In (k, c, None) (left_join left rt).
Proof.
  intros Hin Hout. unfold left_join. apply in_flat_map.
  exists (k, c). split; [exact Hin |].
  unfold join_row. simpl. rewrite (matches_absent k rt Hout).
  left. reflexivity.
Qed.

(** A row of the centrality table whose key is no key of the edge frame
    is kept by [join_dataframe], with the string [nan] as [osmid] and no
    geometry; and no row of the layer has a weight before
    [plot_network]. *)
Theorem join_dataframe_missing_key :
  forall (self : BetweennessCentrality.t) (df : table)
         (gdf : list layer_row) (self' : BetweennessCentrality.t)
         (k : edge_key) (c : num),
    BetweennessCentrality.centrality_df self = Some df ->
    BetweennessCentrality.join_dataframe self = Ok (gdf, self') ->
    In (k, c) df ->
    ~ In k (map fst (BetweennessCentrality.edges_df self)) ->
    In {| l_key := k; l_centrality := c; l_osmid := "nan";
          l_geometry := None; l_weight := None |} gdf
    /\ Forall (fun r => l_weight r = None) gdf.
Proof.
  intros self df gdf self' k c Hdf Hjoin Hin Hout.
  unfold BetweennessCentrality.join_dataframe in Hjoin. rewrite Hdf in Hjoin.
  injection Hjoin as <- _. split.
  - apply in_map_iff. exists (k, c, None). split.
    + unfold BetweennessCentrality.joined_row.
      destruct (forallb _ _ && existsb _ _); reflexivity.
    + apply left_join_absent; assumption.
  - apply Forall_forall. intros r Hr. apply in_map_iff in Hr.
    destruct Hr as ([[k' c'] d] & <- & _). reflexivity.
Qed.

(** An instance: a table with the key (3, 1, 0), which the chain has no
    edge for. *)
Lemma join_dataframe_missing_key_witness :
  In {| l_key := (3, 1, 0); l_centrality := PyInt 1; l_osmid := "nan";
        l_geometry := None; l_weight := None |}
     [{| l_key := (3, 1, 0); l_centrality := PyInt 1; l_osmid := "nan";
         l_geometry := None; l_weight := None |}]
  /\ Forall (fun r => l_weight r = None)
       [{| l_key := (3, 1, 0); l_centrality := PyInt 1; l_osmid := "nan";
           l_geometry := None; l_weight := None |}].
Proof.
  apply (join_dataframe_missing_key
           (BetweennessCentrality.set_centrality_df
              (geo_object "A" chain 1 "out") [((3, 1, 0), PyInt 1)])
           [((3, 1, 0), PyInt 1)] _
           (BetweennessCentrality.set_centrality_gdf
              (BetweennessCentrality.set_centrality_df
                 (geo_object "A" chain 1 "out") [((3, 1, 0), PyInt 1)])
              [{| l_key := (3, 1, 0); l_centrality := PyInt 1; l_osmid := "nan";
                  l_geometry := None; l_weight := None |}])
           (3, 1, 0) (PyInt 1)).
  - reflexivity.
  - reflexivity.
  - left. reflexivity.
  - simpl. intros [E | [E | [E | []]]]; discriminate E.
Defined.

(** ** The export and a run of [main] that returns *)














(** ** The constructors and the order of the calls *)

Lemma base_init_frames (X : External) (study_area : string) (G : MultiDiGraph)
    (route_types out : string) (self : BetweennessCentrality.t) :
  BetweennessCentrality.init study_area G route_types out = Ok self ->
  nodes (BetweennessCentrality.graph self) <> []
  /\ edges (BetweennessCentrality.graph self) <> []
  /\ BetweennessCentrality.nodes_df self = nodes (BetweennessCentrality.graph self)
  /\ BetweennessCentrality.edges_df self
     = map row_of (edges (BetweennessCentrality.graph self))
  /\ BetweennessCentrality.centrality_df self = None
  /\ BetweennessCentrality.centrality_gdf self = None.
Proof.
  unfold BetweennessCentrality.init. intros E.
  apply bind_ok in E. destruct E as ([g w] & _ & E).
  apply bind_ok in E. destruct E as ([ndf edf] & Ef & E).
  injection E as <-. simpl.
  unfold graph_to_gdfs in Ef.
  destruct (nodes g) as [| x ns] eqn:En; [discriminate Ef |].
  destruct (edges g) as [| e es] eqn:Ee; [discriminate Ef |].
  injection Ef as <- <-. repeat split; discriminate.
Qed.

(** A graph without nodes or without edges cannot be used: for the route
    type [shortest] both constructors raise [ValueError].  An object that
    a constructor returns has a graph with nodes and edges, and its edge
    frame has one row per edge under the edge's key, so that a graph
    without a repeated key gives an edge frame without a repeated key. *)
Theorem constructors_need_nodes_and_edges :
  forall (X : External) (study_area out route_types : string)
         (G : MultiDiGraph) (k : Z),
    (nodes G = [] \/ edges G = [] ->
     Geo.init study_area G "shortest" k out = Raise ValueError
     /\ Networkx.init study_area G "shortest" out = Raise ValueError)
    /\ forall self : BetweennessCentrality.t,
         Geo.init study_area G route_types k out = Ok self
         \/ Networkx.init study_area G route_types out = Ok self ->
         nodes (BetweennessCentrality.graph self) <> []
         /\ edges (BetweennessCentrality.graph self) <> []
         /\ map fst (BetweennessCentrality.edges_df self)
            = map key_of (edges (BetweennessCentrality.graph self))
         /\ (NoDup (map key_of (edges (BetweennessCentrality.graph self))) ->
             NoDup (map fst (BetweennessCentrality.edges_df self))).
Proof.
  intros X study_area out route_types G k. split.
  - intros Hempty.
    assert (Hbase : BetweennessCentrality.init study_area G "shortest" out
                    = Raise ValueError).
    { unfold BetweennessCentrality.init, graph_to_gdfs. simpl.
      destruct Hempty as [-> | ->]; [reflexivity |].
      destruct (nodes G); reflexivity. }
    unfold Geo.init, Networkx.init. rewrite Hbase. split; reflexivity.
  - intros self Hinit.
    assert (Hframes :
      nodes (BetweennessCentrality.graph self) <> []
      /\ edges (BetweennessCentrality.graph self) <> []
      /\ BetweennessCentrality.edges_df self
         = map row_of (edges (BetweennessCentrality.graph self))).
    { unfold Geo.init, Networkx.init in Hinit.
      destruct Hinit as [E | E]; apply bind_ok in E;
        destruct E as (base & Eb & E); injection E as <-;
        destruct (base_init_frames X _ _ _ _ _ Eb) as (Hn & He & _ & Hdf & _);
        simpl; auto. }
    destruct Hframes as (Hn & He & Hdf).
    assert (Hkeys : map fst (BetweennessCentrality.edges_df self)
                    = map key_of (edges (BetweennessCentrality.graph self))).
    { rewrite Hdf, map_map. reflexivity. }
    split; [exact Hn | split; [exact He | split; [exact Hkeys |]]].
    rewrite Hkeys. auto.
Qed.

(** An instance: a graph with two nodes and no edge, and the chain. *)
Lemma constructors_need_nodes_and_edges_witness :
  @Geo.init offline "A" {| nodes := [1; 2]; edges := [] |} "shortest" 3 "out"
  = Raise ValueError
  /\ NoDup (map fst (BetweennessCentrality.edges_df (geo_object "A" chain 3 "out"))).
Proof.
  split.
  - exact (proj1 (proj1 (constructors_need_nodes_and_edges offline "A" "out"
                           "shortest" {| nodes := [1; 2]; edges := [] |} 3)
                   (or_intror eq_refl))).
  - refine (proj2 (proj2 (proj2
              (proj2 (constructors_need_nodes_and_edges offline "A" "out"
                        "shortest" chain 3)
                 (geo_object "A" chain 3 "out") (or_introl eq_refl)))) _).
    simpl. repeat constructor; simpl; intuition discriminate.
Defined.

(** The methods have an order.  On an object fresh from a constructor,
    before [centrality], [join_dataframe] raises [AttributeError]; before
    [join_dataframe], [plot_network] and [save_as_png] raise [TypeError]
    and [save_as_geopackage] raises [AttributeError]; none of them creates
    the folder or writes a file. *)
Theorem methods_before_centrality_raise :
  forall (X : External) (study_area out route_types : string)
         (G : MultiDiGraph) (k : Z) (self : BetweennessCentrality.t),
    Geo.init study_area G route_types k out = Ok self
    \/ Networkx.init study_area G route_types out = Ok self ->
    BetweennessCentrality.join_dataframe self = Raise AttributeError
    /\ BetweennessCentrality.plot_network self = Raise TypeError
    /\ (forall fs : filesystem,
           BetweennessCentrality.save_as_geopackage self fs = Raise AttributeError
           /\ BetweennessCentrality.save_as_png self fs = Raise TypeError)
    /\ (forall (df : table),
           BetweennessCentrality.plot_network
             (BetweennessCentrality.set_centrality_df self df)
           = Raise TypeError).
Proof.
  intros X study_area out route_types G k self Hinit.
  assert (Hnone : BetweennessCentrality.centrality_df self = None
                  /\ BetweennessCentrality.centrality_gdf self = None).
  { unfold Geo.init, Networkx.init in Hinit.
    destruct Hinit as [E | E]; apply bind_ok in E;
      destruct E as (base & Eb & E); injection E as <-;
      destruct (base_init_frames X _ _ _ _ _ Eb) as (_ & _ & _ & _ & Hd & Hg);
      simpl; auto. }
  destruct Hnone as [Hdf Hgdf].
  assert (Hplot : BetweennessCentrality.plot_network self = Raise TypeError).
  { unfold BetweennessCentrality.plot_network. rewrite Hgdf. reflexivity. }
  split; [| split; [exact Hplot | split]].
  - unfold BetweennessCentrality.join_dataframe. rewrite Hdf. reflexivity.
  - intros fs. split.
    + unfold BetweennessCentrality.save_as_geopackage. rewrite Hgdf. reflexivity.
    + unfold BetweennessCentrality.save_as_png. rewrite Hplot. reflexivity.
  - intros df. unfold BetweennessCentrality.plot_network. simpl.
    rewrite Hgdf. reflexivity.
Qed.

(** An instance: a [Geo] object on the chain. *)
Lemma methods_before_centrality_raise_witness :
  BetweennessCentrality.join_dataframe (geo_object "A" chain 3 "out")
  = Raise AttributeError
  /\ BetweennessCentrality.plot_network (geo_object "A" chain 3 "out")
     = Raise TypeError.
Proof.
  pose proof (methods_before_centrality_raise offline "A" "out" "shortest"
                chain 3 (geo_object "A" chain 3 "out") (or_introl eq_refl)) as H.
  exact (conj (proj1 H) (proj1 (proj2 H))).
Defined.

(** ** The former module: [random_routes] *)

Lemma uniforms_length (k : nat) (a b : Q) (g : unit_rng) :
  List.length (fst (uniforms k a b g)) = k.
Proof.
  revert g. induction k as [| k IH]; intros g; simpl; [reflexivity |].
  specialize (IH {| utape := utape g; upos := S (upos g) |}).
  destruct (uniforms k a b _) as [xs g2]. simpl in *. rewrite IH. reflexivity.
Qed.

Lemma nearest_nodes_ok (Y : Geography) (G : MultiDiGraph) (xs ys : list Q)
    (k : nat) :
  List.length xs = S k -> List.length ys = S k ->
  exists ns, nearest_nodes G xs ys = Ok ns /\ List.length ns = S k.
Proof.
  intros Hx Hy. unfold nearest_nodes.
  destruct xs as [| x xs]; [discriminate |].
  destruct ys as [| y ys]; [discriminate |].
  simpl combine. eexists. split; [reflexivity |].
  rewrite length_map. simpl. rewrite length_combine.
  simpl in Hx, Hy. lia.
Qed.

(** A request for [count > 0] routes is answered with [count] routes,
    each the router's answer for some pair of nodes. *)
Lemma former_generate_routes_count (Y : Geography) (self : Former.t)
    (count : Z) (g : unit_rng) :
  0 < count ->
  exists routes g',
    Former.generate_routes self count g = Ok (routes, g')
    /\ Z.of_nat (List.length routes) = count
    /\ Forall (routed (Former.graph self)) routes.
Proof.
  intros Hc. unfold Former.generate_routes.
  destruct (total_bounds (Former.edges_df self)) as [[[west south] east] north].
  set (k := Z.to_nat (2 * count)).
  pose proof (uniforms_length k west east g) as Hlon.
  destruct (uniforms k west east g) as [lon_id g1]. simpl in Hlon.
  assert (Hlat : exists lat_id g2,
             (if negb (Qle_bool (Qabs north) (Qabs south))
              then uniforms k south north g1 else uniforms k north south g1)
             = (lat_id, g2) /\ List.length lat_id = k).
  { destruct (negb (Qle_bool (Qabs north) (Qabs south))).
    - pose proof (uniforms_length k south north g1) as H.
      destruct (uniforms k south north g1) as [l g2]. eauto.
    - pose proof (uniforms_length k north south g1) as H.
      destruct (uniforms k north south g1) as [l g2]. eauto. }
  destruct Hlat as (lat_id & g2 & -> & Hlat).
  set (c := Z.to_nat count).
  assert (Hk : k = (c + c)%nat) by (unfold k, c; lia).
  assert (Hcpos : exists c', c = S c') by (exists (pred c); unfold c; lia).
  destruct Hcpos as [c' Hc'].
  assert (Hto : forall l : list Q, List.length l = k ->
                  List.length (slice_to count l) = S c'
                  /\ List.length (slice_from count l) = S c').
  { intros l Hl. unfold slice_to, slice_from.
    destruct (0 <=? count) eqn:H0; [| apply Z.leb_gt in H0; lia].
    fold c. rewrite length_firstn, length_skipn, Hl, Hk, <- Hc'. lia. }
  destruct (Hto lon_id Hlon) as [Hlon1 Hlon2].
  destruct (Hto lat_id Hlat) as [Hlat1 Hlat2].
  destruct (nearest_nodes_ok Y (Former.graph self) _ _ c' Hlon1 Hlat1)
    as (origs & -> & Ho).
  destruct (nearest_nodes_ok Y (Former.graph self) _ _ c' Hlon2 Hlat2)
    as (dests & -> & Hd).
  simpl bind. eexists. eexists. split; [reflexivity |]. split.
  - rewrite length_map, length_combine, Ho, Hd, Nat.min_id, <- Hc'.
    unfold c. lia.
  - apply Forall_forall. intros r Hr. apply in_map_iff in Hr.
    destruct Hr as ([o d] & <- & _). exists o, d. reflexivity.
Qed.

Lemma filter_length_all {A : Type} (f : A -> bool) (l : list A) :
  List.length (filter f l) = List.length l -> Forall (fun x => f x = true) l.
Proof.
  induction l as [| x l IH]; simpl; intros H; [constructor |].
  pose proof (filter_length_le f l) as Hle.
  destruct (f x) eqn:E; simpl in H; [| lia].
  constructor; [exact E | apply IH; lia].
Qed.

Lemma filter_all {A : Type} (f : A -> bool) (l : list A) :
  Forall (fun x => f x = true) l -> filter f l = l.
Proof.
  induction 1 as [| x l Hx _ IH]; simpl; [reflexivity |].
  rewrite Hx, IH. reflexivity.
Qed.

Lemma filter_drops {A : Type} (f : A -> bool) (l : list A) (x : A) :
  In x l -> f x = false -> (List.length (filter f l) < List.length l)%nat.
Proof.
  induction l as [| y l IH]; simpl; intros Hin Hx; [destruct Hin |].
  pose proof (filter_length_le f l) as Hle.
  destruct Hin as [-> | Hin].
  - rewrite Hx. lia.
  - specialize (IH Hin Hx). destruct (f y); simpl; lia.
Qed.

Lemma route_eqb_refl (r : option route) : Former.route_eqb r r = true.
Proof.
  destruct r as [p |]; simpl; [| reflexivity].
  destruct (list_eq_dec Z.eq_dec p p); [reflexivity | congruence].
Qed.

(** What [check_edges] lets pass. *)
Lemma check_edges_false (self : Former.t) (routes : list (option route)) :
  Former.check_edges self routes = false ->
  Z.of_nat (List.length (filter Former.truthy routes)) = Former.n self
  /\ Forall (fun r => Former.single r = false) (filter Former.truthy routes).
Proof.
  unfold Former.check_edges.
  set (kept_routes := filter Former.truthy routes).
  destruct (Z.of_nat (List.length kept_routes) =? Former.n self) eqn:Hlen;
    simpl; [| discriminate].
  apply Z.eqb_eq in Hlen. intros Hex. split; [exact Hlen |].
  apply Forall_forall. intros r Hr.
  apply In_nth_error in Hr. destruct Hr as [i Hi].
  destruct (Former.single r) eqn:Hs; [| reflexivity].
  assert (Hlt : (i < List.length kept_routes)%nat)
    by (apply nth_error_Some; congruence).
  assert (Htrue : existsb (fun i => match nth_error kept_routes i with
                                    | Some r => Former.single r
                                    | None => false
                                    end) (seq 0 (Z.to_nat (Former.n self))) = true).
  { apply existsb_exists. exists i. split.
    - apply in_seq. lia.
    - rewrite Hi. exact Hs. }
  congruence.
Qed.

(** What [check_edges] stops: with [n] routes in the list, a pass of the
    loop drops at least one. *)
Lemma check_edges_true (self : Former.t) (routes : list (option route)) :
  Former.check_edges self routes = true ->
  Z.of_nat (List.length routes) = Former.n self ->
  let kept_routes := filter Former.truthy routes in
  Z.of_nat (List.length
              (filter (fun x => negb (existsb (Former.route_eqb x)
                                        (filter Former.single kept_routes)))
                      kept_routes))
  < Former.n self.
Proof.
  intros Hcheck Hlen kept_routes. unfold Former.check_edges in Hcheck.
  fold kept_routes in Hcheck.
  pose proof (filter_length_le Former.truthy routes) as Hle.
  fold kept_routes in Hle.
  pose proof (filter_length_le
                (fun x => negb (existsb (Former.route_eqb x)
                                  (filter Former.single kept_routes)))
                kept_routes) as Hle2.
  destruct (Z.of_nat (List.length kept_routes) =? Former.n self) eqn:Hk;
    simpl in Hcheck.
  - apply Z.eqb_eq in Hk. apply existsb_exists in Hcheck.
    destruct Hcheck as (i & _ & Hi).
    destruct (nth_error kept_routes i) as [r |] eqn:Enth; [| discriminate Hi].
    apply nth_error_In in Enth.
    assert (Hdrop : negb (existsb (Former.route_eqb r)
                            (filter Former.single kept_routes)) = false).
    { apply negb_false_iff. apply existsb_exists. exists r. split.
      - apply filter_In. split; assumption.
      - apply route_eqb_refl. }
    pose proof (filter_drops
                  (fun x => negb (existsb (Former.route_eqb x)
                                    (filter Former.single kept_routes)))
                  kept_routes r Enth Hdrop).
    lia.
  - apply Z.eqb_neq in Hk. lia.
Qed.

Lemma truthy_not_single_proper (r : option route) :
  Former.truthy r = true -> Former.single r = false -> proper r.
Proof.
  destruct r as [[| x [| y p]] |]; simpl; try discriminate.
  intros _ _. eexists. split; [reflexivity | simpl; lia].
Qed.

Lemma random_routes_loop_returns (Y : Geography) (self : Former.t)
    (fuel : nat) :
  forall (routes : list (option route)) (g : unit_rng)
         (result : list (option route)) (g' : unit_rng),
    0 < Former.n self ->
    Z.of_nat (List.length routes) = Former.n self ->
    Forall (routed (Former.graph self)) routes ->
    Former.random_routes_loop self fuel routes g = Some (Ok (result, g')) ->
    Z.of_nat (List.length result) = Former.n self
    /\ Forall proper result
    /\ Forall (routed (Former.graph self)) result.
Proof.
  assert (Hdone : forall routes,
             Z.of_nat (List.length routes) = Former.n self ->
             Forall (routed (Former.graph self)) routes ->
             Former.check_edges self routes = false ->
             Z.of_nat (List.length routes) = Former.n self
             /\ Forall proper routes
             /\ Forall (routed (Former.graph self)) routes).
  { intros routes Hlen Hrouted Hcheck.
    destruct (check_edges_false self routes Hcheck) as [Hk Hsingle].
    assert (Hall : Forall (fun r => Former.truthy r = true) routes)
      by (apply filter_length_all; lia).
    rewrite (filter_all _ _ Hall) in Hsingle.
    split; [exact Hlen | split; [| exact Hrouted]].
    rewrite Forall_forall in *. intros r Hr.
    apply truthy_not_single_proper; auto. }
  induction fuel as [| fuel IH]; intros routes g result g' Hn Hlen Hrouted;
    simpl; destruct (Former.check_edges self routes) eqn:Hcheck;
    try discriminate.
  - intros E. injection E as <- <-. apply Hdone; assumption.
  - pose proof (check_edges_true self routes Hcheck Hlen) as Hless.
    cbv zeta in Hless.
    unfold Former.replace_invalid.
    set (rest := filter (fun x => negb (existsb (Former.route_eqb x)
                           (filter Former.single (filter Former.truthy routes))))
                   (filter Former.truthy routes)) in *.
    destruct (former_generate_routes_count Y self
                (Former.n self - Z.of_nat (List.length rest)) g ltac:(lia))
      as (more & g1 & -> & Hmore & Hmrouted).
    simpl bind. apply IH; [exact Hn | |].
    + rewrite length_app. lia.
    + apply Forall_app. split; [| exact Hmrouted].
      rewrite Forall_forall in *. intros r Hr. apply Hrouted.
      unfold rest in Hr. apply filter_In in Hr. destruct Hr as [Hr _].
      apply filter_In in Hr. apply Hr.
  - intros E. injection E as <- <-. apply Hdone; assumption.
Qed.

(** When [random_routes] of the former module returns, for a positive
    number [n] of routes, it returns exactly [n] routes and every one of
    them has two nodes or more: routes that are missing or have a single
    node are replaced before the loop ends. *)
Theorem former_random_routes_proper :
  forall (Y : Geography) (self : Former.t) (fuel : nat) (g : unit_rng)
         (routes : list (option route)) (g' : unit_rng),
    0 < Former.n self ->
    Former.random_routes self fuel g = Some (Ok (routes, g')) ->
    Z.of_nat (List.length routes) = Former.n self
    /\ Forall proper routes.
Proof.
  intros Y self fuel g routes g' Hn E. unfold Former.random_routes in E.
  destruct (former_generate_routes_count Y self (Former.n self) g Hn)
    as (first & g1 & Eg & Hlen & Hrouted).
  rewrite Eg in E.
  destruct (random_routes_loop_returns Y self fuel first g1 routes g'
              Hn Hlen Hrouted E) as (H1 & H2 & _).
  split; assumption.
Qed.

(** An instance: on the graph of the tests the first pass picks the first
    node twice; the single-node route is replaced in the second pass. *)
Lemma former_random_routes_proper_witness :
  Z.of_nat (List.length [Some [43632295; 43632312]]) = 1
  /\ Forall proper [Some [43632295; 43632312]].
Proof.
  apply (former_random_routes_proper flatland former_two_way 1 retry_tape
           [Some [43632295; 43632312]]
           {| utape := utape retry_tape; upos := 8 |}).
  - reflexivity.
  - vm_compute. reflexivity.
Defined.

(** The former [centrality] returns a table whenever [random_routes]
    returns (for a positive [n]): no route it is given makes
    [route_to_gdf] raise; and the table holds, for every edge key, the
    number of routes that traverse the edge, with no row for an edge that
    no route traverses. *)
Theorem former_centrality_returns :
  forall (Y : Geography) (self : Former.t) (fuel : nat) (g : unit_rng)
         (routes : list (option route)) (g' : unit_rng),
    0 < Former.n self ->
    Former.random_routes self fuel g = Some (Ok (routes, g')) ->
    exists tbl : table,
      Former.centrality self fuel g = Some (Ok (tbl, g'))
      /\ forall e : edge_key,
           let c := routes_through (Former.graph self) routes e in
           lookup e tbl = if c =? 0 then None else Some (PyInt c).
Proof.
  intros Y self fuel g routes g' Hn E.
  pose proof E as E0. unfold Former.random_routes in E.
  destruct (former_generate_routes_count Y self (Former.n self) g Hn)
    as (first & g1 & Eg & Hlen & Hrouted).
  rewrite Eg in E.
  destruct (random_routes_loop_returns Y self fuel first g1 routes g'
              Hn Hlen Hrouted E) as (Hcount & Hproper & Hrt).
  assert (Hsimple : Forall simple routes).
  { rewrite Forall_forall in *. intros r Hr.
    destruct (Hrt r Hr) as (o & d & Er). destruct r as [p |]; [| exact I].
    simpl. apply (shortest_path_simple (Former.graph self) "length" o d p).
    symmetry. exact Er. }
  assert (Hall : Forall (fun r => exists rows,
                    route_to_gdf (Former.graph self) r = Ok rows) routes).
  { rewrite Forall_forall in *. intros r Hr.
    destruct (Hrt r Hr) as (o & d & Er).
    destruct (Hproper r Hr) as (p & -> & Hp).
    symmetry in Er. destruct (shortest_path_walk _ _ _ _ _ Er) as [_ Hwalk].
    apply (proj2 (route_to_gdf_walk _ p Hwalk) Hp). }
  destruct (mapM_total _ _ Hall) as [frames Hframes].
  assert (Hne : frames <> []).
  { pose proof (mapM_ok _ _ _ Hframes) as H2. apply Forall2_length in H2.
    intros ->. simpl in H2. lia. }
  assert (Hc : Geo.count_routes (Former.graph self) routes
               = Ok (map (fun kc => (fst kc, PyInt (snd kc)))
                         (groupby_count (List.concat frames)))).
  { unfold Geo.count_routes. rewrite Hframes. simpl bind.
    destruct frames; [congruence | reflexivity]. }
  eexists. split.
  - unfold Former.centrality. rewrite E0, Hc. reflexivity.
  - intros e. apply (count_routes_spec _ routes _ Hsimple Hc).
Qed.

(** An instance: the run with one retry on the graph of the tests. *)
Lemma former_centrality_returns_witness :
  exists tbl : table,
    @Former.centrality flatland former_two_way 1 retry_tape
    = Some (Ok (tbl, {| utape := utape retry_tape; upos := 8 |}))
    /\ forall e : edge_key,
         let c := routes_through two_way [Some [43632295; 43632312]] e in
         lookup e tbl = if c =? 0 then None else Some (PyInt c).
Proof.
  apply (former_centrality_returns flatland former_two_way 1 retry_tape
           [Some [43632295; 43632312]]).
  - reflexivity.
  - vm_compute. reflexivity.
Defined.
